(** * Alt-text bulk updater: a shallow embedding of [main.py]

    The development follows the layout of the script: text utilities
    ([slugify]), the checkpoint store ([CheckpointManager]), the request
    layer ([safe_request]), the per-unit transaction
    ([update_image_alt], [process_sku_images], [get_sku_details],
    [process_single_sku]) and the runner ([run_bulk_update]).

    Python objects are modelled as follows.
    - [str] is a list of Unicode code points ([pystr]).
    - a JSON object (an image record, a unit's detail record, the response
      headers) is a finite map from keys to scalar values.
    - effects (requests, sleeps, log lines, checkpoint writes) are recorded
      in a trace carried by an explicit state; exceptions are a result
      constructor, so that "does not raise" is a statement about values. *)

From Stdlib Require Import ZArith NArith List Bool Lia String Ascii Sorted.
From stdpp Require Import base option list gmap strings fin_maps.

Import ListNotations.
Local Open Scope Z_scope.

(** ** Python text *)

Module Text.

(** A Python [str]: the sequence of its code points. *)
Definition pystr := list N.

(** An ASCII literal of the script as a [pystr]. *)
Fixpoint py (s : string) : pystr :=
  match s with
  | EmptyString => []
  | String a r => N_of_ascii a :: py r
  end.

Definition hyphen : N := 45.
Definition underscore : N := 95.

(** [c.isspace()]: the white space of the Unicode database. On the
    ASCII range these are TAB, LF, VT, FF, CR, the four separators FS GS
    RS US, and SPACE; beyond it NEL (U+0085), the no-break space
    (U+00A0), U+1680, U+2000 to U+200A, U+2028, U+2029, U+202F, U+205F
    and U+3000. [str.strip()] and the class [\s] of a [str] pattern use
    this same set. *)
Definition is_space (c : N) : bool :=
  (((9 <=? c) && (c <=? 13)) || ((28 <=? c) && (c <=? 32)) ||
   (c =? 133) || (c =? 160) || (c =? 5760) ||
   ((8192 <=? c) && (c <=? 8202)) || ((8232 <=? c) && (c <=? 8233)) ||
   (c =? 8239) || (c =? 8287) || (c =? 12288))%N.

Definition is_upper (c : N) : bool := ((65 <=? c) && (c <=? 90))%N.
Definition is_lower (c : N) : bool := ((97 <=? c) && (c <=? 122))%N.
Definition is_digit (c : N) : bool := ((48 <=? c) && (c <=? 57))%N.
Definition is_ascii (c : N) : bool := (c <? 128)%N.

(** [.encode('ascii', 'ignore').decode('utf-8')]: code points that
    have no ASCII encoding are dropped. *)
Definition encode_ascii_ignore (t : pystr) : pystr := List.filter is_ascii t.

(** [str.lower] on text that is already ASCII. *)
Definition lower_char (c : N) : N := if is_upper c then (c + 32)%N else c.
Definition lower (t : pystr) : pystr := map lower_char t.

Fixpoint lstrip (t : pystr) : pystr :=
  match t with
  | [] => []
  | c :: r => if is_space c then lstrip r else t
  end.

Definition rstrip (t : pystr) : pystr := rev (lstrip (rev t)).

(** [str.strip()] *)
Definition strip (t : pystr) : pystr := rstrip (lstrip t).

(** [re.sub(r'[\s]+', '-', text)]: [in_run] tells that the previous
    character belonged to the whitespace run being replaced. *)
Fixpoint sub_spaces_from (in_run : bool) (t : pystr) : pystr :=
  match t with
  | [] => []
  | c :: r =>
      if is_space c
      then (if in_run then sub_spaces_from true r
            else hyphen :: sub_spaces_from true r)
      else c :: sub_spaces_from false r
  end.

Definition sub_spaces (t : pystr) : pystr := sub_spaces_from false t.

(** The class [a-z0-9\-] of the second substitution. *)
Definition slug_char (c : N) : bool :=
  is_lower c || is_digit c || (c =? hyphen)%N.

(** [re.sub(r'[^a-z0-9\-]', '', text)] *)
Definition drop_non_slug (t : pystr) : pystr := List.filter slug_char t.

Section Slugify.

(** [unicodedata.normalize('NFKD', _)] comes from the interpreter's
    Unicode database, which is not part of the script. *)
Variable normalize_NFKD : pystr -> pystr.

Definition slugify (text : pystr) : pystr :=
  match text with
  | [] => []
  | _ =>
      let text := encode_ascii_ignore (normalize_NFKD text) in
      let text := strip (lower text) in
      let text := sub_spaces text in
      drop_non_slug text
  end.

End Slugify.

(** The decomposition table restricted to U+0000..U+00FF, enough to run
    the script on Portuguese product names. ASCII is fixed by NFKD;
    code points above U+00FF are outside this table and left alone. *)
Definition latin1_base (c : N) : option (N * N) :=
  (if (192 <=? c) && (c <=? 197) then
     Some (65, nth (N.to_nat (c - 192)) [768; 769; 770; 771; 776; 778] 0)
   else if c =? 199 then Some (67, 807)
   else if (200 <=? c) && (c <=? 203) then
     Some (69, nth (N.to_nat (c - 200)) [768; 769; 770; 776] 0)
   else if (204 <=? c) && (c <=? 207) then
     Some (73, nth (N.to_nat (c - 204)) [768; 769; 770; 776] 0)
   else if c =? 209 then Some (78, 771)
   else if (210 <=? c) && (c <=? 214) then
     Some (79, nth (N.to_nat (c - 210)) [768; 769; 770; 771; 776] 0)
   else if (217 <=? c) && (c <=? 220) then
     Some (85, nth (N.to_nat (c - 217)) [768; 769; 770; 776] 0)
   else if c =? 221 then Some (89, 769)
   else None)%N.

Definition nfkd_latin1_char (c : N) : pystr :=
  (if c =? 160 then [32]
   else if c =? 168 then [32; 776]
   else if c =? 170 then [97]
   else if c =? 175 then [32; 772]
   else if c =? 178 then [50]
   else if c =? 179 then [51]
   else if c =? 180 then [32; 769]
   else if c =? 181 then [956]
   else if c =? 184 then [32; 807]
   else if c =? 185 then [49]
   else if c =? 186 then [111]
   else if c =? 188 then [49; 8260; 52]
   else if c =? 189 then [49; 8260; 50]
   else if c =? 190 then [51; 8260; 52]
   else if c =? 255 then [121; 776]
   else match latin1_base c with
        | Some (b, m) => [b; m]
        | None =>
            if (224 <=? c) && (c <=? 253) then
              match latin1_base (c - 32) with
              | Some (b, m) => [b + 32; m]
              | None => [c]
              end
            else [c]
        end)%N.

Definition nfkd_latin1 (t : pystr) : pystr := concat (map nfkd_latin1_char t).

(** [str(n)] for a non-negative integer. *)
Definition digit_char (d : nat) : N := (48 + N.of_nat d)%N.

Fixpoint decimal_from (fuel : nat) (n : nat) (acc : pystr) : pystr :=
  match fuel with
  | O => acc
  | S fuel =>
      let acc := digit_char (n mod 10) :: acc in
      match (n / 10)%nat with
      | O => acc
      | q => decimal_from fuel q acc
      end
  end.

Definition str_of_nat (n : nat) : pystr := decimal_from (S n) n [].

End Text.

Import Text.

(** ** Python values and JSON objects *)

Inductive pyval : Type :=
| PNone
| PBool (b : bool)
| PInt (n : Z)
| PStr (s : pystr).

Global Instance pyval_eq_dec : EqDecision pyval.
Proof. solve_decision. Defined.

(** A JSON object with scalar fields. *)
Abbreviation dict := (gmap string pyval).

(** [bool(v)] *)
Definition truthy (v : pyval) : bool :=
  match v with
  | PNone => false
  | PBool b => b
  | PInt n => negb (n =? 0)
  | PStr [] => false
  | PStr (_ :: _) => true
  end.

(** [d.get(k)] and [d.get(k, v)] *)
Definition dict_get (d : dict) (k : string) : pyval := default PNone (d !! k).
Definition dict_get_or (d : dict) (k : string) (v : pyval) : pyval :=
  default v (d !! k).

(** [a or b] *)
Definition py_or (a b : pyval) : pyval := if truthy a then a else b.

(** ** Exceptions and results *)

Inductive exn : Type :=
| Timeout             (* requests.exceptions.Timeout *)
| ConnectionError     (* requests.exceptions.ConnectionError *)
| RetryError          (* requests.exceptions.RetryError *)
| RequestException    (* any other failure of the HTTP library *)
| ValueError
| TypeError
| KeyError
| AttributeError
| OverflowError
| OSError
| KeyboardInterrupt.

(** [KeyboardInterrupt] derives from [BaseException] only. *)
Definition is_Exception (e : exn) : bool :=
  match e with
  | KeyboardInterrupt => false
  | _ => true
  end.

Inductive result (A : Type) : Type :=
| Ok (a : A)
| Raise (e : exn)
| OutOfFuel.

Arguments Ok {A} a.
Arguments Raise {A} e.
Arguments OutOfFuel {A}.

(** ** The remote catalog *)

Inductive method : Type := GET | PUT.

(** The four endpoints the script formats with f-strings. *)
Inductive url : Type :=
| UrlSkuIds (page page_size : Z)
| UrlSku (sku_id : Z)
| UrlSkuFiles (sku_id : Z)
| UrlSkuFile (sku_id : Z) (file_id : pyval).

(** One call of [SESSION.request]. [HEADERS] and [REQUEST_TIMEOUT] are
    constants that [setdefault] adds to every call and are left out. *)
Record request : Type := Request {
  req_method : method;
  req_url : url;
  req_json : option dict
}.

Inductive body : Type :=
| BIds (ids : list Z)
| BImages (images : list dict)
| BDetails (data : dict)
| BText (text : pystr).

(** [response.headers] is case-insensitive: the map holds every header
    under its lower-cased name, as the HTTP library stores it. *)
Record response : Type := Response {
  status_code : Z;
  headers : gmap string pystr;
  content : body
}.

(** How [SESSION.request] can fail: the HTTP library raises its own
    exception classes, all of them subclasses of [Exception]. *)
Inductive failure : Type :=
| TimedOut
| ConnectionFailed
| OtherFailure.

Definition exn_of_failure (f : failure) : exn :=
  match f with
  | TimedOut => Timeout
  | ConnectionFailed => ConnectionError
  | OtherFailure => RequestException
  end.

(** What the remote does with one call of [SESSION.request]: the answer
    to the last attempt that the session's adapter makes for the call, or
    the failure of that attempt. *)
Inductive outcome : Type :=
| Answer (r : response)
| Fails (f : failure).

(** [bool(response)] is [Response.ok] in the HTTP library: false for
    every status from 400 to 599. *)
Definition response_ok (r : response) : bool :=
  negb ((400 <=? status_code r) && (status_code r <? 600)).

(** Truth value of an [Optional[Response]]. *)
Definition response_truthy (r : option response) : bool :=
  match r with
  | None => false
  | Some r => response_ok r
  end.

(** [response.text] *)
Definition response_text (r : response) : pystr :=
  match content r with
  | BText t => t
  | _ => []
  end.

(** [response.json()] where the script expects a list of unit ids, a
    list of image records, or a detail record. The empty JSON list and
    object are falsy whatever the endpoint. Unit ids are integers and
    image records are objects in this embedding, as the endpoints
    document them: a non-empty body of another shape, whose elements or
    keys the script would go on to use as unit ids or as image records,
    is outside the model, which ends the step with the error below. *)
Definition json_ids (r : response) : result (list Z) :=
  match content r with
  | BIds ids => Ok ids
  | BImages [] => Ok []
  | BImages (_ :: _) => Raise TypeError
  | BDetails d => if decide (d = ∅) then Ok [] else Raise TypeError
  | BText _ => Raise ValueError
  end.

Definition json_images (r : response) : result (list dict) :=
  match content r with
  | BImages imgs => Ok imgs
  | BIds [] => Ok []
  | BIds (_ :: _) => Raise AttributeError
  | BDetails d => if decide (d = ∅) then Ok [] else Raise AttributeError
  | BText _ => Raise ValueError
  end.

Definition json_details (r : response) : result dict :=
  match content r with
  | BDetails d => Ok d
  | BIds _ | BImages _ => Raise AttributeError
  | BText _ => Raise ValueError
  end.

(** ** Checkpoint data and the checkpoint file *)

Record checkpoint : Type := Checkpoint {
  processed_skus : list Z;
  last_page : Z
}.

Definition fresh_checkpoint : checkpoint :=
  {| processed_skus := []; last_page := 1 |}.

(** What [json.load] returns for a parsable file: a checkpoint as
    [save] writes it, or a JSON value that has no ["last_page"] entry,
    which is an object without that key ([object = true], for instance
    the empty object) or a value that is not an object at all. An
    object that has the entry is taken to be a checkpoint: a list of
    integers under ["processed_skus"] and an integer cursor. *)
Inductive parsed : Type :=
| Shaped (c : checkpoint)
| Cursorless (object : bool).

(** [checkpoint.json] as [load] finds it. *)
Inductive file_state : Type :=
| NoFile                      (* os.path.exists is false *)
| Unreadable                  (* open raises *)
| Unparsable                  (* json.load raises *)
| Stored (c : checkpoint)     (* holds a checkpoint *)
| Foreign (object : bool).    (* parsable, without a "last_page" entry *)

(** ** Observable events *)

Inductive level : Type := INFO | WARNING | ERROR | CRITICAL.

(** The log lines of the script, by format string. *)
Inductive message : Type :=
| MsgRateLimit (retry_after : Z)
| MsgTimeout (m : method) (u : url)
| MsgConnectionError
| MsgUnexpected (e : exn)
| MsgImageUpdated (new_alt : pystr)
| MsgAuthError
| MsgUpdateError (sku_id : Z) (error_msg : pystr)
| MsgSkipSku (sku_id : Z)
| MsgSkipImage (new_alt : pystr)
| MsgGetError (sku_id : Z) (status : Z)
| MsgAlreadyProcessed (sku_id : Z)
| MsgSku (sku_id : Z) (ref_id name : pyval)
| MsgIgnored (sku_id : Z)
| MsgStartFresh
| MsgBanner
| MsgStarting (max_workers : nat) (start_page : Z)
| MsgFailedPage (page : Z)
| MsgEndOfCatalog
| MsgProcessingPage (page : Z) (n : nat)
| MsgCheckpointSaved (processed_count : nat)
| MsgCookieExpired
| MsgPageError (page : Z) (status : Z)
| MsgInterrupted
| MsgFatal (e : exn)
| MsgCompleted (processed_count : nat).

Inductive event : Type :=
| EvRequest (r : request)                (* SESSION.request is called *)
| EvSleep (seconds : Z)                  (* time.sleep in the 429 branch *)
| EvLog (l : level) (m : message)        (* log_message *)
| EvMark (sku_id : Z)                    (* mark_processed is called *)
| EvSave (snapshot : checkpoint)         (* json.dump(self.data, f) *)
| EvSubmit (page : Z) (sku_id : Z)       (* executor.submit *)
| EvDone (page : Z) (sku_id : Z).        (* the unit's future completed *)

(** ** Program state *)

Record state : Type := State {
  trace : list event;          (* what happened so far, oldest first *)
  data : checkpoint;           (* CheckpointManager.data, shared by workers;
                                  not meaningful while it holds a value
                                  without a cursor *)
  file : file_state;           (* checkpoint.json *)
  processed_count : nat        (* the runner's completion counter *)
}.

(** Everything the script does not decide: the remote's answers, the
    order in which the pool's futures complete, and the arrival of an
    interrupt in the main thread. Each may depend on the whole history. *)
Record world : Type := World {
  respond : list event -> request -> outcome;
  next_done : list event -> list Z -> nat;
  sigint : list event -> bool
}.

(** ** A state and exception monad *)

Definition M (A : Type) : Type := state -> result A * state.

Definition ret {A} (a : A) : M A := fun s => (Ok a, s).

Definition raise {A} (e : exn) : M A := fun s => (Raise e, s).

Definition out_of_fuel {A} : M A := fun s => (OutOfFuel, s).

Definition bind {A B} (c : M A) (k : A -> M B) : M B :=
  fun s =>
    match c s with
    | (Ok a, s') => k a s'
    | (Raise e, s') => (Raise e, s')
    | (OutOfFuel, s') => (OutOfFuel, s')
    end.

Declare Scope py_scope.
Delimit Scope py_scope with py.

Notation "x <- c ;; k" := (bind c (fun x => k))
  (at level 100, c at next level, right associativity) : py_scope.
Notation "c ;;; k" := (bind c (fun _ => k))
  (at level 100, right associativity) : py_scope.

Local Open Scope py_scope.

(** [try: c  except <handled>: h(e)]; an exception the clause does not
    name propagates. *)
Definition try_except {A} (c : M A) (handled : exn -> bool) (h : exn -> M A)
  : M A :=
  fun s =>
    match c s with
    | (Raise e, s') => if handled e then h e s' else (Raise e, s')
    | other => other
    end.

Definition lift {A} (r : result A) : M A := fun s => (r, s).

Definition emit (e : event) : M unit :=
  fun s => (Ok tt, {| trace := trace s ++ [e]; data := data s;
                      file := file s; processed_count := processed_count s |}).

Definition get_trace : M (list event) := fun s => (Ok (trace s), s).

Definition get_data : M checkpoint := fun s => (Ok (data s), s).

Definition set_data (c : checkpoint) : M unit :=
  fun s => (Ok tt, {| trace := trace s; data := c;
                      file := file s; processed_count := processed_count s |}).

Definition set_file (f : file_state) : M unit :=
  fun s => (Ok tt, {| trace := trace s; data := data s;
                      file := f; processed_count := processed_count s |}).

Definition get_count : M nat := fun s => (Ok (processed_count s), s).

Definition set_count (n : nat) : M unit :=
  fun s => (Ok tt, {| trace := trace s; data := data s;
                      file := file s; processed_count := n |}).

(** [log_message]: the line is printed and appended to the log file
    (and to the error log for ERROR and CRITICAL); a failing write is
    swallowed inside [log_message]. *)
Definition log_message (m : message) (l : level) : M unit := emit (EvLog l m).

(** ** Constants *)

Definition REQUEST_TIMEOUT : Z := 30.
Definition MAX_RETRIES : nat := 3.
Definition MAX_WORKERS : nat := 3.
Definition CHECKPOINT_INTERVAL : nat := 10.
Definition page_size : Z := 50.

(** ** Builtins used by the request layer *)

(** The code points of the Unicode database that are decimal digits
    come in runs of ten; these are the zeros of the runs. *)
Definition decimal_zeros : list N :=
  [48; 1632; 1776; 1984; 2406; 2534; 2662; 2790; 2918; 3046; 3174; 3302;
   3430; 3558; 3664; 3792; 3872; 4160; 4240; 6112; 6160; 6470; 6608; 6784;
   6800; 6992; 7088; 7232; 7248; 42528; 43216; 43264; 43472; 43504; 43600;
   44016; 65296; 66720; 68912; 69734; 69872; 69942; 70096; 70384; 70736;
   70864; 71248; 71360; 71472; 71904; 72016; 72784; 73040; 73120; 92768;
   92864; 93008; 120782; 120792; 120802; 120812; 120822; 123200; 123632;
   125264; 130032]%N.

Definition decimal_value (c : N) : option Z :=
  match List.find (fun z => (z <=? c) && (c <=? z + 9))%N decimal_zeros with
  | Some z => Some (Z.of_N (c - z))
  | None => None
  end.

(** The white space that [int] skips around the number: the ASCII
    white space of C, and the Unicode white space beyond ASCII. *)
Definition is_int_space (c : N) : bool :=
  (((9 <=? c) && (c <=? 13)) || (c =? 32) || ((127 <=? c) && is_space c))%N.

Fixpoint skip_int_space (t : pystr) : pystr :=
  match t with
  | [] => []
  | c :: r => if is_int_space c then skip_int_space r else t
  end.

(** The digits of [int(str)]: decimal digits, with single underscores
    allowed between digits. *)
Fixpoint digits_value (acc : Z) (after_digit : bool) (t : pystr) : option Z :=
  match t with
  | [] => if after_digit then Some acc else None
  | c :: r =>
      match decimal_value c with
      | Some d => digits_value (acc * 10 + d) true r
      | None =>
          if (c =? underscore)%N && after_digit then digits_value acc false r
          else None
      end
  end.

(** The interpreter refuses to convert more than this many digits. *)
Definition int_max_str_digits : nat := 4300.

(** [int(s)] for a string: surrounding white space, an optional sign,
    then the digits; [None] stands for [ValueError]. *)
Definition int_of_str (s : pystr) : option Z :=
  let t := rev (skip_int_space (rev (skip_int_space s))) in
  let '(negative, body) :=
    match t with
    | 43%N :: r => (false, r)
    | 45%N :: r => (true, r)
    | _ => (false, t)
    end in
  if (int_max_str_digits
      <? length (List.filter (fun c => bool_decide (is_Some (decimal_value c)))
                   body))%nat
  then None
  else (if negative then Z.opp else id) <$> digits_value 0 false body.

(** [int(response.headers.get('Retry-After', 60))] *)
Definition retry_after_of (r : response) : result Z :=
  match headers r !! "retry-after"%string with
  | None => Ok 60
  | Some v =>
      match int_of_str v with
      | Some n => Ok n
      | None => Raise ValueError
      end
  end.

(** [time.sleep(seconds)]: the length is converted to nanoseconds in a
    signed 64-bit integer, and a negative length is refused. *)
Definition sleep (seconds : Z) : M unit :=
  if (seconds * 10 ^ 9 <? - 2 ^ 63) || (2 ^ 63 - 1 <? seconds * 10 ^ 9)
  then raise OverflowError
  else if seconds <? 0 then raise ValueError
  else emit (EvSleep seconds).

(** The statuses on which the session's adapter retries, and gives up
    with an exception. *)
Definition status_forcelist : list Z := [429; 500; 502; 503; 504].

Definition forced (status : Z) : bool :=
  existsb (Z.eqb status) status_forcelist.

Definition status_is (r : option response) (code : Z) : bool :=
  match r with
  | Some r => status_code r =? code
  | None => false
  end.

(** ** Checkpoint store *)

Definition path_exists (f : file_state) : bool :=
  match f with
  | NoFile => false
  | _ => true
  end.

(** [with open(...) as f: return json.load(f)] *)
Definition open_and_load (f : file_state) : result parsed :=
  match f with
  | Stored c => Ok (Shaped c)
  | Foreign object => Ok (Cursorless object)
  | Unparsable => Raise ValueError
  | Unreadable | NoFile => Raise OSError
  end.

Definition load : M parsed :=
  fun s =>
    if path_exists (file s)
    then try_except (lift (open_and_load (file s))) (fun _ => true)
           (fun _ => ret (Shaped fresh_checkpoint)) s
    else (Ok (Shaped fresh_checkpoint), s).

(** [self.data = self.load()] in [__init__]. A value without a cursor
    is not a [checkpoint]: [data] is left as it is, and is not read
    before [clear] replaces it or [read_cursor] raises. *)
Definition init_data (d : parsed) : M unit :=
  match d with
  | Shaped c => set_data c
  | Cursorless _ => ret tt
  end.

(** [checkpoint.data["last_page"]] at the start of a run, where
    [self.data] is the value [d] that was loaded unless it has been
    [cleared]: an object without the key raises [KeyError], a value that
    is not an object raises [TypeError]. *)
Definition read_cursor (d : parsed) (cleared : bool) : M Z :=
  match d, cleared with
  | Cursorless object, false => raise (if object then KeyError else TypeError)
  | _, _ => c <- get_data ;; ret (last_page c)
  end.

(** [save]: the whole of [self.data] is written over the file. The
    write is taken to succeed: in the script a failing write is caught
    inside [save], which then calls [log_message] while it still holds
    [log_lock]; that case is outside the model. *)
Definition save : M unit :=
  d <- get_data ;;
  emit (EvSave d) ;;;
  set_file (Stored d).

Definition is_processed_in (sku_id : Z) (c : checkpoint) : bool :=
  existsb (Z.eqb sku_id) (processed_skus c).

Definition is_processed (sku_id : Z) : M bool :=
  d <- get_data ;; ret (is_processed_in sku_id d).

Definition mark_processed (sku_id : Z) : M unit :=
  emit (EvMark sku_id) ;;;
  d <- get_data ;;
  if is_processed_in sku_id d then ret tt
  else set_data {| processed_skus := processed_skus d ++ [sku_id];
                   last_page := last_page d |}.

Definition update_page (page : Z) : M unit :=
  d <- get_data ;;
  set_data {| processed_skus := processed_skus d; last_page := page |}.

Definition clear : M unit :=
  set_data fresh_checkpoint ;;; save.

(** ** The script, over a given world *)

Section Program.

Variable W : world.
Variable normalize_NFKD : pystr -> pystr.

(** [SESSION.request]. [create_session] mounts an adapter with
    [Retry(total=MAX_RETRIES, status_forcelist=[429, 500, 502, 503, 504],
    allowed_methods=["GET", "PUT", "POST"])]: an attempt answered with a
    status of the list is sent again inside the call, and when the last
    attempt is still answered with such a status the call raises
    [RetryError]. A response with a status of the list is therefore
    never returned. The attempts of one call leave one event. *)
Definition session_request (m : method) (u : url) (json : option dict)
  : M response :=
  fun s =>
    let rq := Request m u json in
    let s' := {| trace := trace s ++ [EvRequest rq]; data := data s;
                 file := file s; processed_count := processed_count s |} in
    match respond W (trace s) rq with
    | Answer r =>
        if forced (status_code r) then (Raise RetryError, s') else (Ok r, s')
    | Fails f => (Raise (exn_of_failure f), s')
    end.

(** [safe_request]; [fuel] bounds the depth of the recursion on 429.
    The rate gate's wait only passes time and leaves no event. *)
Fixpoint safe_request (fuel : nat) (m : method) (u : url)
    (json : option dict) : M (option response) :=
  match fuel with
  | O => out_of_fuel
  | S fuel =>
      try_except
        (response <- session_request m u json ;;
         if status_code response =? 429 then
           retry_after <- lift (retry_after_of response) ;;
           log_message (MsgRateLimit retry_after) WARNING ;;;
           sleep retry_after ;;;
           safe_request fuel m u json
         else ret (Some response))
        is_Exception
        (fun e =>
           match e with
           | Timeout => log_message (MsgTimeout m u) ERROR ;;; ret None
           | ConnectionError =>
               log_message MsgConnectionError ERROR ;;; ret None
           | _ => log_message (MsgUnexpected e) ERROR ;;; ret None
           end)
  end.

Definition payload_of (original_image_data : dict) (new_alt_text : pystr)
  : dict :=
  <["Text"%string := PStr new_alt_text]>
    (<["Label"%string := PStr new_alt_text]> original_image_data).

Definition update_image_alt (fuel : nat) (sku_id : Z)
    (original_image_data : dict) (new_alt_text : pystr) : M bool :=
  let file_id := dict_get original_image_data "Id" in
  let url := UrlSkuFile sku_id file_id in
  let payload := payload_of original_image_data new_alt_text in
  response <- safe_request fuel PUT url (Some payload) ;;
  if response_truthy response && status_is response 200 then
    log_message (MsgImageUpdated new_alt_text) INFO ;;; ret true
  else if response_truthy response && status_is response 401 then
    log_message MsgAuthError CRITICAL ;;; ret false
  else
    let error_msg :=
      match response with
      | Some r => if response_ok r then response_text r else py "No response"
      | None => py "No response"
      end in
    log_message (MsgUpdateError sku_id error_msg) ERROR ;;; ret false.

(** [all(img.get('Label') and img.get('Label').strip() for img in images)] *)
Fixpoint all_have_alt (images : list dict) : result bool :=
  match images with
  | [] => Ok true
  | img :: rest =>
      let label := dict_get img "Label" in
      if truthy label then
        match label with
        | PStr s =>
            match strip s with
            | [] => Ok false
            | _ :: _ => all_have_alt rest
            end
        | _ => Raise AttributeError
        end
      else Ok false
  end.

(** [slugify] applied to whatever the detail record holds as a name. *)
Definition slugify_name (product_name : pyval) : result pystr :=
  match product_name with
  | PStr s => Ok (slugify normalize_NFKD s)
  | v => if truthy v then Raise TypeError else Ok []
  end.

(** [f"{base_name}_{index}"] *)
Definition target_label (base_name : pystr) (index : nat) : pystr :=
  base_name ++ [underscore] ++ str_of_nat index.

(** The [for index, img in enumerate(images, start=1)] loop. *)
Fixpoint update_loop (fuel : nat) (sku_id : Z) (base_name : pystr)
    (index : nat) (images : list dict) (success : bool) : M bool :=
  match images with
  | [] => ret success
  | img :: rest =>
      let current_label := dict_get_or img "Label" (PStr []) in
      let new_alt := target_label base_name index in
      if decide (current_label = PStr new_alt) then
        log_message (MsgSkipImage new_alt) INFO ;;;
        update_loop fuel sku_id base_name (S index) rest success
      else
        updated <- update_image_alt fuel sku_id img new_alt ;;
        update_loop fuel sku_id base_name (S index) rest
          (if updated then success else false)
  end.

Definition process_sku_images (fuel : nat) (sku_id : Z)
    (product_name : pyval) : M bool :=
  response <- safe_request fuel GET (UrlSkuFiles sku_id) None ;;
  match response with
  | None => ret false
  | Some r =>
      if negb (response_ok r) then ret false
      else if status_code r =? 200 then
        images <- lift (json_images r) ;;
        match images with
        | [] => ret true
        | _ :: _ =>
            skip <- lift (all_have_alt images) ;;
            if skip then log_message (MsgSkipSku sku_id) INFO ;;; ret true
            else
              base_name <- lift (slugify_name product_name) ;;
              update_loop fuel sku_id base_name 1 images true
        end
      else if status_code r =? 404 then ret true
      else log_message (MsgGetError sku_id (status_code r)) ERROR ;;;
           ret false
  end.

Definition get_sku_details (fuel : nat) (sku_id : Z) : M (pyval * pyval) :=
  response <- safe_request fuel GET (UrlSku sku_id) None ;;
  match response with
  | Some r =>
      if response_ok r && (status_code r =? 200) then
        d <- lift (json_details r) ;;
        let name := py_or (py_or (dict_get d "ProductName")
                                 (dict_get d "NameComplete"))
                          (dict_get d "Name") in
        ret (name, dict_get d "RefId")
      else ret (PNone, PNone)
  | None => ret (PNone, PNone)
  end.

Definition process_single_sku (fuel : nat) (sku_id : Z) : M bool :=
  seen <- is_processed sku_id ;;
  if seen then
    log_message (MsgAlreadyProcessed sku_id) INFO ;;; ret true
  else
    details <- get_sku_details fuel sku_id ;;
    let '(product_name, ref_id) := details in
    if truthy product_name then
      log_message (MsgSku sku_id ref_id product_name) INFO ;;;
      success <- process_sku_images fuel sku_id product_name ;;
      (if success then mark_processed sku_id else ret tt) ;;;
      ret success
    else
      log_message (MsgIgnored sku_id) WARNING ;;; ret true.

(** *** The worker pool

    The pool runs the units of one page concurrently. The embedding
    takes a unit's transaction as one step and lets the world choose,
    among the units still pending, the one that completes next; the
    runner consumes each completion as [as_completed] yields it. *)

(** The [i]-th pending unit (counting cyclically) and the others. *)
Definition extract (i : nat) (pending : list Z) : option (Z * list Z) :=
  let j := (i mod length pending)%nat in
  match pending !! j with
  | Some sku_id => Some (sku_id, take j pending ++ drop (S j) pending)
  | None => None
  end.

(** One future: what [process_single_sku] returns or raises stays in
    the future, whose result the runner never asks for. *)
Definition worker (fuel : nat) (page : Z) (sku_id : Z) : M unit :=
  fun s =>
    match process_single_sku fuel sku_id s with
    | (OutOfFuel, s') => (OutOfFuel, s')
    | (_, s') => emit (EvDone page sku_id) s'
    end.

(** [executor.submit(process_single_sku, sku_id, checkpoint)] for
    every id of the page. *)
Fixpoint submit_all (page : Z) (sku_ids : list Z) : M unit :=
  match sku_ids with
  | [] => ret tt
  | sku_id :: rest => emit (EvSubmit page sku_id) ;;; submit_all page rest
  end.

(** Leaving the [with] block early: [shutdown(wait=True)] lets every
    submitted unit finish. *)
Fixpoint shutdown (fuel : nat) (page : Z) (n : nat) (pending : list Z)
  : M unit :=
  match n with
  | O => ret tt
  | S n =>
      tr <- get_trace ;;
      match extract (next_done W tr pending) pending with
      | None => ret tt
      | Some (sku_id, rest) =>
          worker fuel page sku_id ;;; shutdown fuel page n rest
      end
  end.

(** The [for future in as_completed(futures)] loop; [n] is the
    number of pending units. An interrupt that reaches the main
    thread leaves the loop through [shutdown]. *)
Fixpoint as_completed_loop (fuel : nat) (page : Z) (n : nat)
    (pending : list Z) : M unit :=
  match n with
  | O => ret tt
  | S n =>
      tr <- get_trace ;;
      match extract (next_done W tr pending) pending with
      | None => ret tt
      | Some (sku_id, rest) =>
          worker fuel page sku_id ;;;
          tr <- get_trace ;;
          if sigint W tr then
            shutdown fuel page n rest ;;; raise KeyboardInterrupt
          else
            c <- get_count ;;
            set_count (S c) ;;;
            (if (S c mod CHECKPOINT_INTERVAL =? 0)%nat then
               save ;;; log_message (MsgCheckpointSaved (S c)) INFO
             else ret tt) ;;;
            as_completed_loop fuel page n rest
      end
  end.

(** *** The runner *)

(** The [while True] loop; [fuel] bounds the number of pages. *)
Fixpoint page_loop (fuel : nat) (page : Z) : M unit :=
  match fuel with
  | O => out_of_fuel
  | S fuel =>
      tr <- get_trace ;;
      if sigint W tr then raise KeyboardInterrupt
      else
        response <- safe_request fuel GET (UrlSkuIds page page_size) None ;;
        match response with
        | None => log_message (MsgFailedPage page) ERROR
        | Some r =>
            if negb (response_ok r) then
              log_message (MsgFailedPage page) ERROR
            else if status_code r =? 200 then
              sku_ids <- lift (json_ids r) ;;
              match sku_ids with
              | [] => log_message MsgEndOfCatalog INFO
              | _ :: _ =>
                  log_message (MsgProcessingPage page (length sku_ids)) INFO ;;;
                  submit_all page sku_ids ;;;
                  as_completed_loop fuel page (length sku_ids) sku_ids ;;;
                  update_page (page + 1) ;;;
                  save ;;;
                  page_loop fuel (page + 1)
              end
            else if status_code r =? 401 then
              log_message MsgCookieExpired CRITICAL
            else log_message (MsgPageError page (status_code r)) ERROR
        end
  end.

Definition run_bulk_update (fuel : nat) (resume : bool) : M unit :=
  d <- load ;;
  init_data d ;;;
  (if resume then ret tt
   else clear ;;; log_message MsgStartFresh INFO) ;;;
  start_page <- read_cursor d (negb resume) ;;
  log_message MsgBanner INFO ;;;
  log_message (MsgStarting MAX_WORKERS start_page) INFO ;;;
  set_count 0 ;;;
  try_except (page_loop fuel start_page) (fun _ => true)
    (fun e =>
       match e with
       | KeyboardInterrupt =>
           log_message MsgInterrupted WARNING ;;; save
       | _ => log_message (MsgFatal e) CRITICAL ;;; save
       end) ;;;
  c <- get_count ;;
  log_message (MsgCompleted c) INFO.

End Program.

(** The state a run starts from. *)
Definition initial_state (f : file_state) : state :=
  {| trace := []; data := fresh_checkpoint; file := f; processed_count := 0 |}.

(** * Vocabulary of the properties *)

(** [s'] continues [s] with events that all satisfy [P]. *)
Definition grows (P : event -> Prop) (s s' : state) : Prop :=
  exists evs, trace s' = trace s ++ evs /\ Forall P evs.

(** A computation stays within a relation between the states before
    and after it, whatever it returns. *)
Definition within {A} (R : relation state) (c : M A) : Prop :=
  forall s, R s (c s).2.

(** [s'] continues [s] with events satisfying [P] and nothing else
    changes: the computation only talked to the outside. *)
Definition io (P : event -> Prop) (s s' : state) : Prop :=
  grows P s s' /\ data s' = data s /\ file s' = file s /\
  processed_count s' = processed_count s.

(** Computations that cannot end by raising. *)
Definition no_raise {A} (c : M A) : Prop :=
  forall s e, (c s).1 <> Raise e.

(** Events of one call of [safe_request] for the request [rq]. *)
Definition request_layer (rq : request) (e : event) : Prop :=
  match e with
  | EvRequest r => r = rq
  | EvSleep _ => True
  | EvLog _ (MsgRateLimit _ | MsgTimeout _ _ | MsgConnectionError
            | MsgUnexpected _) => True
  | _ => False
  end.

Definition push (s : state) (evs : list event) : state :=
  {| trace := trace s ++ evs; data := data s; file := file s;
     processed_count := processed_count s |}.

(** A remote that never answers in time. *)
Definition world_timeout : world :=
  {| respond := fun _ _ => Fails TimedOut;
     next_done := fun _ _ => 0%nat;
     sigint := fun _ => false |}.

(** A remote that is rate limiting: it answers every attempt with 429
    and asks for seven seconds of patience. *)
Definition world_rate_limited : world :=
  {| respond := fun _ _ =>
       Answer {| status_code := 429;
                 headers := {[ "retry-after"%string := py "7" ]};
                 content := BText [] |};
     next_done := fun _ _ => 0%nat;
     sigint := fun _ => false |}.

Definition state_with_42 : state :=
  {| trace := []; data := {| processed_skus := [42]; last_page := 1 |};
     file := NoFile; processed_count := 0 |}.

Definition put_request (sku_id : Z) (img : dict) (new_alt : pystr) : request :=
  Request PUT (UrlSkuFile sku_id (dict_get img "Id"))
    (Some (payload_of img new_alt)).

(** The last line of a call of [update_image_alt]. *)
Definition update_outcome (e : event) : Prop :=
  match e with
  | EvLog _ (MsgImageUpdated _ | MsgAuthError | MsgUpdateError _ _) => True
  | _ => False
  end.

(** A payload that echoes [img] with the two label fields set. *)
Definition echoes (img : dict) (new_alt : pystr) (payload : dict) : Prop :=
  payload !! "Label"%string = Some (PStr new_alt) /\
  payload !! "Text"%string = Some (PStr new_alt) /\
  forall k, k <> "Label"%string -> k <> "Text"%string ->
            payload !! k = img !! k.

(** Requests, sleeps and log lines: what a unit's remote work leaves. *)
Definition io_event (e : event) : Prop :=
  match e with
  | EvRequest _ | EvSleep _ | EvLog _ _ => True
  | _ => False
  end.

(** A log line that reports a failed image update. *)
Definition update_failure (m : message) : Prop :=
  match m with
  | MsgAuthError | MsgUpdateError _ _ => True
  | _ => False
  end.

(** Remote work in which no image update failed. *)
Definition clean (e : event) : Prop :=
  match e with
  | EvRequest _ | EvSleep _ => True
  | EvLog _ m => ~ update_failure m
  | _ => False
  end.

(** [img]'s label as the loop reads it, and the label the loop wants
    at the 1-based position [index]. *)
Definition current_label (img : dict) : pyval :=
  dict_get_or img "Label" (PStr []).

(** [enumerate(images, start=index)] *)
Definition enumerate {A} (index : nat) (l : list A) : list (nat * A) :=
  zip (seq index (length l)) l.

(** The update that is due for the image [p.2] at the position [p.1]:
    none if the image carries its target label, otherwise the PUT of the
    image with that label. *)
Definition due (sku_id : Z) (base_name : pystr) (p : nat * dict)
  : option request :=
  if decide (current_label p.2 = PStr (target_label base_name p.1)) then None
  else Some (put_request sku_id p.2 (target_label base_name p.1)).

Definition due_updates (sku_id : Z) (base_name : pystr) (images : list dict)
  : list request :=
  omap (due sku_id base_name) (enumerate 1 images).

(** The requests of a history, in their order. *)
Definition requests_of (tr : list event) : list request :=
  omap (fun e => match e with EvRequest rq => Some rq | _ => None end) tr.

(** Events of the loop over [images], the first of which has position
    [index]: a request is the PUT of an image whose label differs from
    its target. *)
Definition loop_event (sku_id : Z) (base_name : pystr) (index : nat)
    (images : list dict) (e : event) : Prop :=
  match e with
  | EvRequest rq =>
      exists i img,
        images !! i = Some img /\
        current_label img <> PStr (target_label base_name (index + i)) /\
        rq = put_request sku_id img (target_label base_name (index + i))
  | EvSleep _ | EvLog _ _ => True
  | _ => False
  end.

(** ASCII letters and digits, and the shapes of text built from them. *)
Definition alnum (c : N) : bool := is_lower c || is_upper c || is_digit c.

Definition word (w : pystr) : Prop :=
  w <> [] /\ Forall (fun c => alnum c = true) w.

Definition blank (g : pystr) : Prop :=
  g <> [] /\ Forall (fun c => is_space c = true) g.

(** Words separated by runs of whitespace, and the same words in lower
    case joined by single hyphens. *)
Definition phrase (w : pystr) (rest : list (pystr * pystr)) : pystr :=
  w ++ concat (map (fun gw => gw.1 ++ gw.2) rest).

Definition hyphenated (w : pystr) (rest : list (pystr * pystr)) : pystr :=
  lower w ++ concat (map (fun gw => hyphen :: lower gw.2) rest).

Definition edge_hyphen (t : pystr) : Prop :=
  head t = Some hyphen \/ last t = Some hyphen.

Definition not_hyphen (c : N) : bool := negb (c =? hyphen)%N.

(** The name "Óleo Essencial", whose first letter is U+00D3, and the
    text "a´b", whose middle character is the acute accent U+00B4. *)
Definition oleo_essencial : pystr := 211%N :: py "leo Essencial".
Definition a_acute_b : pystr := py "a" ++ [180%N] ++ py "b".

Definition is_submit (p k : Z) (e : event) : bool :=
  match e with
  | EvSubmit p' k' => (p' =? p) && (k' =? k)
  | _ => false
  end.

Definition is_done (p k : Z) (e : event) : bool :=
  match e with
  | EvDone p' k' => (p' =? p) && (k' =? k)
  | _ => false
  end.

(** How many times unit [k] of page [p] was submitted, and completed. *)
Definition submits (p k : Z) (tr : list event) : nat :=
  length (List.filter (is_submit p k) tr).

Definition dones (p k : Z) (tr : list event) : nat :=
  length (List.filter (is_done p k) tr).

(** The page cursors persisted so far. *)
Fixpoint saved_pages (tr : list event) : list Z :=
  match tr with
  | [] => []
  | EvSave c :: r => last_page c :: saved_pages r
  | _ :: r => saved_pages r
  end.

(** What must hold of the history [pre] when [e] happens: a page is
    dispatched only after every cursor saved so far is at most that page;
    a unit completes only while it is pending; and a save made while a
    unit of page [p] is pending persists the cursor [p]. *)
Definition check (pre : list event) (e : event) : Prop :=
  match e with
  | EvSubmit p _ => Forall (fun v => v <= p) (saved_pages pre)
  | EvDone p k => (dones p k pre < submits p k pre)%nat
  | EvSave c =>
      forall p k, (dones p k pre < submits p k pre)%nat -> last_page c = p
  | _ => True
  end.

Definition ordered (tr : list event) : Prop :=
  forall pre e post, tr = pre ++ e :: post -> check pre e.

(** Events that neither dispatch, complete nor save. *)
Definition neutral (e : event) : Prop :=
  match e with
  | EvRequest _ | EvSleep _ | EvLog _ _ | EvMark _ => True
  | _ => False
  end.

(** The invariant of a run: the history is ordered, a pending unit
    belongs to the page of the in-memory cursor, and no saved cursor is
    beyond it. *)
Definition run_inv (s : state) : Prop :=
  ordered (trace s) /\
  (forall p k, (dones p k (trace s) < submits p k (trace s))%nat ->
               p = last_page (data s)) /\
  Forall (fun v => v <= last_page (data s)) (saved_pages (trace s)).

(** No unit is pending. *)
Definition settled (s : state) : Prop :=
  forall p k, dones p k (trace s) = submits p k (trace s).

(** The pending units are those of page [page] that [pending] counts. *)
Definition accounts (page : Z) (pending : Z -> nat) (s : state) : Prop :=
  forall p k,
    submits p k (trace s) =
    (dones p k (trace s) + if decide (p = page) then pending k else 0)%nat.

(** A unit's transaction: neutral events, the cursor and the counter
    stay. *)
Definition unit_step (s s' : state) : Prop :=
  grows neutral s s' /\ last_page (data s') = last_page (data s) /\
  processed_count s' = processed_count s.

(** A small catalog: two pages of one unit each, every unit with one
    unlabelled image, and a remote whose session has expired for
    updates: every PUT is answered 401. *)
Definition sample_image : dict :=
  <["Id"%string := PInt 7]>
    (<["Label"%string := PStr []]>
       (<["Url"%string := PStr (py "http://img/7.png")]> ∅)).

Definition sample_details : dict :=
  <["ProductName"%string := PStr (py "Dipirona 500mg")]> ∅.

Definition answer (status : Z) (b : body) : outcome :=
  Answer {| status_code := status; headers := ∅; content := b |}.

Definition world_update_401 : world :=
  {| respond := fun _ rq =>
       match req_method rq, req_url rq with
       | GET, UrlSkuIds p _ =>
           if p =? 1 then answer 200 (BIds [42])
           else if p =? 2 then answer 200 (BIds [43])
           else answer 200 (BIds [])
       | GET, UrlSku _ => answer 200 (BDetails sample_details)
       | GET, UrlSkuFiles _ => answer 200 (BImages [sample_image])
       | PUT, _ => answer 401 (BText (py "Unauthorized"))
       | _, _ => Fails OtherFailure
       end;
     next_done := fun _ _ => 0%nat;
     sigint := fun _ => false |}.


(** The line that [safe_request] logs when the session raises. *)
Definition failure_line (m : method) (u : url) (f : failure) : message :=
  match f with
  | TimedOut => MsgTimeout m u
  | ConnectionFailed => MsgConnectionError
  | OtherFailure => MsgUnexpected RequestException
  end.

(** Events that change nothing but the history of one request. *)
Definition only_request (rq : request) (e : event) : Prop :=
  match e with
  | EvRequest r => r = rq
  | EvSleep _ | EvLog _ _ => True
  | EvMark _ | EvSave _ | EvSubmit _ _ | EvDone _ _ => False
  end.

(** A remote on which nothing is found: every request is answered 404. *)
Definition world_404 : world :=
  {| respond := fun _ _ =>
       Answer {| status_code := 404; headers := ∅;
                 content := BText (py "Not Found") |};
     next_done := fun _ _ => 0%nat;
     sigint := fun _ => false |}.

(** What [update_image_alt] returns for a given result of its request. *)
Definition update_verdict (r : result (option response)) : result bool :=
  match r with
  | Ok (Some resp) => Ok (status_code resp =? 200)
  | Ok None => Ok false
  | Raise e => Raise e
  | OutOfFuel => OutOfFuel
  end.

Definition is_auth_line (e : event) : Prop :=
  match e with
  | EvLog _ MsgAuthError => True
  | _ => False
  end.

(** An image that already carries some label, and a remote that serves
    one such image for every unit. *)
Definition labelled_image : dict :=
  <["Id"%string := PInt 9]> (<["Label"%string := PStr (py "foto")]> ∅).

Definition world_labelled : world :=
  {| respond := fun _ rq =>
       match req_url rq with
       | UrlSkuFiles _ =>
           Answer {| status_code := 200; headers := ∅;
                     content := BImages [labelled_image] |}
       | _ => Fails ConnectionFailed
       end;
     next_done := fun _ _ => 0%nat;
     sigint := fun _ => false |}.

(** The request that fetches a unit's image list. *)
Definition fetch_images (sku_id : Z) : request :=
  Request GET (UrlSkuFiles sku_id) None.

Definition is_put (e : event) : Prop :=
  match e with
  | EvRequest rq => req_method rq = PUT
  | _ => False
  end.

Definition is_update_failure (e : event) : Prop :=
  match e with
  | EvLog _ m => update_failure m
  | _ => False
  end.

(** A second image, which already carries the label that the unit
    "Dipirona 500mg" wants at the second position, and a remote that
    serves the unlabelled image followed by this one. *)
Definition second_image : dict :=
  <["Id"%string := PInt 8]>
    (<["Label"%string := PStr (py "dipirona-500mg_2")]> ∅).

Definition world_pair : world :=
  {| respond := fun _ rq =>
       match req_method rq, req_url rq with
       | GET, UrlSkuFiles _ => answer 200 (BImages [sample_image; second_image])
       | PUT, _ => answer 200 (BText [])
       | _, _ => Fails OtherFailure
       end;
     next_done := fun _ _ => 0%nat;
     sigint := fun _ => false |}.

(** The small catalog with a remote that accepts every update. *)
Definition world_catalog : world :=
  {| respond := fun _ rq =>
       match req_method rq, req_url rq with
       | GET, UrlSkuIds p _ =>
           if p =? 1 then answer 200 (BIds [42])
           else if p =? 2 then answer 200 (BIds [43])
           else answer 200 (BIds [])
       | GET, UrlSku _ => answer 200 (BDetails sample_details)
       | GET, UrlSkuFiles _ => answer 200 (BImages [sample_image])
       | PUT, _ => answer 200 (BText [])
       | _, _ => Fails OtherFailure
       end;
     next_done := fun _ _ => 0%nat;
     sigint := fun _ => false |}.

(** The request for a unit's detail record, and the name the script
    takes from a record: the first truthy field in the order
    [ProductName], [NameComplete], [Name] (the last one if none is). *)
Definition fetch_details (sku_id : Z) : request :=
  Request GET (UrlSku sku_id) None.

Definition chosen_name (d : dict) : pyval :=
  if truthy (dict_get d "ProductName") then dict_get d "ProductName"
  else if truthy (dict_get d "NameComplete") then dict_get d "NameComplete"
  else dict_get d "Name".

(** A detail record without any name. *)
Definition nameless_details : dict :=
  <["RefId"%string := PStr (py "R-1")]> (<["Name"%string := PStr []]> ∅).

Definition world_nameless : world :=
  {| respond := fun _ _ =>
       Answer {| status_code := 200; headers := ∅;
                 content := BDetails nameless_details |};
     next_done := fun _ _ => 0%nat;
     sigint := fun _ => false |}.

(** The exception that ends a run before it has started: the run is to
    resume, and the file holds a value without a cursor. *)
Definition cursor_error (resume : bool) (f : file_state) : option exn :=
  match f with
  | Foreign object =>
      if resume then Some (if object then KeyError else TypeError) else None
  | _ => None
  end.

(** The checkpoint that the manager holds after loading a file with a
    cursor: what the file stores, or the fresh checkpoint. *)
Definition loaded (f : file_state) : checkpoint :=
  match f with
  | Stored c => c
  | _ => fresh_checkpoint
  end.

(** The state in which the page loop starts: the checkpoint is loaded
    (or cleared and saved), the two opening lines are logged and the
    counter is zero. *)
Definition start_state (resume : bool) (f : file_state) : state :=
  let d := if resume then loaded f else fresh_checkpoint in
  {| trace :=
       (if resume then []
        else [EvSave fresh_checkpoint; EvLog INFO MsgStartFresh])
       ++ [EvLog INFO MsgBanner;
           EvLog INFO (MsgStarting MAX_WORKERS (last_page d))];
     data := d;
     file := if resume then f else Stored fresh_checkpoint;
     processed_count := 0 |}.

(** How a run ends, given how its page loop ended: normally with the
    closing line; after an exception with the handler's line, a save and
    the closing line; not at all if the model ran out of fuel. *)
Definition handler_line (e : exn) : event :=
  match e with
  | KeyboardInterrupt => EvLog WARNING MsgInterrupted
  | _ => EvLog CRITICAL (MsgFatal e)
  end.

Definition save_state (s : state) : state :=
  {| trace := trace s ++ [EvSave (data s)]; data := data s;
     file := Stored (data s); processed_count := processed_count s |}.

Definition end_state (r : result unit) (s : state) : result unit * state :=
  match r with
  | Ok _ => (Ok tt, push s [EvLog INFO (MsgCompleted (processed_count s))])
  | Raise e =>
      (Ok tt, push (save_state (push s [handler_line e]))
                [EvLog INFO (MsgCompleted (processed_count s))])
  | OutOfFuel => (OutOfFuel, s)
  end.

(** The state after a completion has been consumed: the completion
    event, then the counter. *)
Definition consumed (page sku_id : Z) (s : state) : state :=
  (set_count (S (processed_count s)) (emit (EvDone page sku_id) s).2).2.

(** The number of completed units in a history. *)
Definition is_completion (e : event) : bool :=
  match e with
  | EvDone _ _ => true
  | _ => false
  end.

Definition completions (tr : list event) : nat :=
  length (List.filter is_completion tr).

(** The counter has advanced at most (exactly) as much as the number of
    completions. *)
Definition counted_le (s s' : state) : Prop :=
  (processed_count s' + completions (trace s)
   <= processed_count s + completions (trace s'))%nat.

Definition counted (s s' : state) : Prop :=
  (processed_count s' + completions (trace s)
   = processed_count s + completions (trace s'))%nat.

(** The cursors saved between [s] and [s'] ascend from the cursor of
    [s] to the cursor of [s']. *)
Definition cursor_ascends (s s' : state) : Prop :=
  last_page (data s) <= last_page (data s') /\
  exists evs,
    trace s' = trace s ++ evs /\
    StronglySorted Z.le (saved_pages evs) /\
    Forall (fun v => last_page (data s) <= v <= last_page (data s'))
      (saved_pages evs).

(** What a unit's transaction, a request or a log line may do: neutral
    events; the cursor, the counter and the file stay; the list of
    processed units only gains elements, and no duplicate. *)
Definition unit_txn (s s' : state) : Prop :=
  grows neutral s s' /\ last_page (data s') = last_page (data s) /\
  processed_count s' = processed_count s /\
  file s' = file s /\
  (forall k, In k (processed_skus (data s)) -> In k (processed_skus (data s'))) /\
  (NoDup (processed_skus (data s)) -> NoDup (processed_skus (data s'))).

(** The file holds the in-memory checkpoint: [load] would return it. *)
Definition synced (s : state) : Prop :=
  loaded (file s) = data s /\ cursor_error true (file s) = None.

(** Progress is kept from [c] to [c']: the cursor does not go back, no
    processed unit is forgotten and no duplicate appears. *)
Definition keeps_progress (c c' : checkpoint) : Prop :=
  last_page c <= last_page c' /\
  (forall k, In k (processed_skus c) -> In k (processed_skus c')) /\
  (NoDup (processed_skus c) -> NoDup (processed_skus c')).

Definition progresses (s s' : state) : Prop :=
  keeps_progress (data s) (data s').

(** * Properties *)

(** ** How computations extend the trace *)

Global Instance grows_preorder (P : event -> Prop) : PreOrder (grows P).
Proof.
  split.
  - intros s. exists []. split; [by rewrite app_nil_r | constructor].
  - intros s1 s2 s3 (e1 & H1 & F1) (e2 & H2 & F2).
    exists (e1 ++ e2). split.
    + by rewrite H2, H1, app_assoc.
    + by apply Forall_app.
Qed.

Lemma grows_weaken (P Q : event -> Prop) s s' :
  (forall e, P e -> Q e) -> grows P s s' -> grows Q s s'.
Proof.
  intros HPQ (evs & Ht & HF). exists evs. split; [done |].
  eapply Forall_impl; eauto.
Qed.

Section Within.

Context (R : relation state) `{!PreOrder R}.

Lemma within_ret {A} (a : A) : within R (ret a).
Proof. intros s. reflexivity. Qed.

Lemma within_raise {A} e : within R (@raise A e).
Proof. intros s. reflexivity. Qed.

Lemma within_out_of_fuel {A} : within R (@out_of_fuel A).
Proof. intros s. reflexivity. Qed.

Lemma within_lift {A} (r : result A) : within R (lift r).
Proof. intros s. reflexivity. Qed.

Lemma within_bind {A B} (c : M A) (k : A -> M B) :
  within R c -> (forall a, within R (k a)) -> within R (bind c k).
Proof.
  intros Hc Hk s. unfold bind. specialize (Hc s).
  destruct (c s) as [[a | e |] s1]; simpl in *; try done.
  etrans; [exact Hc | apply Hk].
Qed.

Lemma within_try_except {A} (c : M A) handled (h : exn -> M A) :
  within R c -> (forall e, within R (h e)) -> within R (try_except c handled h).
Proof.
  intros Hc Hh s. unfold try_except. specialize (Hc s).
  destruct (c s) as [[a | e |] s1]; simpl in *; try done.
  destruct (handled e); simpl; [| done].
  etrans; [exact Hc | apply Hh].
Qed.

Lemma within_get_trace : within R get_trace.
Proof. intros s. reflexivity. Qed.

Lemma within_get_data : within R get_data.
Proof. intros s. reflexivity. Qed.

Lemma within_get_count : within R get_count.
Proof. intros s. reflexivity. Qed.

End Within.

Global Instance io_preorder (P : event -> Prop) : PreOrder (io P).
Proof.
  split.
  - intros s. by split.
  - intros s1 s2 s3 (G1 & D1 & F1 & C1) (G2 & D2 & F2 & C2).
    split; [by etrans |]. by rewrite D2, F2, C2.
Qed.

Lemma io_weaken (P Q : event -> Prop) s s' :
  (forall e, P e -> Q e) -> io P s s' -> io Q s s'.
Proof. intros HPQ (G & ?). split; [by eapply grows_weaken | done]. Qed.

Lemma io_grows (P : event -> Prop) s s' : io P s s' -> grows P s s'.
Proof. by intros (G & _). Qed.

Lemma within_weaken {A} (R R' : relation state) (c : M A) :
  (forall s s', R s s' -> R' s s') -> within R c -> within R' c.
Proof. intros H Hc s. apply H, Hc. Qed.

Lemma grows_emit (P : event -> Prop) e : P e -> within (grows P) (emit e).
Proof. intros He s. exists [e]. split; [done | by constructor]. Qed.

Lemma io_emit (P : event -> Prop) e : P e -> within (io P) (emit e).
Proof. intros He s. split; [by apply grows_emit | done]. Qed.

Lemma grows_set_data (P : event -> Prop) c : within (grows P) (set_data c).
Proof. intros s. exists []. split; [by rewrite app_nil_r | constructor]. Qed.

Lemma grows_set_file (P : event -> Prop) f : within (grows P) (set_file f).
Proof. intros s. exists []. split; [by rewrite app_nil_r | constructor]. Qed.

Lemma grows_set_count (P : event -> Prop) n : within (grows P) (set_count n).
Proof. intros s. exists []. split; [by rewrite app_nil_r | constructor]. Qed.

Lemma no_raise_ret {A} (a : A) : no_raise (ret a).
Proof. by intros s e. Qed.

Lemma no_raise_bind {A B} (c : M A) (k : A -> M B) :
  no_raise c -> (forall a, no_raise (k a)) -> no_raise (bind c k).
Proof.
  intros Hc Hk s e. unfold bind. specialize (Hc s).
  destruct (c s) as [[a | e' |] s1]; simpl in *.
  - apply Hk.
  - by destruct (Hc e').
  - done.
Qed.

Lemma no_raise_emit e : no_raise (emit e).
Proof. by intros s e'. Qed.

(** ** The request layer *)

Lemma push_nil s : push s [] = s.
Proof. destruct s. unfold push. simpl. by rewrite app_nil_r. Qed.

Lemma push_push s a b : push (push s a) b = push s (a ++ b).
Proof. unfold push. simpl. by rewrite app_assoc. Qed.

Lemma bind_unfold {A B} (c : M A) (k : A -> M B) s :
  bind c k s =
  match c s with
  | (Ok a, s') => k a s'
  | (Raise e, s') => (Raise e, s')
  | (OutOfFuel, s') => (OutOfFuel, s')
  end.
Proof. reflexivity. Qed.

Lemma log_run m l s :
  log_message m l s = (Ok tt, (log_message m l s).2).
Proof. reflexivity. Qed.

Ltac within_leaf :=
  first [ apply within_ret | apply within_raise | apply within_lift
        | apply within_out_of_fuel | apply within_get_trace
        | apply within_get_data | apply within_get_count ]; apply _.

Ltac within_bind := apply within_bind; [apply _ | |].

Section RequestLayer.

Variable W : world.

Lemma session_request_eq m u json s :
  session_request W m u json s =
  (match respond W (trace s) (Request m u json) with
   | Answer r => if forced (status_code r) then Raise RetryError else Ok r
   | Fails f => Raise (exn_of_failure f)
   end, push s [EvRequest (Request m u json)]).
Proof.
  unfold session_request, push. destruct (respond _ _ _) as [r | f]; [| done].
  by destruct (forced (status_code r)).
Qed.

(** A status that the session returns is not 429. *)
Lemma forced_429 status : forced status = false -> (status =? 429) = false.
Proof.
  unfold forced, status_forcelist. simpl. intros H.
  apply orb_false_iff in H as [H _]. exact H.
Qed.

(** One unfolding of [safe_request], by what the remote does. *)
Lemma safe_request_fails fuel m u json s f :
  respond W (trace s) (Request m u json) = Fails f ->
  exists msg,
    safe_request W (S fuel) m u json s =
    (Ok None, push s [EvRequest (Request m u json); EvLog ERROR msg]) /\
    request_layer (Request m u json) (EvLog ERROR msg).
Proof.
  intros H. simpl. unfold try_except, bind. rewrite session_request_eq, H.
  destruct f; simpl; eexists; unfold log_message, emit, ret, push; simpl;
    by rewrite <- app_assoc.
Qed.

(** A status of the adapter's list never comes back as a response: the
    session raises, and the generic handler answers with no response. *)
Lemma safe_request_forced fuel m u json s r :
  respond W (trace s) (Request m u json) = Answer r ->
  forced (status_code r) = true ->
  safe_request W (S fuel) m u json s =
  (Ok None, push s [EvRequest (Request m u json);
                    EvLog ERROR (MsgUnexpected RetryError)]).
Proof.
  intros H Hf. simpl. unfold try_except, bind.
  rewrite session_request_eq, H, Hf. simpl.
  unfold log_message, emit, ret, push. simpl. by rewrite <- app_assoc.
Qed.

Lemma safe_request_answer fuel m u json s r :
  respond W (trace s) (Request m u json) = Answer r ->
  forced (status_code r) = false ->
  safe_request W (S fuel) m u json s =
  (Ok (Some r), push s [EvRequest (Request m u json)]).
Proof.
  intros H Hf. simpl. unfold try_except, bind.
  rewrite session_request_eq, H, Hf. by rewrite (forced_429 _ Hf).
Qed.

(** The three ways in which a call ends. *)
Lemma safe_request_cases fuel m u json s :
  (exists r,
     respond W (trace s) (Request m u json) = Answer r /\
     forced (status_code r) = false /\
     safe_request W (S fuel) m u json s =
     (Ok (Some r), push s [EvRequest (Request m u json)])) \/
  (exists msg,
     (forall r, respond W (trace s) (Request m u json) = Answer r ->
                forced (status_code r) = true) /\
     request_layer (Request m u json) (EvLog ERROR msg) /\
     safe_request W (S fuel) m u json s =
     (Ok None, push s [EvRequest (Request m u json); EvLog ERROR msg])).
Proof.
  destruct (respond W (trace s) (Request m u json)) as [r | f] eqn:E.
  - destruct (forced (status_code r)) eqn:Hf.
    + right. exists (MsgUnexpected RetryError).
      split; [by intros ? [= <-] |]. split; [done |].
      exact (safe_request_forced fuel m u json s r E Hf).
    + left. exists r. split; [done |]. split; [done |].
      by apply safe_request_answer.
  - right. destruct (safe_request_fails fuel _ _ _ _ _ E) as (msg & Hrun & Hm).
    exists msg. split; [intros ? [=] |]. by split.
Qed.

Lemma safe_request_no_raise fuel m u json : no_raise (safe_request W fuel m u json).
Proof.
  destruct fuel as [| fuel]; intros s e; [done |].
  destruct (safe_request_cases fuel m u json s)
    as [(r & _ & _ & ->) | (msg & _ & _ & ->)]; done.
Qed.

Lemma safe_request_io fuel m u json :
  within (io (request_layer (Request m u json)))
    (safe_request W fuel m u json).
Proof.
  destruct fuel as [| fuel]; [within_leaf |]. intros s.
  destruct (safe_request_cases fuel m u json s)
    as [(r & _ & _ & ->) | (msg & _ & Hm & ->)]; simpl.
  - split; [| done]. eexists. split; [reflexivity |]. by repeat constructor.
  - split; [| done]. eexists. split; [reflexivity |]. by repeat constructor.
Qed.

Lemma safe_request_grows fuel m u json :
  within (grows (request_layer (Request m u json)))
    (safe_request W fuel m u json).
Proof. eapply within_weaken; [apply io_grows | apply safe_request_io]. Qed.

(** What a returned response tells: it is the remote's answer to the
    last request of the call, and it is not a 429. *)
Lemma safe_request_some fuel m u json s r s' :
  safe_request W fuel m u json s = (Ok (Some r), s') ->
  exists evs,
    trace s' = (trace s ++ evs) ++ [EvRequest (Request m u json)] /\
    respond W (trace s ++ evs) (Request m u json) = Answer r /\
    status_code r <> 429.
Proof.
  destruct fuel as [| fuel]; [done |].
  destruct (safe_request_cases fuel m u json s)
    as [(r0 & Hr & Hf & ->) | (msg & _ & _ & ->)]; [| done].
  intros [= <- <-]. exists []. rewrite app_nil_r. split; [done |].
  split; [done |]. apply forced_429 in Hf. by apply Z.eqb_neq.
Qed.

(** A returned response is the answer to the one request of the call,
    and its status is outside the adapter's list. *)
Lemma safe_request_some_once fuel m u json s r s' :
  safe_request W fuel m u json s = (Ok (Some r), s') ->
  s' = push s [EvRequest (Request m u json)] /\
  respond W (trace s) (Request m u json) = Answer r /\
  forced (status_code r) = false.
Proof.
  destruct fuel as [| fuel]; [done |].
  destruct (safe_request_cases fuel m u json s)
    as [(r0 & Hr & Hf & ->) | (msg & _ & _ & ->)]; [| done].
  by intros [= <- <-].
Qed.

(** The first thing a call does is to issue its request. *)
Lemma safe_request_first fuel m u json s :
  exists rest,
    trace (safe_request W (S fuel) m u json s).2 =
      trace s ++ EvRequest (Request m u json) :: rest /\
    Forall (request_layer (Request m u json)) rest.
Proof.
  destruct (safe_request_cases fuel m u json s)
    as [(r & _ & _ & ->) | (msg & _ & Hm & ->)]; simpl.
  - eexists. split; [done |]. constructor.
  - eexists. split; [done |]. by repeat constructor.
Qed.

(** A call returns: the recursion is never entered. *)
Lemma safe_request_returns fuel m u json s :
  exists r s', safe_request W (S fuel) m u json s = (Ok r, s').
Proof.
  destruct (safe_request_cases fuel m u json s)
    as [(r & _ & _ & ->) | (msg & _ & _ & ->)]; eauto.
Qed.

End RequestLayer.

(** C4. [safe_request] never raises: whatever the remote does, no call
    ends with an exception; a call returns a response or [None] (the
    recursion needs no depth beyond the call itself); and a timeout or a
    connection failure of the attempt makes it return [None]. *)
Theorem safe_request_never_raises W fuel m u json s :
  (0 < fuel)%nat ->
  (exists r s', safe_request W fuel m u json s = (Ok r, s')) /\
  (forall n e, (safe_request W n m u json s).1 <> Raise e) /\
  (forall f, respond W (trace s) (Request m u json) = Fails f ->
             (safe_request W fuel m u json s).1 = Ok None).
Proof.
  intros Hk. destruct fuel as [| fuel]; [lia |]. repeat split.
  - apply safe_request_returns.
  - intros n e. apply safe_request_no_raise.
  - intros f Hf.
    by destruct (safe_request_fails W fuel _ _ _ _ _ Hf) as (msg & -> & _).
Qed.

Lemma safe_request_never_raises_witness :
  (safe_request world_timeout 1 GET (UrlSku 42) None (initial_state NoFile)).1
  = Ok None.
Proof.
  refine (proj2 (proj2 (safe_request_never_raises world_timeout 1 GET
                          (UrlSku 42) None (initial_state NoFile) _))
            TimedOut _).
  - lia.
  - reflexivity.
Defined.

(** C6. Where the handling of 429 departs from the claim. The
    session's adapter retries a 429 itself and raises when the answer
    persists, so that [safe_request] never has a 429 response in hand:
    when the remote answers 429 to the last attempt of a call,
    [safe_request] logs an unexpected error and returns [None]. It
    neither reads the [Retry-After] header, nor sleeps, nor issues the
    request again: the rate limit reaches the caller as a failure. *)
Theorem rate_limit_surfaces_as_failure W fuel m u json s r :
  respond W (trace s) (Request m u json) = Answer r ->
  status_code r = 429 ->
  safe_request W (S fuel) m u json s =
  (Ok None, push s [EvRequest (Request m u json);
                    EvLog ERROR (MsgUnexpected RetryError)]).
Proof.
  intros Hr Hs. apply (safe_request_forced W fuel m u json s r Hr).
  by rewrite Hs.
Qed.

Lemma rate_limit_surfaces_as_failure_witness :
  safe_request world_rate_limited 5 GET (UrlSku 42) None (initial_state NoFile)
  = (Ok None,
     push (initial_state NoFile)
       [EvRequest (Request GET (UrlSku 42) None);
        EvLog ERROR (MsgUnexpected RetryError)]).
Proof.
  refine (rate_limit_surfaces_as_failure world_rate_limited 4 GET (UrlSku 42)
            None (initial_state NoFile) _ _ _).
  - reflexivity.
  - reflexivity.
Defined.

(** ** The checkpoint file *)

(** C9. [load] never fails the caller: it neither raises nor diverges,
    it leaves the state alone, and unless the file is parsable (when it
    returns what the file holds) it returns the empty initial state. *)
Theorem load_never_fails (s : state) :
  (forall e, (load s).1 <> Raise e) /\
  (load s).1 <> OutOfFuel /\
  (load s).2 = s /\
  match file s with
  | Stored c => (load s).1 = Ok (Shaped c)
  | Foreign object => (load s).1 = Ok (Cursorless object)
  | NoFile | Unreadable | Unparsable =>
      (load s).1 = Ok (Shaped {| processed_skus := []; last_page := 1 |})
  end.
Proof.
  unfold load, try_except, lift. by destruct (file s).
Qed.

(** ** The per-unit transaction *)

Lemma is_processed_in_spec sku_id c :
  is_processed_in sku_id c = true <-> In sku_id (processed_skus c).
Proof.
  unfold is_processed_in. rewrite existsb_exists. split.
  - intros (x & Hin & Heq). apply Z.eqb_eq in Heq. by subst.
  - intros Hin. exists sku_id. split; [done | apply Z.eqb_refl].
Qed.

(** C8. A unit already recorded as processed is skipped: the
    transaction returns success at once, and all it leaves behind is the
    log line; no request is issued and the checkpoint is untouched. *)
Theorem processed_unit_is_skipped W nfkd fuel sku_id s :
  In sku_id (processed_skus (data s)) ->
  process_single_sku W nfkd fuel sku_id s =
    (Ok true, push s [EvLog INFO (MsgAlreadyProcessed sku_id)]) /\
  (forall rq, ~ In (EvRequest rq)
                [EvLog INFO (MsgAlreadyProcessed sku_id)]).
Proof.
  intros Hin. apply is_processed_in_spec in Hin. split.
  - unfold process_single_sku, is_processed, bind, get_data, ret. simpl.
    by rewrite Hin.
  - intros rq [H | []]. discriminate H.
Qed.

Lemma processed_unit_is_skipped_witness :
  process_single_sku world_timeout nfkd_latin1 3 42 state_with_42 =
  (Ok true, push state_with_42 [EvLog INFO (MsgAlreadyProcessed 42)]).
Proof.
  refine (proj1 (processed_unit_is_skipped world_timeout nfkd_latin1 3 42
                   state_with_42 _)).
  simpl. left. reflexivity.
Defined.

Section Update.

Variable W : world.

Lemma update_image_alt_io fuel sku_id img new_alt :
  within (io (fun e => request_layer (put_request sku_id img new_alt) e
                       \/ update_outcome e))
    (update_image_alt W fuel sku_id img new_alt).
Proof.
  unfold update_image_alt. within_bind.
  { eapply within_weaken; [| apply safe_request_io].
    intros s s'. apply io_weaken. by left. }
  intros response.
  repeat match goal with
         | |- within _ (if ?b then _ else _) => destruct b
         end;
    (within_bind; [by apply io_emit; right | intros _; within_leaf]).
Qed.

Lemma update_image_alt_no_raise fuel sku_id img new_alt :
  no_raise (update_image_alt W fuel sku_id img new_alt).
Proof.
  unfold update_image_alt. apply no_raise_bind;
    [apply safe_request_no_raise |].
  intros response.
  repeat match goal with
         | |- no_raise (if ?b then _ else _) => destruct b
         end;
    (apply no_raise_bind; [apply no_raise_emit | intros _; apply no_raise_ret]).
Qed.

(** A call starts with its PUT, and issues no other request. *)
Lemma update_image_alt_first fuel sku_id img new_alt s :
  exists rest,
    trace (update_image_alt W (S fuel) sku_id img new_alt s).2 =
      trace s ++ EvRequest (put_request sku_id img new_alt) :: rest /\
    Forall (fun e => request_layer (put_request sku_id img new_alt) e
                     \/ update_outcome e) rest.
Proof.
  destruct (safe_request_first W fuel PUT
              (UrlSkuFile sku_id (dict_get img "Id"))
              (Some (payload_of img new_alt)) s) as (rest & Hfirst & HF).
  unfold update_image_alt, bind.
  assert (HF' : Forall (fun e =>
                          request_layer (put_request sku_id img new_alt) e
                          \/ update_outcome e) rest).
  { eapply Forall_impl; [exact HF |]. by left. }
  destruct (safe_request W (S fuel) PUT _ _ s) as [[resp | e |] s1];
    simpl in Hfirst; [| by eauto | by eauto].
  repeat match goal with
         | |- context [if ?b then _ else _] => destruct b
         end; simpl; rewrite Hfirst, <- app_assoc; simpl;
    (eexists; split; [reflexivity |]);
    (apply Forall_app; split; [done |]; constructor; [by right | done]).
Qed.

Lemma payload_of_label img new_alt :
  payload_of img new_alt !! "Label"%string = Some (PStr new_alt).
Proof.
  unfold payload_of. rewrite lookup_insert_ne by done.
  apply lookup_insert_eq.
Qed.

Lemma payload_of_text img new_alt :
  payload_of img new_alt !! "Text"%string = Some (PStr new_alt).
Proof. unfold payload_of. apply lookup_insert_eq. Qed.

Lemma payload_of_other img new_alt k :
  k <> "Label"%string -> k <> "Text"%string ->
  payload_of img new_alt !! k = img !! k.
Proof.
  intros Hl Ht. unfold payload_of.
  rewrite lookup_insert_ne by done. by rewrite lookup_insert_ne.
Qed.

End Update.

(** C10. Every request that [update_image_alt] issues is a PUT whose
    payload is the original
    image record with [Label] and [Text] set to the new alt text and every
    other field as it was; and a call does issue such a request. *)
Theorem update_payload_echoes_original W fuel sku_id img new_alt s :
  exists rq rest,
    trace (update_image_alt W (S fuel) sku_id img new_alt s).2
      = trace s ++ EvRequest rq :: rest /\
    Forall (fun e => match e with
                     | EvRequest r =>
                         req_method r = PUT /\
                         exists payload, req_json r = Some payload /\
                                         echoes img new_alt payload
                     | _ => True
                     end) (EvRequest rq :: rest).
Proof.
  destruct (update_image_alt_first W fuel sku_id img new_alt s)
    as (rest & Ht & HF).
  exists (put_request sku_id img new_alt), rest. split; [done |].
  assert (Hecho : echoes img new_alt (payload_of img new_alt)).
  { split; [apply payload_of_label |].
    split; [apply payload_of_text | apply payload_of_other]. }
  constructor; [split; [done |]; eauto |].
  eapply Forall_impl; [exact HF |].
  intros [r | | | | | |]; simpl; try done.
  intros [-> | []]. split; [done |]. eauto.
Qed.

(** ** The image loop *)

Lemma request_layer_io_event rq e : request_layer rq e -> io_event e.
Proof. destruct e as [r | | l m | | | |]; simpl; try done. Qed.

Lemma request_layer_clean rq e : request_layer rq e -> clean e.
Proof.
  destruct e as [r | | l m | | | |]; simpl; try done.
  destruct m; simpl; tauto.
Qed.

Section ImageLoop.

Variable W : world.

(** What the value returned by [update_image_alt] says about its
    last log line. *)
Lemma update_image_alt_result fuel sku_id img new_alt s b s' :
  update_image_alt W fuel sku_id img new_alt s = (Ok b, s') ->
  exists evs l m,
    trace s' = trace s ++ evs ++ [EvLog l m] /\
    Forall (request_layer (put_request sku_id img new_alt)) evs /\
    (if b then m = MsgImageUpdated new_alt else update_failure m).
Proof.
  unfold update_image_alt, bind.
  destruct (safe_request_grows W fuel PUT
              (UrlSkuFile sku_id (dict_get img "Id"))
              (Some (payload_of img new_alt)) s) as (evs & Ht & HF).
  destruct (safe_request W fuel PUT _ _ s) as [[resp | e |] s1];
    simpl in Ht; [| done | done].
  intros H.
  repeat match type of H with
         | context [if ?c then _ else _] => destruct c
         end; simpl in H; injection H as <- <-; simpl;
    exists evs; eexists _, _; rewrite Ht, <- app_assoc; by eauto.
Qed.

Lemma update_loop_io fuel sku_id base_name images :
  forall index success,
    within (io (loop_event sku_id base_name index images))
      (update_loop W fuel sku_id base_name index images success).
Proof.
  induction images as [| img rest IH]; intros index success; [within_leaf |].
  assert (Hrest : forall e, loop_event sku_id base_name (S index) rest e ->
                            loop_event sku_id base_name index (img :: rest) e).
  { intros [rq | | | | | |]; simpl; try done.
    intros (i & im & Hi & Hne & ->). exists (S i), im.
    replace (index + S i)%nat with (S index + i)%nat by lia. done. }
  simpl. destruct (decide _) as [Heq | Hne].
  - within_bind; [by apply io_emit |]. intros _.
    eapply within_weaken; [| apply IH]. intros s s'. by apply io_weaken.
  - within_bind.
    + eapply within_weaken; [| apply update_image_alt_io].
      intros s s'. apply io_weaken.
      intros [rq | | l m | | | |]; simpl; try tauto.
      intros [-> | []]. exists 0%nat, img.
      rewrite Nat.add_0_r. done.
    + intros updated.
      eapply within_weaken; [| apply IH]. intros s s'. by apply io_weaken.
Qed.

(** The loop ends with [True] only if it started with [True] and no
    update in it failed. *)
Lemma update_loop_true fuel sku_id base_name images :
  forall index success s s',
    update_loop W fuel sku_id base_name index images success s
      = (Ok true, s') ->
    success = true /\ grows clean s s'.
Proof.
  induction images as [| img rest IH]; intros index success s s'.
  - simpl. intros [= -> <-]. split; [done | reflexivity].
  - simpl. destruct (decide _) as [Heq | Hne].
    + unfold bind at 1. simpl. intros H. apply IH in H as [-> G].
      split; [done |]. etrans; [| exact G].
      exists [EvLog INFO (MsgSkipImage (target_label base_name index))].
      split; [done |]. constructor; [simpl; tauto | constructor].
    + unfold bind at 1.
      destruct (update_image_alt W fuel sku_id img _ s)
        as [[updated | e |] s1] eqn:E; [| done | done].
      intros H. apply IH in H as [Hs G].
      destruct updated; [| done]. split; [done |].
      etrans; [| exact G].
      apply update_image_alt_result in E as (evs & l & m & Ht & HF & ->).
      exists (evs ++ [EvLog l (MsgImageUpdated (target_label base_name index))]).
      split; [done |]. apply Forall_app. split.
      * eapply Forall_impl; [exact HF |]. apply request_layer_clean.
      * constructor; [simpl; tauto | constructor].
Qed.

(** An update that is due is attempted, if the loop gets that far. *)
Lemma update_loop_complete fuel sku_id base_name images :
  forall index success s b s',
    update_loop W (S fuel) sku_id base_name index images success s
      = (Ok b, s') ->
    forall i img,
      images !! i = Some img ->
      current_label img <> PStr (target_label base_name (index + i)) ->
      exists evs,
        trace s' = trace s ++ evs /\
        In (EvRequest (put_request sku_id img
                         (target_label base_name (index + i)))) evs.
Proof.
  induction images as [| im rest IH]; intros index success s b s' H i img Hi Hne;
    [done |].
  simpl in H. destruct (decide _) as [Heq | Hne'].
  - unfold bind at 1 in H. simpl in H.
    destruct i as [| i]; simpl in Hi.
    + injection Hi as ->. rewrite Nat.add_0_r in Hne. done.
    + replace (index + S i)%nat with (S index + i)%nat in * by lia.
      destruct (IH _ _ _ _ _ H i img Hi Hne) as (evs & Ht & Hin).
      simpl in Ht. rewrite <- app_assoc in Ht.
      eexists. split; [exact Ht |]. apply in_or_app. by right.
  - unfold bind at 1 in H.
    destruct (update_image_alt_first W fuel sku_id im
                (target_label base_name index) s) as (r1 & Hfirst & _).
    destruct (update_image_alt W (S fuel) sku_id im _ s)
      as [[updated | e |] s1] eqn:E; [| done | done].
    simpl in Hfirst.
    destruct (update_loop_io (S fuel) sku_id base_name rest (S index)
                (if updated then success else false) s1)
      as ((evs2 & Ht2 & _) & _).
    rewrite H in Ht2. simpl in Ht2.
    destruct i as [| i]; simpl in Hi.
    + injection Hi as ->. rewrite Nat.add_0_r.
      rewrite Ht2, Hfirst, <- app_assoc. eexists. split; [done |].
      simpl. by left.
    + replace (index + S i)%nat with (S index + i)%nat in * by lia.
      destruct (IH _ _ _ _ _ H i img Hi Hne) as (evs & Ht & Hin).
      rewrite Ht, Hfirst, <- app_assoc. eexists. split; [done |].
      simpl. right. apply in_or_app. by right.
Qed.

End ImageLoop.

(** ** One unit *)

Section Unit.

Variable W : world.
Variable nfkd : pystr -> pystr.

Lemma safe_request_io_event fuel m u json :
  within (io io_event) (safe_request W fuel m u json).
Proof.
  eapply within_weaken; [| apply safe_request_io].
  intros s s'. apply io_weaken, request_layer_io_event.
Qed.

Lemma update_loop_io_event fuel sku_id base_name index images success :
  within (io io_event)
    (update_loop W fuel sku_id base_name index images success).
Proof.
  eapply within_weaken; [| apply update_loop_io].
  intros s s'. apply io_weaken.
  intros [rq | | | | | |]; simpl; tauto.
Qed.

Lemma process_sku_images_io fuel sku_id product_name :
  within (io io_event) (process_sku_images W nfkd fuel sku_id product_name).
Proof.
  unfold process_sku_images. within_bind; [apply safe_request_io_event |].
  intros [r |]; [| within_leaf].
  destruct (negb (response_ok r)); [within_leaf |].
  destruct (status_code r =? 200).
  - within_bind; [within_leaf |]. intros [| img rest]; [within_leaf |].
    within_bind; [within_leaf |]. intros [|].
    + within_bind; [by apply io_emit | intros _; within_leaf].
    + within_bind; [within_leaf |]. intros base_name.
      apply update_loop_io_event.
  - destruct (status_code r =? 404); [within_leaf |].
    within_bind; [by apply io_emit | intros _; within_leaf].
Qed.

Lemma get_sku_details_io fuel sku_id :
  within (io io_event) (get_sku_details W fuel sku_id).
Proof.
  unfold get_sku_details. within_bind; [apply safe_request_io_event |].
  intros [r |]; [| within_leaf].
  destruct (_ && _); [| within_leaf].
  within_bind; [within_leaf |]. intros d. within_leaf.
Qed.

(** The image step reports success only if no update in it failed. *)
Lemma process_sku_images_true fuel sku_id product_name s s' :
  process_sku_images W nfkd fuel sku_id product_name s = (Ok true, s') ->
  grows clean s s'.
Proof.
  unfold process_sku_images, bind.
  destruct (safe_request_grows W fuel GET (UrlSkuFiles sku_id) None s)
    as (evs & Ht & HF).
  destruct (safe_request W fuel GET _ None s) as [[[r |] | e |] s1];
    simpl in Ht; try done.
  assert (G1 : grows clean s s1).
  { exists evs. split; [done |]. eapply Forall_impl; [exact HF |].
    apply request_layer_clean. }
  destruct (negb (response_ok r)); [done |].
  destruct (status_code r =? 200).
  - unfold lift at 1. destruct (json_images r) as [[| img rest] | e |];
      try done; [by intros [= <-] |].
    unfold lift at 1.
    destruct (all_have_alt (img :: rest)) as [[|] | e |]; try done.
    + simpl. intros [= <-]. etrans; [exact G1 |].
      exists [EvLog INFO (MsgSkipSku sku_id)]. split; [done |].
      constructor; [simpl; tauto | constructor].
    + unfold lift at 1.
      destruct (slugify_name nfkd product_name) as [base_name | e |];
        try done.
      intros H. apply update_loop_true in H as [_ G]. by etrans.
  - destruct (status_code r =? 404); [by intros [= <-] | done].
Qed.

End Unit.

(** C5. [process_single_sku] calls [mark_processed] for its unit exactly
    when the unit was not yet processed, the detail fetch gave a usable
    name and [process_sku_images] returned [True]; the unit is then in
    the checkpoint and the transaction returns [True]. And
    [process_sku_images] returns [True] only if no image update that it
    attempted failed. *)
Theorem marked_iff_images_succeeded W nfkd fuel sku_id s :
  let out := process_single_sku W nfkd fuel sku_id s in
  exists evs,
    trace out.2 = trace s ++ evs /\
    (In (EvMark sku_id) evs <->
       is_processed_in sku_id (data s) = false /\
       exists name ref_id s1 s2,
         get_sku_details W fuel sku_id s = (Ok (name, ref_id), s1) /\
         truthy name = true /\
         process_sku_images W nfkd fuel sku_id name
           (push s1 [EvLog INFO (MsgSku sku_id ref_id name)]) = (Ok true, s2)) /\
    (In (EvMark sku_id) evs ->
       out.1 = Ok true /\ In sku_id (processed_skus (data out.2))) /\
    (forall name s1 s2,
       process_sku_images W nfkd fuel sku_id name s1 = (Ok true, s2) ->
       grows clean s1 s2).
Proof.
  simpl.
  assert (Hno : forall l, Forall io_event l -> ~ In (EvMark sku_id) l).
  { intros l HF Hin. rewrite Forall_forall in HF.
    apply list_elem_of_In in Hin. by apply HF in Hin. }
  assert (HB : forall name s1 s2,
             process_sku_images W nfkd fuel sku_id name s1 = (Ok true, s2) ->
             grows clean s1 s2).
  { intros name s1 s2. apply process_sku_images_true. }
  unfold process_single_sku, bind, is_processed, get_data, ret. simpl.
  destruct (is_processed_in sku_id (data s)) eqn:Hseen.
  { (* already processed *)
    simpl. exists [EvLog INFO (MsgAlreadyProcessed sku_id)].
    split; [done |]. split; [| split; [| done]].
    - split; [by intros [? | []] | by intros [? _]].
    - by intros [? | []]. }
  destruct (get_sku_details_io W fuel sku_id s) as ((e1 & Ht1 & HF1) & Hd1 & _).
  destruct (get_sku_details W fuel sku_id s) as [[[name ref_id] | e |] s1] eqn:E1;
    simpl in Ht1, Hd1.
  2,3: exists e1; split; [done |]; split; [| split; [| done]];
       [ split; [intros Hin; by destruct (Hno _ HF1) |];
         by intros (_ & ? & ? & ? & ? & [=] & _)
       | intros Hin; by destruct (Hno _ HF1) ].
  destruct (truthy name) eqn:Hname; simpl.
  2: { exists (e1 ++ [EvLog WARNING (MsgIgnored sku_id)]).
       rewrite Ht1, <- app_assoc.
       assert (HF : Forall io_event (e1 ++ [EvLog WARNING (MsgIgnored sku_id)])).
       { apply Forall_app. split; [done |]. by repeat constructor. }
       split; [done |]. split; [| split; [| done]].
       - split; [intros Hin; by destruct (Hno _ HF) |].
         intros (_ & n & r & ? & ? & [= <- <- <-] & Ht & _). congruence.
       - intros Hin. by destruct (Hno _ HF). }
  unfold log_message, emit. simpl.
  set (s1' := {| trace := trace s1 ++ [EvLog INFO (MsgSku sku_id ref_id name)];
                 data := data s1; file := file s1;
                 processed_count := processed_count s1 |}).
  assert (Hs1' : s1' = push s1 [EvLog INFO (MsgSku sku_id ref_id name)]) by done.
  destruct (process_sku_images_io W nfkd fuel sku_id name s1')
    as ((e2 & Ht2 & HF2) & Hd2 & _).
  destruct (process_sku_images W nfkd fuel sku_id name s1')
    as [[[|] | e |] s2] eqn:E2; simpl in Ht2, Hd2; simpl.
  - (* the images succeeded: the unit is marked *)
    exists (e1 ++ EvLog INFO (MsgSku sku_id ref_id name) :: e2 ++ [EvMark sku_id]).
    split.
    { unfold mark_processed, bind, emit, get_data, set_data, ret. simpl.
      destruct (is_processed_in sku_id (data s2)); simpl;
        rewrite Ht2; simpl; by rewrite Ht1, <- !app_assoc. }
    split; [| split; [| done]].
    + split; [| intros _; apply in_or_app; right; right;
                 apply in_or_app; right; by left].
      intros _. split; [done |]. exists name, ref_id, s1, s2.
      by rewrite <- Hs1'.
    + intros _. unfold mark_processed, bind, emit, get_data, set_data, ret.
      simpl. destruct (is_processed_in sku_id (data s2)) eqn:Hin2; simpl.
      * split; [done |]. by apply is_processed_in_spec.
      * split; [done |]. apply in_or_app. right. by left.
  - (* an update failed: no mark *)
    assert (HF : Forall io_event
                   (e1 ++ EvLog INFO (MsgSku sku_id ref_id name) :: e2)).
    { apply Forall_app. split; [done |]. by constructor. }
    exists (e1 ++ EvLog INFO (MsgSku sku_id ref_id name) :: e2).
    split; [by rewrite Ht2; simpl; rewrite Ht1, <- !app_assoc |].
    split; [| split; [| done]].
    + split; [intros Hin; by destruct (Hno _ HF) |].
      intros (_ & n & r & ? & ? & [= <- <- <-] & _ & Hp).
      rewrite <- Hs1', E2 in Hp. done.
    + intros Hin. by destruct (Hno _ HF).
  - assert (HF : Forall io_event
                   (e1 ++ EvLog INFO (MsgSku sku_id ref_id name) :: e2)).
    { apply Forall_app. split; [done |]. by constructor. }
    exists (e1 ++ EvLog INFO (MsgSku sku_id ref_id name) :: e2).
    split; [by rewrite Ht2; simpl; rewrite Ht1, <- !app_assoc |].
    split; [| split; [| done]].
    + split; [intros Hin; by destruct (Hno _ HF) |].
      intros (_ & n & r & ? & ? & [= <- <- <-] & _ & Hp).
      rewrite <- Hs1', E2 in Hp. done.
    + intros Hin. by destruct (Hno _ HF).
  - assert (HF : Forall io_event
                   (e1 ++ EvLog INFO (MsgSku sku_id ref_id name) :: e2)).
    { apply Forall_app. split; [done |]. by constructor. }
    exists (e1 ++ EvLog INFO (MsgSku sku_id ref_id name) :: e2).
    split; [by rewrite Ht2; simpl; rewrite Ht1, <- !app_assoc |].
    split; [| split; [| done]].
    + split; [intros Hin; by destruct (Hno _ HF) |].
      intros (_ & n & r & ? & ? & [= <- <- <-] & _ & Hp).
      rewrite <- Hs1', E2 in Hp. done.
    + intros Hin. by destruct (Hno _ HF).
Qed.

(** Every request of the image step is the fetch of the list or an
    update that is due. *)
Lemma process_sku_images_safety W nfkd fuel sku_id name s :
  let fetch := Request GET (UrlSkuFiles sku_id) None in
  let slug := slugify nfkd name in
  let out := process_sku_images W nfkd fuel sku_id (PStr name) s in
  exists evs images,
    trace out.2 = trace s ++ evs /\
    (images = [] \/
     exists pre r, respond W pre fetch = Answer r /\
                   json_images r = Ok images) /\
    Forall (fun e =>
              match e with
              | EvRequest rq =>
                  rq = fetch \/
                  exists i img,
                    images !! i = Some img /\
                    current_label img
                      <> PStr (slug ++ [underscore] ++ str_of_nat (S i)) /\
                    rq = put_request sku_id img
                           (slug ++ [underscore] ++ str_of_nat (S i))
              | _ => True
              end) evs.
Proof.
  simpl. unfold process_sku_images, bind.
  destruct (safe_request_grows W fuel GET (UrlSkuFiles sku_id) None s)
    as (evs & Ht & HF).
  set (Q (images : list dict) := fun e =>
         match e with
         | EvRequest rq =>
             rq = Request GET (UrlSkuFiles sku_id) None \/
             exists i img,
               images !! i = Some img /\
               current_label img
                 <> PStr (slugify nfkd name ++ [underscore] ++ str_of_nat (S i)) /\
               rq = put_request sku_id img
                      (slugify nfkd name ++ [underscore] ++ str_of_nat (S i))
         | _ => True
         end).
  assert (HQ : forall images, Forall (Q images) evs).
  { intros images. eapply Forall_impl; [exact HF |].
    intros [rq | | | | | |]; simpl; try done. by left. }
  assert (Hstop : forall (tr l : list event),
             tr = trace s ++ evs ++ l -> Forall (Q []) l ->
             exists evs0 images,
               tr = trace s ++ evs0 /\
               (images = [] \/
                exists pre r,
                  respond W pre (Request GET (UrlSkuFiles sku_id) None)
                    = Answer r /\ json_images r = Ok images) /\
               Forall (Q images) evs0).
  { intros tr l Hs1 Hl. exists (evs ++ l), []. split; [done |].
    split; [by left |]. apply Forall_app. by split. }
  destruct (safe_request W fuel GET _ None s) as [[[r |] | e |] s1] eqn:E;
    simpl in Ht.
  2-4: by simpl; apply (Hstop _ []); [rewrite app_nil_r | constructor].
  destruct (negb (response_ok r)).
  { by simpl; apply (Hstop _ []); [rewrite app_nil_r | constructor]. }
  destruct (status_code r =? 200).
  2: { destruct (status_code r =? 404); simpl.
       - by apply (Hstop _ []); [rewrite app_nil_r | constructor].
       - apply (Hstop _ [EvLog ERROR (MsgGetError sku_id (status_code r))]);
           [by rewrite Ht, <- app_assoc | by repeat constructor]. }
  unfold lift at 1. destruct (json_images r) as [[| img rest] | e |] eqn:Ej.
  1,3,4: by simpl; apply (Hstop _ []); [rewrite app_nil_r | constructor].
  unfold lift at 1. destruct (all_have_alt (img :: rest)) as [[|] | e |].
  2: { cbv beta iota delta [lift slugify_name].
       destruct (update_loop_io W fuel sku_id (slugify nfkd name) (img :: rest)
                   1 true s1) as ((l & Hl & HFl) & _).
       apply safe_request_some in E as (pre & _ & Hpre & _).
       exists (evs ++ l), (img :: rest).
       split; [rewrite Hl, Ht, app_assoc; reflexivity |].
       split; [right; eauto |]. apply Forall_app. split; [apply HQ |].
       eapply Forall_impl; [exact HFl |].
       intros [rq | | | | | |]; simpl; try done.
       intros (i & im & Hi & Hne & ->). right. exists i, im. done. }
  - simpl. apply (Hstop _ [EvLog INFO (MsgSkipSku sku_id)]);
      [by rewrite Ht, <- app_assoc | by repeat constructor].
  - by simpl; apply (Hstop _ []); [rewrite app_nil_r | constructor].
  - by simpl; apply (Hstop _ []); [rewrite app_nil_r | constructor].
Qed.

Lemma requests_of_app a b :
  requests_of (a ++ b) = requests_of a ++ requests_of b.
Proof. apply omap_app. Qed.

(** One call of [update_image_alt] returns, and sends its PUT once. *)
Lemma update_image_alt_once W fuel sku_id img new_alt s :
  exists b s',
    update_image_alt W (S fuel) sku_id img new_alt s = (Ok b, s') /\
    requests_of (trace s')
    = requests_of (trace s) ++ [put_request sku_id img new_alt].
Proof.
  unfold update_image_alt. rewrite bind_unfold. fold (put_request sku_id img new_alt).
  destruct (safe_request_cases W fuel PUT
              (UrlSkuFile sku_id (dict_get img "Id"))
              (Some (payload_of img new_alt)) s)
    as [(r & _ & _ & ->) | (msg & _ & _ & ->)];
    repeat match goal with
           | |- context [if ?c then _ else _] => destruct c
           end;
    (do 2 eexists; split; [reflexivity |]); simpl;
    rewrite <- ?app_assoc, !requests_of_app; reflexivity.
Qed.

Lemma omap_cons_Some {A B} (f : A -> option B) x y l :
  f x = Some y -> omap f (x :: l) = y :: omap f l.
Proof. intros H. simpl. by rewrite H. Qed.

Lemma omap_cons_None {A B} (f : A -> option B) x l :
  f x = None -> omap f (x :: l) = omap f l.
Proof. intros H. simpl. by rewrite H. Qed.

Lemma enumerate_cons {A} index (x : A) l :
  enumerate index (x :: l) = (index, x) :: enumerate (S index) l.
Proof. reflexivity. Qed.

(** The loop returns, and its requests are the updates that are due,
    in the order of the images. *)
Lemma update_loop_requests W fuel sku_id base_name images :
  forall index success s,
    exists b s',
      update_loop W (S fuel) sku_id base_name index images success s
        = (Ok b, s') /\
      requests_of (trace s')
      = requests_of (trace s)
        ++ omap (due sku_id base_name) (enumerate index images).
Proof.
  induction images as [| img rest IH]; intros index success s.
  { exists success, s. split; [done |]. by rewrite app_nil_r. }
  cbn [update_loop]. rewrite enumerate_cons.
  destruct (decide (dict_get_or img "Label" (PStr [])
                    = PStr (target_label base_name index))) as [Heq | Hne].
  - rewrite bind_unfold, log_run.
    destruct (IH (S index) success
                (log_message (MsgSkipImage (target_label base_name index))
                   INFO s).2) as (b & s' & Hrun & Hreq).
    exists b, s'. split; [exact Hrun |]. rewrite Hreq.
    rewrite omap_cons_None.
    + cbn [log_message emit snd trace]. rewrite requests_of_app.
      cbn [requests_of omap list_omap]. by rewrite app_nil_r.
    + unfold due, current_label. cbn [fst snd]. by destruct (decide _).
  - rewrite bind_unfold.
    destruct (update_image_alt_once W fuel sku_id img
                (target_label base_name index) s) as (u & s1 & -> & Hreq1).
    destruct (IH (S index) (if u then success else false) s1)
      as (b & s' & Hrun & Hreq).
    exists b, s'. split; [exact Hrun |].
    rewrite Hreq, Hreq1, <- app_assoc.
    rewrite (omap_cons_Some _ _ (put_request sku_id img
                                   (target_label base_name index))); [done |].
    unfold due, current_label. cbn [fst snd]. by destruct (decide _).
Qed.

(** When the image list is fetched and not every image has a label, the
    step returns and its requests are the fetch and the due updates. *)
Lemma process_sku_images_due W nfkd fuel sku_id name s r images :
  respond W (trace s) (fetch_images sku_id) = Answer r ->
  status_code r = 200 ->
  json_images r = Ok images ->
  all_have_alt images = Ok false ->
  exists b s',
    process_sku_images W nfkd (S fuel) sku_id (PStr name) s = (Ok b, s') /\
    requests_of (trace s')
    = requests_of (trace s)
      ++ fetch_images sku_id :: due_updates sku_id (slugify nfkd name) images.
Proof.
  intros Hr Hs Hj Hall. unfold process_sku_images. rewrite bind_unfold.
  unfold fetch_images in *.
  rewrite (safe_request_answer W fuel _ _ _ _ _ Hr) by (by rewrite Hs).
  unfold response_ok. rewrite Hs.
  change (negb (negb ((400 <=? 200) && (200 <? 600)))) with false.
  change (200 =? 200) with true. cbv beta iota.
  rewrite bind_unfold. unfold lift at 1. rewrite Hj.
  destruct images as [| img rest]; [done |].
  rewrite bind_unfold. unfold lift at 1. rewrite Hall.
  rewrite bind_unfold. unfold lift at 1, slugify_name.
  destruct (update_loop_requests W fuel sku_id (slugify nfkd name)
              (img :: rest) 1 true
              (push s [EvRequest (Request GET (UrlSkuFiles sku_id) None)]))
    as (b & s' & Hrun & Hreq).
  exists b, s'. split; [exact Hrun |]. rewrite Hreq. simpl.
  rewrite requests_of_app. simpl. by rewrite <- app_assoc.
Qed.

(** C7. For a unit named [name], whose slug is [slug], the image at the
    1-based position [i] of the fetched list has the target label
    [slug_i]. Every update that [process_sku_images] submits is the PUT
    of an image of the list with its target label, and that image's
    current label differs from it: an image that already carries its
    target label is never submitted, and the only other request is the
    fetch of the list. And when the list is fetched and not every image
    has a label, the step returns and the updates it has submitted are
    exactly those of the images whose label differs from their target,
    once each and in the order of the list. *)
Theorem target_label_by_position W nfkd fuel sku_id name s :
  (let fetch := Request GET (UrlSkuFiles sku_id) None in
   let slug := slugify nfkd name in
   let out := process_sku_images W nfkd fuel sku_id (PStr name) s in
   exists evs images,
     trace out.2 = trace s ++ evs /\
     (images = [] \/
      exists pre r, respond W pre fetch = Answer r /\
                    json_images r = Ok images) /\
     Forall (fun e =>
               match e with
               | EvRequest rq =>
                   rq = fetch \/
                   exists i img,
                     images !! i = Some img /\
                     current_label img
                       <> PStr (slug ++ [underscore] ++ str_of_nat (S i)) /\
                     rq = put_request sku_id img
                            (slug ++ [underscore] ++ str_of_nat (S i))
               | _ => True
               end) evs) /\
  (forall r images,
     respond W (trace s) (fetch_images sku_id) = Answer r ->
     status_code r = 200 ->
     json_images r = Ok images ->
     all_have_alt images = Ok false ->
     exists b s',
       process_sku_images W nfkd (S fuel) sku_id (PStr name) s = (Ok b, s') /\
       requests_of (trace s')
       = requests_of (trace s)
         ++ fetch_images sku_id
            :: omap (fun p : nat * dict =>
                       if decide (current_label p.2
                                  = PStr (slugify nfkd name ++ [underscore]
                                          ++ str_of_nat p.1))
                       then None
                       else Some (put_request sku_id p.2
                                    (slugify nfkd name ++ [underscore]
                                     ++ str_of_nat p.1)))
                 (zip (seq 1 (length images)) images)).
Proof.
  split; [apply process_sku_images_safety |].
  intros r images. apply process_sku_images_due.
Qed.

Lemma target_label_by_position_witness :
  exists b s',
    process_sku_images world_pair nfkd_latin1 1 42 (PStr (py "Dipirona 500mg"))
      (initial_state NoFile) = (Ok b, s') /\
    requests_of (trace s')
    = [fetch_images 42;
       put_request 42 sample_image (py "dipirona-500mg_1")].
Proof.
  exact (proj2 (target_label_by_position world_pair nfkd_latin1 0 42
                  (py "Dipirona 500mg") (initial_state NoFile))
           {| status_code := 200; headers := ∅;
              content := BImages [sample_image; second_image] |}
           [sample_image; second_image]
           eq_refl eq_refl eq_refl eq_refl).
Defined.

(** ** Slugs *)

Lemma is_space_spec c :
  is_space c = true <->
  (9 <= c <= 13 \/ 28 <= c <= 32 \/ c = 133 \/ c = 160 \/ c = 5760 \/
   8192 <= c <= 8202 \/ 8232 <= c <= 8233 \/ c = 8239 \/ c = 8287 \/
   c = 12288)%N.
Proof.
  unfold is_space.
  rewrite !orb_true_iff, !andb_true_iff, !N.leb_le, !N.eqb_eq. tauto.
Qed.

Ltac chars :=
  repeat match goal with
         | H : is_space _ = true |- _ => apply is_space_spec in H
         end;
  unfold alnum, slug_char, is_upper, is_lower, is_digit, is_ascii,
    lower_char, hyphen in *;
  repeat match goal with
         | |- context [(?a <=? ?b)%N] => destruct (N.leb_spec a b)
         | |- context [(?a <? ?b)%N] => destruct (N.ltb_spec a b)
         | |- context [(?a =? ?b)%N] => destruct (N.eqb_spec a b)
         | H : context [(?a <=? ?b)%N] |- _ => destruct (N.leb_spec a b)
         | H : context [(?a <? ?b)%N] |- _ => destruct (N.ltb_spec a b)
         | H : context [(?a =? ?b)%N] |- _ => destruct (N.eqb_spec a b)
         end; simpl in *; try done; try lia.

Lemma slug_char_lower_alnum c : alnum c = true -> slug_char (lower_char c) = true.
Proof. intros H. unfold lower_char. destruct (is_upper c) eqn:E; chars. Qed.

Lemma alnum_ascii c : alnum c = true -> is_ascii c = true.
Proof. intros H. chars. Qed.

Lemma lower_space c : is_space c = true -> lower_char c = c.
Proof. intros H. unfold lower_char. destruct (is_upper c) eqn:E; chars. Qed.

Lemma alnum_not_space c : alnum c = true -> is_space c = false.
Proof. intros H. destruct (is_space c) eqn:E; [chars | done]. Qed.

Lemma lower_alnum c : alnum c = true -> alnum (lower_char c) = true.
Proof. intros H. unfold lower_char. destruct (is_upper c) eqn:E; chars. Qed.

Lemma filter_all {A} (f : A -> bool) l :
  Forall (fun x => f x = true) l -> List.filter f l = l.
Proof.
  induction 1 as [| x l Hx _ IH]; [done |]. simpl. by rewrite Hx, IH.
Qed.

Lemma lstrip_blank g t :
  Forall (fun c => is_space c = true) g -> lstrip (g ++ t) = lstrip t.
Proof. induction 1 as [| c g Hc _ IH]; [done |]. simpl. by rewrite Hc. Qed.

Lemma lstrip_word c t : is_space c = false -> lstrip (c :: t) = c :: t.
Proof. intros H. simpl. by rewrite H. Qed.

Lemma sub_spaces_word b w t :
  w <> [] -> Forall (fun c => is_space c = false) w ->
  sub_spaces_from b (w ++ t) = w ++ sub_spaces_from false t.
Proof.
  intros Hne HF. revert b. induction HF as [| c w Hc HF IH]; [done |].
  intros b. simpl. rewrite Hc. f_equal.
  destruct w as [| c' w']; [done |]. by apply IH.
Qed.

Lemma sub_spaces_blank_run g t :
  Forall (fun c => is_space c = true) g ->
  sub_spaces_from true (g ++ t) = sub_spaces_from true t.
Proof. induction 1 as [| c g Hc _ IH]; [done |]. simpl. by rewrite Hc. Qed.

Lemma sub_spaces_blank g t :
  blank g -> sub_spaces_from false (g ++ t) = hyphen :: sub_spaces_from true t.
Proof.
  intros [Hne HF]. destruct HF as [| c g Hc HF]; [done |].
  simpl. rewrite Hc. f_equal. by apply sub_spaces_blank_run.
Qed.

Lemma sub_spaces_snoc c t :
  is_space c = false ->
  forall b, sub_spaces_from b (t ++ [c]) = sub_spaces_from b t ++ [c].
Proof.
  intros Hc. induction t as [| x t IH]; intros b; simpl.
  - by rewrite Hc.
  - destruct (is_space x); [destruct b |]; by rewrite IH.
Qed.

Section SlugifyFacts.

Variable nfkd : pystr -> pystr.

Lemma slugify_chars text :
  Forall (fun c => slug_char c = true) (slugify nfkd text).
Proof.
  unfold slugify. destruct text as [| c t]; [constructor |].
  unfold drop_non_slug. apply Forall_forall. intros x Hx.
  apply list_elem_of_In, filter_In in Hx. tauto.
Qed.

End SlugifyFacts.

Lemma phrase_cons w g w' rest :
  phrase w ((g, w') :: rest) = w ++ g ++ phrase w' rest.
Proof. unfold phrase. simpl. by rewrite <- app_assoc. Qed.

Lemma hyphenated_cons w g w' rest :
  hyphenated w ((g, w') :: rest) = lower w ++ hyphen :: hyphenated w' rest.
Proof. done. Qed.

Lemma lower_blank g :
  Forall (fun c => is_space c = true) g -> lower g = g.
Proof.
  induction 1 as [| c g Hc _ IH]; [done |].
  unfold lower in *. simpl. by rewrite IH, lower_space.
Qed.

Lemma lower_app a b : lower (a ++ b) = lower a ++ lower b.
Proof. apply map_app. Qed.

(** A phrase ends with a character of its last word. *)
Lemma phrase_last rest : forall w,
  word w -> Forall (fun gw => blank gw.1 /\ word gw.2) rest ->
  exists x c, phrase w rest = x ++ [c] /\ alnum c = true.
Proof.
  induction rest as [| [g w'] rest IH]; intros w [Hne HF] Hrest.
  - unfold phrase. simpl. rewrite app_nil_r.
    destruct (exists_last Hne) as (x & c & ->). exists x, c. split; [done |].
    apply Forall_app in HF as [_ HF]. by inversion HF.
  - inversion Hrest as [| ? ? [_ Hw'] Hrest']; subst. simpl in Hw'.
    destruct (IH w' Hw' Hrest') as (x & c & Hx & Hc).
    exists (w ++ g ++ x), c. split; [| done].
    by rewrite phrase_cons, Hx, <- !app_assoc.
Qed.

(** Whitespace runs between lowered words become single hyphens. *)
Lemma sub_spaces_phrase rest : forall b w,
  word w -> Forall (fun gw => blank gw.1 /\ word gw.2) rest ->
  sub_spaces_from b (lower (phrase w rest)) = hyphenated w rest.
Proof.
  induction rest as [| [g w'] rest IH]; intros b w [Hne HF] Hrest.
  - unfold phrase, hyphenated. simpl. rewrite !app_nil_r.
    rewrite <- (app_nil_r (lower w)) at 1.
    rewrite sub_spaces_word; [by rewrite app_nil_r | |].
    + destruct w; [done | by simpl].
    + unfold lower. apply Forall_map. eapply Forall_impl; [exact HF |].
      intros c Hc. simpl. by apply alnum_not_space, lower_alnum.
  - inversion Hrest as [| ? ? [Hg Hw'] Hrest']; subst. simpl in Hg, Hw'.
    rewrite phrase_cons, hyphenated_cons, !lower_app.
    rewrite sub_spaces_word.
    + f_equal. rewrite (lower_blank g) by apply Hg.
      rewrite sub_spaces_blank by done. f_equal. by apply IH.
    + destruct w; [done | by simpl].
    + unfold lower. apply Forall_map. eapply Forall_impl; [exact HF |].
      intros c Hc. simpl. by apply alnum_not_space, lower_alnum.
Qed.

Lemma hyphenated_chars rest : forall w,
  word w -> Forall (fun gw => blank gw.1 /\ word gw.2) rest ->
  Forall (fun c => slug_char c = true) (hyphenated w rest).
Proof.
  assert (Hw : forall w, word w -> Forall (fun c => slug_char c = true) (lower w)).
  { intros w [_ HF]. unfold lower. apply Forall_map.
    eapply Forall_impl; [exact HF |]. intros c. apply slug_char_lower_alnum. }
  induction rest as [| [g w'] rest IH]; intros w Hword Hrest.
  - unfold hyphenated. simpl. rewrite app_nil_r. by apply Hw.
  - inversion Hrest as [| ? ? [_ Hw'] Hrest']; subst. simpl in Hw'.
    rewrite hyphenated_cons. apply Forall_app. split; [by apply Hw |].
    constructor; [done | by apply IH].
Qed.

(** Stripping removes exactly the surrounding whitespace of text that
    begins and ends with a character that is not whitespace. *)
Lemma strip_padded lead trail c x c' :
  Forall (fun c => is_space c = true) lead ->
  Forall (fun c => is_space c = true) trail ->
  is_space c = false -> is_space c' = false ->
  forall t, t = c :: x -> forall y, t = y ++ [c'] ->
  strip (lead ++ t ++ trail) = t.
Proof.
  intros Hlead Htrail Hc Hc' t Ht y Hy. unfold strip, rstrip.
  rewrite lstrip_blank by done.
  assert (lstrip (t ++ trail) = t ++ trail) as ->.
  { rewrite Ht. simpl. by rewrite Hc. }
  rewrite rev_app_distr, lstrip_blank.
  - rewrite Hy at 1. rewrite rev_app_distr. simpl. rewrite Hc'.
    simpl. by rewrite rev_involutive.
  - apply Forall_forall. intros z Hz. rewrite Forall_forall in Htrail.
    apply Htrail. apply list_elem_of_In. apply list_elem_of_In in Hz.
    by apply in_rev.
Qed.

(** The claim about the slug, in the spec's words, fails on the code:
    a full stop or a bracket is deleted rather than hyphenated, hyphens
    next to a space pile up, and a hyphen can end the slug; while an
    acute accent standing alone, which decomposes into a space and a
    combining mark, does become a hyphen. *)
Lemma slugify_not_hyphen_trimmed :
  slugify nfkd_latin1 (py "Vitamina C - 500mg.") = py "vitamina-c---500mg" /\
  slugify nfkd_latin1 (py "a.b") = py "ab" /\
  slugify nfkd_latin1 (py "Dipirona (gotas) -") = py "dipirona-gotas--" /\
  edge_hyphen (slugify nfkd_latin1 (py "Dipirona (gotas) -")) /\
  slugify nfkd_latin1 a_acute_b = py "a-b".
Proof.
  split; [reflexivity |]. split; [reflexivity |]. split; [reflexivity |].
  split; [right; reflexivity | reflexivity].
Qed.

(** What the slug keeps of a text, hyphens apart. *)
Lemma filter_letters_slug t :
  List.filter not_hyphen (drop_non_slug t)
  = List.filter (fun c => is_lower c || is_digit c) t.
Proof.
  unfold drop_non_slug. induction t as [| c t IH]; [done |]. simpl.
  destruct (slug_char c) eqn:Hs; simpl.
  - destruct (not_hyphen c) eqn:Hn; destruct (is_lower c || is_digit c) eqn:Hl;
      rewrite ?IH; try done; exfalso; unfold not_hyphen in Hn; chars.
  - destruct (is_lower c || is_digit c) eqn:Hl; [| done].
    exfalso. unfold slug_char in Hs. by rewrite Hl in Hs.
Qed.

Lemma space_not_letter c :
  is_space c = true -> is_lower c || is_digit c = false.
Proof. intros H. chars. Qed.

Lemma filter_letters_sub_spaces t : forall b,
  List.filter (fun c => is_lower c || is_digit c) (sub_spaces_from b t)
  = List.filter (fun c => is_lower c || is_digit c) t.
Proof.
  induction t as [| c t IH]; intros b; [done |]. simpl.
  destruct (is_space c) eqn:Hc.
  - rewrite (space_not_letter c Hc). destruct b; simpl; by rewrite IH.
  - simpl. by rewrite IH.
Qed.

Lemma filter_letters_lstrip t :
  List.filter (fun c => is_lower c || is_digit c) (lstrip t)
  = List.filter (fun c => is_lower c || is_digit c) t.
Proof.
  induction t as [| c t IH]; [done |]. simpl.
  destruct (is_space c) eqn:Hc; [| done].
  by rewrite (space_not_letter c Hc).
Qed.

Lemma filter_letters_strip t :
  List.filter (fun c => is_lower c || is_digit c) (strip t)
  = List.filter (fun c => is_lower c || is_digit c) t.
Proof.
  unfold strip, rstrip.
  rewrite List.filter_rev, filter_letters_lstrip, List.filter_rev.
  by rewrite rev_involutive, filter_letters_lstrip.
Qed.

Lemma filter_letters_lower t :
  List.filter (fun c => is_lower c || is_digit c) (lower t)
  = lower (List.filter alnum t).
Proof.
  unfold lower. induction t as [| c t IH]; [done |]. simpl.
  assert (H : is_lower (lower_char c) || is_digit (lower_char c) = alnum c).
  { unfold lower_char. destruct (is_upper c) eqn:E; chars. }
  rewrite H. destruct (alnum c); simpl; by rewrite IH.
Qed.

Lemma slugify_letters nfkd text :
  text <> [] ->
  List.filter not_hyphen (slugify nfkd text)
  = lower (List.filter alnum (encode_ascii_ignore (nfkd text))).
Proof.
  intros Hne. destruct text as [| c t]; [done |]. unfold slugify.
  rewrite filter_letters_slug. unfold sub_spaces.
  rewrite filter_letters_sub_spaces, filter_letters_strip.
  apply filter_letters_lower.
Qed.

Lemma lower_alnum_not_hyphen a : alnum a = true -> lower_char a <> hyphen.
Proof. intros Ha. unfold lower_char. destruct (is_upper a) eqn:E; chars. Qed.

Lemma slugify_nonempty nfkd text :
  text <> [] ->
  slugify nfkd text =
  drop_non_slug (sub_spaces (strip (lower (encode_ascii_ignore (nfkd text))))).
Proof. by destruct text. Qed.

(** C2, amended. [slugify ""] is [""]. Every character of a slug is a
    lower-case ASCII letter, a digit or a hyphen. Hyphens apart, a slug
    is made of the letters and digits of the ASCII part of the name's
    NFKD form (what is left of it once the code points without an ASCII
    encoding, such as the combining accents, are dropped), in lower case
    and in their order. And when that ASCII part consists of
    letter-and-digit words separated by runs of white space, with any
    white space around them, the slug is the lower-cased words joined by
    single hyphens, so that it neither begins nor ends with a hyphen. *)
Theorem slugify_words nfkd text lead w rest trail :
  text <> [] ->
  encode_ascii_ignore (nfkd text) = lead ++ phrase w rest ++ trail ->
  word w ->
  Forall (fun gw => blank gw.1 /\ word gw.2) rest ->
  Forall (fun c => is_space c = true) lead ->
  Forall (fun c => is_space c = true) trail ->
  slugify nfkd [] = [] /\
  (forall t, Forall (fun c => slug_char c = true) (slugify nfkd t)) /\
  (forall t, t <> [] ->
     List.filter not_hyphen (slugify nfkd t)
     = lower (List.filter alnum (encode_ascii_ignore (nfkd t)))) /\
  slugify nfkd text = hyphenated w rest /\
  ~ edge_hyphen (hyphenated w rest).
Proof.
  intros Hne Hpart Hw Hrest Hlead Htrail.
  split; [done |]. split; [apply slugify_chars |].
  split; [apply slugify_letters |].
  destruct (phrase_last rest w Hw Hrest) as (y & c' & Hy & Hc').
  assert (exists c x, phrase w rest = c :: x /\ alnum c = true)
    as (c & x & Hx & Hc).
  { destruct Hw as [Hnw HF]. unfold phrase.
    destruct w as [| c w]; [done |]. exists c. eexists. split; [done |].
    by inversion HF. }
  assert (Hstrip : strip (lower (lead ++ phrase w rest ++ trail))
                   = lower (phrase w rest)).
  { rewrite !lower_app, (lower_blank lead), (lower_blank trail) by done.
    eapply (strip_padded lead trail (lower_char c) (lower x) (lower_char c')
              Hlead Htrail).
    - by apply alnum_not_space, lower_alnum.
    - by apply alnum_not_space, lower_alnum.
    - by rewrite Hx.
    - rewrite Hy, lower_app. done. }
  split.
  - rewrite slugify_nonempty by done. rewrite Hpart, Hstrip.
    unfold sub_spaces. rewrite sub_spaces_phrase by done.
    unfold drop_non_slug. apply filter_all. by apply hyphenated_chars.
  - pose proof lower_alnum_not_hyphen as Hnot.
    intros [Hhead | Hlast].
    + unfold hyphenated in Hhead. rewrite Hx in *.
      destruct w as [| a w']; [by destruct Hw |].
      simpl in Hhead. injection Hhead as Hhead.
      destruct Hw as [_ HF]. inversion HF; subst. by eapply Hnot.
    + assert (Hl : last (hyphenated w rest) = Some (lower_char c')).
      { rewrite <- (sub_spaces_phrase rest false w Hw Hrest), Hy, lower_app.
        change (lower [c']) with [lower_char c'].
        rewrite sub_spaces_snoc by (by apply alnum_not_space, lower_alnum).
        apply last_snoc. }
      rewrite Hl in Hlast. injection Hlast as Hlast.
      exact (Hnot c' Hc' Hlast).
Qed.

(** The Latin-1 table leaves ASCII text as it is. *)
Lemma nfkd_latin1_char_ascii c : is_ascii c = true -> nfkd_latin1_char c = [c].
Proof.
  unfold is_ascii. intros Hc. apply N.ltb_lt in Hc.
  unfold nfkd_latin1_char, latin1_base.
  repeat match goal with
         | |- context [(c =? ?k)%N] =>
             replace (c =? k)%N with false by (symmetry; apply N.eqb_neq; lia)
         | |- context [(?k <=? c)%N] =>
             replace (k <=? c)%N with false by (symmetry; apply N.leb_gt; lia)
         end.
  reflexivity.
Qed.

Lemma nfkd_latin1_ascii t :
  Forall (fun c => is_ascii c = true) t -> nfkd_latin1 t = t.
Proof.
  induction 1 as [| c t Hc _ IH]; [done |].
  unfold nfkd_latin1 in *. simpl. by rewrite IH, nfkd_latin1_char_ascii.
Qed.

Lemma slugify_words_witness :
  slugify nfkd_latin1 oleo_essencial = py "oleo-essencial".
Proof.
  refine (proj1 (proj2 (proj2 (proj2
    (slugify_words nfkd_latin1 oleo_essencial [] (py "Oleo")
       [(py " ", py "Essencial")] [] _ _ _ _ _ _))))).
  - done.
  - reflexivity.
  - split; [done |]. by repeat constructor.
  - repeat constructor; simpl; done.
  - constructor.
  - constructor.
Defined.

(** ** Page-advance ordering *)

Lemma submits_app p k a b :
  submits p k (a ++ b) = (submits p k a + submits p k b)%nat.
Proof. unfold submits. by rewrite List.filter_app, length_app. Qed.

Lemma dones_app p k a b : dones p k (a ++ b) = (dones p k a + dones p k b)%nat.
Proof. unfold dones. by rewrite List.filter_app, length_app. Qed.

Lemma saved_pages_app a b : saved_pages (a ++ b) = saved_pages a ++ saved_pages b.
Proof.
  induction a as [| e a IH]; [done |]. destruct e; simpl; by rewrite ?IH.
Qed.

Lemma submits_neutral p k evs : Forall neutral evs -> submits p k evs = 0%nat.
Proof.
  induction 1 as [| e evs He _ IH]; [done |]. unfold submits in *.
  by destruct e.
Qed.

Lemma dones_neutral p k evs : Forall neutral evs -> dones p k evs = 0%nat.
Proof.
  induction 1 as [| e evs He _ IH]; [done |]. unfold dones in *.
  by destruct e.
Qed.

Lemma saved_pages_neutral evs : Forall neutral evs -> saved_pages evs = [].
Proof. induction 1 as [| e evs He _ IH]; [done |]. by destruct e. Qed.

Lemma ordered_nil : ordered [].
Proof. intros pre e post H. by destruct pre. Qed.

Lemma ordered_prefix a b : ordered (a ++ b) -> ordered a.
Proof.
  intros H pre e post ->. apply (H pre e (post ++ b)).
  by rewrite <- app_assoc.
Qed.

Lemma ordered_snoc tr e : ordered tr -> check tr e -> ordered (tr ++ [e]).
Proof.
  intros Htr He pre e' post Heq.
  induction post as [| x post' _] using rev_ind.
  - apply app_inj_tail in Heq as [-> ->]. done.
  - change (pre ++ e' :: post' ++ [x]) with (pre ++ (e' :: post') ++ [x]) in Heq.
    rewrite app_assoc in Heq. apply app_inj_tail in Heq as [-> _].
    by eapply Htr.
Qed.

Lemma check_neutral pre e : neutral e -> check pre e.
Proof. by destruct e. Qed.

Lemma ordered_neutral tr evs :
  ordered tr -> Forall neutral evs -> ordered (tr ++ evs).
Proof.
  intros Htr HF. revert tr Htr.
  induction HF as [| e evs He _ IH]; intros tr Htr; [by rewrite app_nil_r |].
  change (e :: evs) with ([e] ++ evs). rewrite app_assoc. apply IH.
  by apply ordered_snoc, check_neutral.
Qed.

(** In an ordered history no unit has completed more often than it was
    submitted. *)
Lemma ordered_balance tr p k :
  ordered tr -> (dones p k tr <= submits p k tr)%nat.
Proof.
  induction tr as [| e tr IH] using rev_ind; [done |]. intros H.
  specialize (IH (ordered_prefix _ _ H)).
  specialize (H tr e [] eq_refl).
  rewrite dones_app, submits_app.
  destruct e as [| | | | | p' k' | p' k']; unfold dones, submits in *; simpl;
    try lia.
  destruct ((p' =? p) && (k' =? k)) eqn:E; simpl; [| lia].
  apply andb_true_iff in E as [Ep Ek].
  apply Z.eqb_eq in Ep, Ek. subst. simpl in H. unfold dones, submits in H.
  lia.
Qed.

(** The two halves of the page-advance property, for any ordered
    history. *)
Lemma ordered_save_during tr pre snap post p k :
  ordered tr -> tr = pre ++ EvSave snap :: post ->
  (dones p k pre < submits p k pre)%nat -> last_page snap = p.
Proof. intros H Heq Hpend. exact (H pre (EvSave snap) post Heq p k Hpend). Qed.

Lemma ordered_save_after tr pre snap post p k :
  ordered tr -> tr = pre ++ EvSave snap :: post ->
  In (EvSubmit p k) tr -> last_page snap = p + 1 ->
  dones p k pre = submits p k tr /\ ~ In (EvSubmit p k) post.
Proof.
  intros H Heq Hin Hlp.
  assert (Hpost : ~ In (EvSubmit p k) post).
  { intros Hp. apply in_split in Hp as (post1 & post2 & ->).
    assert (Hc := H (pre ++ EvSave snap :: post1) (EvSubmit p k) post2).
    rewrite <- app_assoc in Hc. specialize (Hc Heq). simpl in Hc.
    rewrite saved_pages_app in Hc. apply Forall_app in Hc as [_ Hc].
    simpl in Hc. inversion Hc; subst. lia. }
  split; [| done].
  assert (Hpost0 : submits p k post = 0%nat).
  { unfold submits. destruct (List.filter _ post) as [| e l] eqn:E; [done |].
    assert (He : In e (List.filter (is_submit p k) post)) by (rewrite E; by left).
    apply filter_In in He as [He1 He2].
    destruct e as [| | | | | p' k' |]; try done. simpl in He2.
    apply andb_true_iff in He2 as [Ep Ek]. apply Z.eqb_eq in Ep, Ek. by subst. }
  rewrite Heq, submits_app. change (EvSave snap :: post) with ([EvSave snap] ++ post).
  rewrite submits_app, Hpost0. unfold submits at 2. simpl.
  rewrite Heq in H.
  assert (Hle := ordered_balance pre p k (ordered_prefix _ _ H)).
  destruct (Nat.lt_ge_cases (dones p k pre) (submits p k pre)) as [Hlt | Hge];
    [| lia].
  pose proof (H pre (EvSave snap) post eq_refl p k Hlt) as Hp. lia.
Qed.

(** *** The runner keeps its history ordered *)

Global Instance unit_step_preorder : PreOrder unit_step.
Proof.
  split.
  - intros s. by split.
  - intros s1 s2 s3 (G1 & L1 & C1) (G2 & L2 & C2).
    split; [by etrans |]. by rewrite L2, C2.
Qed.

Lemma io_unit_step s s' : io io_event s s' -> unit_step s s'.
Proof.
  intros (G & D & _ & C). split; [| by rewrite D].
  eapply grows_weaken; [| exact G]. by intros [].
Qed.

Lemma unit_step_inv s s' :
  unit_step s s' -> run_inv s ->
  run_inv s' /\
  (forall p k, submits p k (trace s') = submits p k (trace s)) /\
  (forall p k, dones p k (trace s') = dones p k (trace s)).
Proof.
  intros ((evs & Ht & HF) & Hl & _) (Ho & Hp & Hs).
  assert (Hsub : forall p k, submits p k (trace s') = submits p k (trace s)).
  { intros p k. rewrite Ht, submits_app, (submits_neutral _ _ _ HF). lia. }
  assert (Hdon : forall p k, dones p k (trace s') = dones p k (trace s)).
  { intros p k. rewrite Ht, dones_app, (dones_neutral _ _ _ HF). lia. }
  split; [| done]. split; [| split].
  - rewrite Ht. by apply ordered_neutral.
  - intros p k. rewrite Hsub, Hdon, Hl. apply Hp.
  - by rewrite Ht, saved_pages_app, (saved_pages_neutral _ HF), app_nil_r, Hl.
Qed.

Lemma save_inv s :
  run_inv s ->
  run_inv (save s).2 /\ (save s).1 = Ok tt /\
  data (save s).2 = data s /\
  processed_count (save s).2 = processed_count s /\
  (forall p k, submits p k (trace (save s).2) = submits p k (trace s)) /\
  (forall p k, dones p k (trace (save s).2) = dones p k (trace s)).
Proof.
  intros (Ho & Hp & Hs). unfold save, bind, get_data, emit, set_file. simpl.
  assert (Hsub : forall p k,
             submits p k (trace s ++ [EvSave (data s)]) = submits p k (trace s)).
  { intros p k. rewrite submits_app. unfold submits at 2. simpl. lia. }
  assert (Hdon : forall p k,
             dones p k (trace s ++ [EvSave (data s)]) = dones p k (trace s)).
  { intros p k. rewrite dones_app. unfold dones at 2. simpl. lia. }
  repeat split; try done.
  - apply ordered_snoc; [done |]. simpl. intros p k Hpk. symmetry.
    exact (Hp p k Hpk).
  - simpl. intros p k. rewrite Hsub, Hdon. apply Hp.
  - simpl. rewrite saved_pages_app. apply Forall_app. split; [done |].
    simpl. constructor; [lia | constructor].
Qed.

Lemma log_inv m l s :
  run_inv s ->
  run_inv (log_message m l s).2 /\
  data (log_message m l s).2 = data s /\
  processed_count (log_message m l s).2 = processed_count s /\
  (forall p k, submits p k (trace (log_message m l s).2) = submits p k (trace s)) /\
  (forall p k, dones p k (trace (log_message m l s).2) = dones p k (trace s)).
Proof.
  intros Hinv.
  assert (Hu : unit_step s (log_message m l s).2).
  { split; [| done]. exists [EvLog l m]. split; [done |]. by repeat constructor. }
  destruct (unit_step_inv _ _ Hu Hinv) as (? & ? & ?). done.
Qed.

Lemma unit_emit e : neutral e -> within unit_step (emit e).
Proof.
  intros He s. split; [| done]. exists [e]. split; [done |]. by constructor.
Qed.

Lemma mark_processed_unit_step sku_id : within unit_step (mark_processed sku_id).
Proof.
  intros s. unfold mark_processed, bind, emit, get_data, set_data, ret. simpl.
  destruct (is_processed_in sku_id (data s)); simpl;
    (split; [| done]); exists [EvMark sku_id]; split; try done;
    by repeat constructor.
Qed.

Section Runner.

Variable W : world.
Variable nfkd : pystr -> pystr.

Lemma process_single_sku_unit_step fuel sku_id :
  within unit_step (process_single_sku W nfkd fuel sku_id).
Proof.
  unfold process_single_sku. within_bind.
  { unfold is_processed. within_bind; [within_leaf |]. intros d. within_leaf. }
  intros [|].
  { within_bind; [by apply unit_emit | intros _; within_leaf]. }
  within_bind.
  { eapply within_weaken; [apply io_unit_step | apply get_sku_details_io]. }
  intros [product_name ref_id]. destruct (truthy product_name).
  - within_bind; [by apply unit_emit |]. intros _.
    within_bind.
    { eapply within_weaken; [apply io_unit_step | apply process_sku_images_io]. }
    intros success. within_bind; [| intros _; within_leaf].
    destruct success; [apply mark_processed_unit_step | within_leaf].
  - within_bind; [by apply unit_emit | intros _; within_leaf].
Qed.

(** One future: the unit completes, or the model runs out of fuel. *)
Lemma worker_spec fuel page k s pending :
  run_inv s -> last_page (data s) = page ->
  accounts page (fun k' => pending k' + if decide (k' = k) then 1 else 0)%nat s ->
  let out := worker W nfkd fuel page k s in
  run_inv out.2 /\ last_page (data out.2) = page /\
  processed_count out.2 = processed_count s /\
  (out.1 = Ok tt /\ accounts page pending out.2 \/ out.1 = OutOfFuel).
Proof.
  intros Hinv Hlp Hacc. unfold worker.
  pose proof (process_single_sku_unit_step fuel k s) as Hu.
  destruct (unit_step_inv _ _ Hu Hinv) as (Hinv1 & Hsub & Hdon).
  destruct Hu as (_ & Hl1 & Hc1).
  destruct (process_single_sku W nfkd fuel k s) as [r s1].
  simpl in Hinv1, Hsub, Hdon, Hl1, Hc1.
  assert (Hdone :
    run_inv (emit (EvDone page k) s1).2 /\
    last_page (data (emit (EvDone page k) s1).2) = page /\
    processed_count (emit (EvDone page k) s1).2 = processed_count s /\
    accounts page pending (emit (EvDone page k) s1).2).
  { simpl. destruct Hinv1 as (Ho & Hp & Hs).
    assert (Hpend : (dones page k (trace s1) < submits page k (trace s1))%nat).
    { rewrite Hsub, Hdon, (Hacc page k). rewrite decide_True by done.
      rewrite decide_True by done. lia. }
    assert (Hd' : forall p k',
               dones p k' (trace s1 ++ [EvDone page k]) =
               (dones p k' (trace s1) +
                if decide (p = page /\ k' = k) then 1 else 0)%nat).
    { intros p k'. rewrite dones_app. unfold dones at 2. simpl.
      destruct (Z.eqb_spec page p), (Z.eqb_spec k k'); simpl;
        destruct (decide _) as [[? ?] | Hn]; try done; try lia;
        destruct Hn; by subst. }
    assert (Hs' : forall p k',
               submits p k' (trace s1 ++ [EvDone page k]) =
               submits p k' (trace s1)).
    { intros p k'. rewrite submits_app. unfold submits at 2. simpl. lia. }
    repeat split; simpl.
    - by apply ordered_snoc.
    - intros p k'. rewrite Hs', Hd'. intros H. apply (Hp p k'). lia.
    - rewrite saved_pages_app. simpl. by rewrite app_nil_r.
    - by rewrite Hl1.
    - done.
    - intros p k'. simpl. rewrite Hs', Hd', Hsub, Hdon, (Hacc p k').
      destruct (decide (p = page)) as [-> |];
        destruct (decide (k' = k)) as [-> |];
        destruct (decide (_ /\ _)) as [[? ?] | Hn]; try done; try lia. }
  destruct r as [b | e |]; simpl.
  - destruct Hdone as (H1 & H2 & H3 & H4).
    split; [exact H1 |]. split; [exact H2 |]. split; [exact H3 |].
    left. split; [done | exact H4].
  - destruct Hdone as (H1 & H2 & H3 & H4).
    split; [exact H1 |]. split; [exact H2 |]. split; [exact H3 |].
    left. split; [done | exact H4].
  - split; [exact Hinv1 |]. split; [by rewrite Hl1 |]. split; [done |].
    by right.
Qed.

End Runner.

Lemma extract_some i pending k rest :
  extract i pending = Some (k, rest) ->
  length pending = S (length rest) /\
  forall k', count_occ Z.eq_dec pending k' =
             (count_occ Z.eq_dec rest k' + if decide (k' = k) then 1 else 0)%nat.
Proof.
  unfold extract. set (j := (i mod length pending)%nat).
  destruct (pending !! j) as [x |] eqn:E; [| done]. intros [= -> <-].
  pose proof (take_drop_middle _ _ _ E) as Hmid.
  split.
  - rewrite <- Hmid at 1. rewrite !length_app. simpl. lia.
  - intros k'. rewrite <- Hmid at 1. rewrite !count_occ_app. simpl.
    destruct (Z.eq_dec k k'), (decide (k' = k)); subst; try done; lia.
Qed.

Lemma extract_none i pending : extract i pending = None -> pending = [].
Proof.
  unfold extract. destruct pending as [| x l]; [done |].
  destruct (_ !! _) eqn:E; [done |]. intros _.
  apply lookup_ge_None in E.
  pose proof (Nat.mod_upper_bound i (length (x :: l))). simpl in *. lia.
Qed.

(** The effect of one dispatch and of one completion on the counts. *)
Lemma submits_snoc_submit p k tr page k0 :
  submits p k (tr ++ [EvSubmit page k0]) =
  (submits p k tr + if decide (p = page /\ k = k0) then 1 else 0)%nat.
Proof.
  rewrite submits_app. unfold submits at 2. simpl.
  destruct (Z.eqb_spec page p), (Z.eqb_spec k0 k); simpl;
    destruct (decide _) as [[? ?] | Hn]; try done; try lia;
    destruct Hn; by subst.
Qed.

Lemma dones_snoc_submit p k tr page k0 :
  dones p k (tr ++ [EvSubmit page k0]) = dones p k tr.
Proof. rewrite dones_app. unfold dones at 2. simpl. lia. Qed.

Lemma run_inv_intro s :
  ordered (trace s) ->
  (forall p k, (dones p k (trace s) < submits p k (trace s))%nat ->
               p = last_page (data s)) ->
  Forall (fun v => v <= last_page (data s)) (saved_pages (trace s)) ->
  run_inv s.
Proof. intros. by split. Qed.

Section RunnerLoops.

Variable W : world.
Variable nfkd : pystr -> pystr.

Lemma submit_all_spec page sku_ids : forall s pending,
  run_inv s -> last_page (data s) = page -> accounts page pending s ->
  let out := submit_all page sku_ids s in
  out.1 = Ok tt /\ run_inv out.2 /\ data out.2 = data s /\
  processed_count out.2 = processed_count s /\
  accounts page (fun k => pending k + count_occ Z.eq_dec sku_ids k)%nat out.2.
Proof.
  induction sku_ids as [| k rest IH]; intros s pending Hinv Hlp Hacc.
  - simpl. split; [done |]. split; [done |]. split; [done |].
    split; [done |]. intros p k. rewrite (Hacc p k).
    destruct (decide _); lia.
  - set (s1 := {| trace := trace s ++ [EvSubmit page k]; data := data s;
                  file := file s; processed_count := processed_count s |}).
    change (submit_all page (k :: rest) s) with (submit_all page rest s1).
    destruct Hinv as (Ho & Hp & Hs).
    assert (Hinv1 : run_inv s1).
    { apply run_inv_intro; simpl.
      - apply ordered_snoc; [done |]. simpl. by rewrite <- Hlp.
      - intros p k'. rewrite submits_snoc_submit, dones_snoc_submit.
        destruct (decide _) as [[-> ->] | _]; [done |].
        intros H. apply (Hp p k'). lia.
      - rewrite saved_pages_app. simpl. by rewrite app_nil_r. }
    assert (Hacc1 : accounts page
                      (fun k' => pending k' + if Z.eq_dec k k' then 1 else 0)%nat s1).
    { intros p k'. simpl.
      rewrite submits_snoc_submit, dones_snoc_submit, (Hacc p k').
      destruct (decide (p = page)) as [-> |]; destruct (Z.eq_dec k k') as [-> |];
        destruct (decide (_ /\ _)) as [[? ?] | Hn]; try done; try lia. }
    destruct (IH s1 _ Hinv1 Hlp Hacc1) as (Hr & Hinv2 & Hd2 & Hc2 & Hacc2).
    destruct (submit_all page rest s1) as [r2 s2].
    simpl in Hr, Hinv2, Hd2, Hc2, Hacc2 |- *.
    split; [exact Hr |]. split; [exact Hinv2 |]. split; [exact Hd2 |].
    split; [exact Hc2 |].
    intros p k'. rewrite (Hacc2 p k').
    destruct (decide _); [| done]. destruct (Z.eq_dec k k'); lia.
Qed.

(** Leaving the pool early: every pending unit still completes. *)
Lemma shutdown_spec fuel page n : forall pending s r s',
  run_inv s -> last_page (data s) = page ->
  accounts page (count_occ Z.eq_dec pending) s ->
  shutdown W nfkd fuel page n pending s = (r, s') ->
  run_inv s' /\ last_page (data s') = page /\ (r = Ok tt \/ r = OutOfFuel).
Proof.
  induction n as [| n IH]; intros pending s r s' Hinv Hlp Hacc Hrun.
  { injection Hrun as <- <-. split; [done |]. split; [done |]. by left. }
  cbn [shutdown] in Hrun. rewrite bind_unfold in Hrun.
  unfold get_trace at 1 in Hrun. cbv beta iota in Hrun.
  destruct (extract _ pending) as [[k rest] |] eqn:E.
  2: { injection Hrun as <- <-. split; [done |]. split; [done |]. by left. }
  apply extract_some in E as [_ Hcount].
  assert (Hacc' : accounts page
            (fun k' => count_occ Z.eq_dec rest k' + if decide (k' = k) then 1 else 0)%nat s).
  { intros p k'. rewrite (Hacc p k'). destruct (decide _); [| done].
    by rewrite Hcount. }
  rewrite bind_unfold in Hrun.
  destruct (worker_spec W nfkd fuel page k s _ Hinv Hlp Hacc')
    as (Hinv1 & Hlp1 & Hc1 & Hres).
  destruct (worker W nfkd fuel page k s) as [r1 s1].
  simpl in Hinv1, Hlp1, Hc1, Hres.
  destruct Hres as [[-> Hacc1] | ->].
  - exact (IH rest s1 r s' Hinv1 Hlp1 Hacc1 Hrun).
  - injection Hrun as <- <-. split; [done |]. split; [done |]. by right.
Qed.

(** The completion loop: when it ends normally, nothing is pending. *)
Lemma as_completed_loop_spec fuel page n : forall pending s r s',
  run_inv s -> last_page (data s) = page ->
  accounts page (count_occ Z.eq_dec pending) s ->
  n = length pending ->
  as_completed_loop W nfkd fuel page n pending s = (r, s') ->
  run_inv s' /\ last_page (data s') = page /\ (r = Ok tt -> settled s').
Proof.
  induction n as [| n IH]; intros pending s r s' Hinv Hlp Hacc Hn Hrun.
  { injection Hrun as <- <-. split; [done |]. split; [done |].
    intros _ p k. rewrite (Hacc p k).
    destruct pending; [| done]. simpl. destruct (decide _); lia. }
  cbn [as_completed_loop] in Hrun. rewrite bind_unfold in Hrun.
  unfold get_trace at 1 in Hrun. cbv beta iota in Hrun.
  destruct (extract _ pending) as [[k rest] |] eqn:E.
  2: { apply extract_none in E. by subst. }
  apply extract_some in E as [Hlen Hcount].
  assert (Hacc' : accounts page
            (fun k' => count_occ Z.eq_dec rest k' + if decide (k' = k) then 1 else 0)%nat s).
  { intros p k'. rewrite (Hacc p k'). destruct (decide _); [| done].
    by rewrite Hcount. }
  rewrite bind_unfold in Hrun.
  destruct (worker_spec W nfkd fuel page k s _ Hinv Hlp Hacc')
    as (Hinv1 & Hlp1 & Hc1 & Hres).
  destruct (worker W nfkd fuel page k s) as [r1 s1].
  simpl in Hinv1, Hlp1, Hc1, Hres.
  destruct Hres as [[-> Hacc1] | ->].
  2: { injection Hrun as <- <-. by (split; [done |]; split; [done |]). }
  rewrite bind_unfold in Hrun.
  unfold get_trace at 1 in Hrun. cbv beta iota in Hrun.
  destruct (sigint W (trace s1)).
  { rewrite bind_unfold in Hrun.
    destruct (shutdown W nfkd fuel page n rest s1) as [r2 s2] eqn:E2.
    destruct (shutdown_spec fuel page n rest s1 r2 s2 Hinv1 Hlp1 Hacc1 E2)
      as (Hinv2 & Hlp2 & Hres).
    destruct Hres as [-> | ->]; injection Hrun as <- <-;
      by (split; [done |]; split; [done |]). }
  rewrite bind_unfold in Hrun. unfold get_count at 1 in Hrun.
  cbv beta iota in Hrun.
  rewrite bind_unfold in Hrun. unfold set_count at 1 in Hrun.
  cbv beta iota in Hrun.
  set (s2 := {| trace := trace s1; data := data s1; file := file s1;
                processed_count := S (processed_count s1) |}) in Hrun.
  assert (Hinv2 : run_inv s2) by exact Hinv1.
  assert (Hacc2 : accounts page (count_occ Z.eq_dec rest) s2) by exact Hacc1.
  rewrite bind_unfold in Hrun.
  destruct (_ =? 0)%nat.
  - rewrite bind_unfold in Hrun.
    destruct (save_inv s2 Hinv2) as (Hinv3 & Hr3 & Hd3 & Hc3 & Hs3 & Hdn3).
    destruct (save s2) as [r3 s3]. simpl in Hinv3, Hr3, Hd3, Hs3, Hdn3.
    subst r3.
    destruct (log_inv (MsgCheckpointSaved (S (processed_count s1))) INFO s3 Hinv3)
      as (Hinv4 & Hd4 & Hc4 & Hs4 & Hdn4).
    destruct (log_message _ INFO s3) as [r4 s4] eqn:E4.
    assert (r4 = Ok tt) as -> by (by injection E4 as <- _).
    simpl in Hinv4, Hd4, Hs4, Hdn4. cbv beta iota in Hrun.
    apply (IH rest s4 r s'); [exact Hinv4 | by rewrite Hd4, Hd3 | | lia | exact Hrun].
    intros p k'. rewrite Hs4, Hdn4, Hs3, Hdn3. apply Hacc2.
  - cbv beta iota delta [ret] in Hrun.
    apply (IH rest s2 r s'); [exact Hinv2 | exact Hlp1 | exact Hacc2 | lia | exact Hrun].
Qed.

End RunnerLoops.

Section RunnerPages.

Variable W : world.
Variable nfkd : pystr -> pystr.

Lemma update_page_inv page s :
  run_inv s -> settled s -> last_page (data s) <= page ->
  run_inv (update_page page s).2 /\ settled (update_page page s).2 /\
  last_page (data (update_page page s).2) = page /\
  (update_page page s).1 = Ok tt.
Proof.
  intros (Ho & Hp & Hs) Hset Hle.
  unfold update_page, bind, get_data, set_data. simpl.
  repeat split; try done.
  - simpl. intros p k H. rewrite (Hset p k) in H. lia.
  - simpl. eapply Forall_impl; [exact Hs |]. simpl. intros v Hv. lia.
Qed.

(** The page loop keeps the invariant, however it ends. *)
Lemma page_loop_inv fuel : forall page s r s',
  run_inv s -> settled s -> last_page (data s) = page ->
  page_loop W nfkd fuel page s = (r, s') ->
  run_inv s'.
Proof.
  induction fuel as [| fuel IH]; intros page s r s' Hinv Hset Hlp Hrun.
  { by injection Hrun as _ <-. }
  cbn [page_loop] in Hrun. rewrite bind_unfold in Hrun.
  unfold get_trace at 1 in Hrun. cbv beta iota in Hrun.
  destruct (sigint W (trace s)); [by injection Hrun as _ <- |].
  rewrite bind_unfold in Hrun.
  pose proof (safe_request_io W fuel GET (UrlSkuIds page page_size) None s)
    as Hio.
  assert (Hu : unit_step s (safe_request W fuel GET
                              (UrlSkuIds page page_size) None s).2).
  { apply io_unit_step. eapply io_weaken; [| exact Hio].
    apply request_layer_io_event. }
  destruct (unit_step_inv _ _ Hu Hinv) as (Hinv1 & Hsub1 & Hdon1).
  destruct Hu as (_ & Hlp1 & _). clear Hio.
  destruct (safe_request W fuel GET _ None s) as [[[resp |] | e |] s1];
    simpl in Hinv1, Hsub1, Hdon1, Hlp1.
  2: { rewrite log_run in Hrun. injection Hrun as _ <-. by apply log_inv. }
  2,3: by injection Hrun as _ <-.
  assert (Hset1 : settled s1).
  { intros p k. by rewrite Hsub1, Hdon1. }
  destruct (negb (response_ok resp)).
  { rewrite log_run in Hrun. injection Hrun as _ <-. by apply log_inv. }
  destruct (status_code resp =? 200).
  2: { destruct (status_code resp =? 401);
         rewrite log_run in Hrun; injection Hrun as _ <-; by apply log_inv. }
  rewrite bind_unfold in Hrun. unfold lift at 1 in Hrun.
  destruct (json_ids resp) as [[| k ids] | e |].
  { rewrite log_run in Hrun. injection Hrun as _ <-. by apply log_inv. }
  2,3: by injection Hrun as _ <-.
  rewrite bind_unfold, log_run in Hrun.
  destruct (log_inv (MsgProcessingPage page (length (k :: ids))) INFO s1 Hinv1)
    as (Hinv2 & Hd2 & _ & Hs2 & Hdn2).
  set (s2 := (log_message (MsgProcessingPage page (length (k :: ids))) INFO s1).2)
    in *.
  clearbody s2.
  assert (Hacc2 : accounts page (fun _ => 0%nat) s2).
  { intros p k'. rewrite Hs2, Hdn2, <- (Hset1 p k'). destruct (decide _); lia. }
  assert (Hlp2 : last_page (data s2) = page) by (by rewrite Hd2, Hlp1).
  rewrite bind_unfold in Hrun.
  destruct (submit_all_spec page (k :: ids) s2 _ Hinv2 Hlp2 Hacc2)
    as (Hr3 & Hinv3 & Hd3 & _ & Hacc3).
  destruct (submit_all page (k :: ids) s2) as [r3 s3].
  simpl in Hr3, Hinv3, Hd3, Hacc3. subst r3.
  assert (Hlp3 : last_page (data s3) = page) by (by rewrite Hd3).
  rewrite bind_unfold in Hrun.
  destruct (as_completed_loop W nfkd fuel page (length (k :: ids)) (k :: ids) s3)
    as [r4 s4] eqn:E4.
  destruct (as_completed_loop_spec W nfkd fuel page (length (k :: ids))
              (k :: ids) s3 r4 s4 Hinv3 Hlp3 Hacc3 eq_refl E4)
    as (Hinv4 & Hlp4 & Hset4).
  destruct r4 as [[] | e |]; [| by injection Hrun as _ <- ..].
  specialize (Hset4 eq_refl).
  rewrite bind_unfold in Hrun.
  destruct (update_page_inv (page + 1) s4 Hinv4 Hset4 ltac:(lia))
    as (Hinv5 & Hset5 & Hlp5 & Hr5).
  destruct (update_page (page + 1) s4) as [r5 s5].
  simpl in Hinv5, Hset5, Hlp5, Hr5. subst r5.
  rewrite bind_unfold in Hrun.
  destruct (save_inv s5 Hinv5) as (Hinv6 & Hr6 & Hd6 & _ & Hs6 & Hdn6).
  destruct (save s5) as [r6 s6]. simpl in Hinv6, Hr6, Hd6, Hs6, Hdn6.
  subst r6.
  apply (IH (page + 1) s6 r s'); [done | | by rewrite Hd6 | exact Hrun].
  intros p k'. by rewrite Hs6, Hdn6.
Qed.

Lemma load_total s : exists d, load s = (Ok d, s).
Proof. unfold load, try_except, lift. destruct (file s); simpl; eauto. Qed.

Lemma run_inv_empty s : trace s = [] -> run_inv s /\ settled s.
Proof.
  intros Ht. split; [apply run_inv_intro |]; rewrite ?Ht.
  - apply ordered_nil.
  - intros p k. unfold dones, submits. simpl. lia.
  - constructor.
  - intros p k. by rewrite Ht.
Qed.

(** [clear] at the start of a run, and the log line after it. *)
Lemma start_fresh_spec s r s' :
  trace s = [] ->
  bind clear (fun _ => log_message MsgStartFresh INFO) s = (r, s') ->
  r = Ok tt /\ run_inv s' /\ settled s'.
Proof.
  intros Ht Hrun. unfold clear in Hrun.
  rewrite !bind_unfold in Hrun. unfold set_data at 1 in Hrun.
  cbv beta iota in Hrun.
  set (s1 := {| trace := trace s; data := fresh_checkpoint; file := file s;
                processed_count := processed_count s |}) in Hrun.
  destruct (run_inv_empty s1 Ht) as [Hinv1 Hset1].
  destruct (save_inv s1 Hinv1) as (Hi & Hr & _ & _ & Hs & Hdn).
  destruct (save s1) as [r1 s2]. simpl in Hi, Hr, Hs, Hdn. subst r1.
  rewrite log_run in Hrun. injection Hrun as <- <-.
  destruct (log_inv MsgStartFresh INFO s2 Hi) as (Hi' & _ & _ & Hs' & Hdn').
  split; [done |]. split; [done |].
  intros p k. rewrite Hs', Hdn', Hs, Hdn. apply Hset1.
Qed.

(** The handlers of the runner: a log line, then a save. *)
Lemma handler_spec m l s r s' :
  run_inv s ->
  bind (log_message m l) (fun _ => save) s = (r, s') ->
  r = Ok tt /\ run_inv s'.
Proof.
  intros Hinv Hrun. rewrite bind_unfold, log_run in Hrun.
  destruct (log_inv m l s Hinv) as (Hi & _).
  destruct (save_inv _ Hi) as (Hi' & Hr' & _).
  destruct (save (log_message m l s).2) as [r1 s1].
  simpl in Hi', Hr'. subst r1. by injection Hrun as <- <-.
Qed.

Lemma settled_quiet s s' :
  (forall p k, submits p k (trace s') = submits p k (trace s)) ->
  (forall p k, dones p k (trace s') = dones p k (trace s)) ->
  settled s -> settled s'.
Proof. intros Hs Hd Hset p k. by rewrite Hs, Hd. Qed.

Lemma settled_log m l s : run_inv s -> settled s -> settled (log_message m l s).2.
Proof.
  intros Hinv. destruct (log_inv m l s Hinv) as (_ & _ & _ & Hs & Hd).
  by apply settled_quiet.
Qed.

Lemma settled_save s : run_inv s -> settled s -> settled (save s).2.
Proof.
  intros Hinv. destruct (save_inv s Hinv) as (_ & _ & _ & _ & Hs & Hd).
  by apply settled_quiet.
Qed.

Lemma start_state_inv resume f :
  run_inv (start_state resume f) /\ settled (start_state resume f).
Proof.
  set (s0 := {| trace := []; data := data (start_state resume f);
                file := f; processed_count := 0 |}).
  destruct (run_inv_empty s0 eq_refl) as [Hinv0 Hset0].
  assert (H1 : exists s1, run_inv s1 /\ settled s1 /\
                 unit_step s1 (start_state resume f)).
  { destruct resume.
    - exists s0. split; [done |]. split; [done |]. split; [| done].
      eexists. split; [reflexivity |]. by repeat constructor.
    - exists (save s0).2. destruct (save_inv s0 Hinv0) as (Hi & _).
      split; [exact Hi |]. split; [by apply settled_save |].
      split; [| done]. eexists. split; [reflexivity |]. by repeat constructor. }
  destruct H1 as (s1 & Hinv1 & Hset1 & Hu).
  destruct (unit_step_inv _ _ Hu Hinv1) as (Hinv & Hs & Hd).
  split; [exact Hinv | by apply (settled_quiet s1)].
Qed.

(** A run that is to resume from a file without a cursor ends where it
    starts, with the exception of the lookup. *)
Lemma run_bulk_update_cursorless fuel resume f e :
  cursor_error resume f = Some e ->
  run_bulk_update W nfkd fuel resume (initial_state f)
  = (Raise e, initial_state f).
Proof.
  destruct f as [| | | c | object]; try done. destruct resume; [| done].
  intros [= <-]. by destruct object.
Qed.

(** Any other run is its page loop between [start_state] and
    [end_state]. *)
Lemma run_bulk_update_anatomy fuel resume f :
  cursor_error resume f = None ->
  run_bulk_update W nfkd fuel resume (initial_state f) =
  end_state (page_loop W nfkd fuel (last_page (data (start_state resume f)))
               (start_state resume f)).1
            (page_loop W nfkd fuel (last_page (data (start_state resume f)))
               (start_state resume f)).2.
Proof.
  intros Hc.
  unfold run_bulk_update, start_state, end_state, clear, save, load,
    init_data, read_cursor, loaded,
    log_message, bind, try_except, lift, emit, ret, get_data, set_data,
    set_file, set_count, get_count, save_state, push, handler_line,
    initial_state.
  destruct resume; destruct f; try discriminate Hc; simpl;
    match goal with
    | |- context [page_loop W nfkd fuel ?p ?s] =>
        destruct (page_loop W nfkd fuel p s) as [[[] | e |] s6]
    end; try reflexivity; destruct e; reflexivity.
Qed.

(** Every run of the script keeps the invariant to its end. *)
Lemma run_bulk_update_inv fuel resume f r s' :
  run_bulk_update W nfkd fuel resume (initial_state f) = (r, s') ->
  run_inv s'.
Proof.
  intros Hrun. destruct (cursor_error resume f) as [e |] eqn:Hc.
  { rewrite (run_bulk_update_cursorless fuel resume f e Hc) in Hrun.
    injection Hrun as _ <-. by apply run_inv_empty. }
  rewrite (run_bulk_update_anatomy fuel resume f Hc) in Hrun.
  destruct (page_loop W nfkd fuel _ (start_state resume f)) as [r6 s6] eqn:E6.
  destruct (start_state_inv resume f) as [Hinv0 Hset0].
  pose proof (page_loop_inv fuel _ _ r6 s6 Hinv0 Hset0 eq_refl E6) as Hinv6.
  simpl fst in Hrun. simpl snd in Hrun.
  destruct r6 as [[] | e |]; simpl in Hrun; injection Hrun as _ <-.
  - by apply (log_inv (MsgCompleted (processed_count s6)) INFO s6).
  - destruct (handler_spec
                (match e with
                 | KeyboardInterrupt => MsgInterrupted
                 | _ => MsgFatal e
                 end)
                (match e with
                 | KeyboardInterrupt => WARNING
                 | _ => CRITICAL
                 end) s6 _ _ Hinv6 eq_refl) as [_ Hinv7].
    apply (log_inv (MsgCompleted (processed_count s6)) INFO) in Hinv7
      as [Hinv8 _].
    by destruct e.
  - exact Hinv6.
Qed.

Lemma run_bulk_update_ordered fuel resume f :
  ordered (trace (run_bulk_update W nfkd fuel resume (initial_state f)).2).
Proof.
  destruct (run_bulk_update W nfkd fuel resume (initial_state f))
    as [r s'] eqn:E.
  by destruct (run_bulk_update_inv fuel resume f r s' E) as (Ho & _).
Qed.

End RunnerPages.

(** C3. In every run, a checkpoint save that persists the cursor [p + 1]
    comes after every unit submitted for page [p] has completed (and
    none is submitted afterwards), and a save made while a unit of page
    [p] is still pending persists the cursor [p]. *)
Theorem page_advance_ordering W nfkd fuel resume f pre snap post :
  trace (run_bulk_update W nfkd fuel resume (initial_state f)).2
    = pre ++ EvSave snap :: post ->
  (forall p k,
     In (EvSubmit p k) (pre ++ EvSave snap :: post) ->
     last_page snap = p + 1 ->
     dones p k pre = submits p k (pre ++ EvSave snap :: post) /\
     ~ In (EvSubmit p k) post) /\
  (forall p k,
     (dones p k pre < submits p k pre)%nat -> last_page snap = p).
Proof.
  intros Heq.
  pose proof (run_bulk_update_ordered W nfkd fuel resume f) as Ho.
  rewrite Heq in Ho. split.
  - intros p k Hin Hlp. by eapply ordered_save_after.
  - intros p k Hpend. by eapply ordered_save_during.
Qed.

Lemma page_advance_ordering_witness :
  let tr := trace (run_bulk_update world_update_401 nfkd_latin1 10 true
                     (initial_state NoFile)).2 in
  let snap := {| processed_skus := []; last_page := 2 |} in
  dones 1 42 (take 11 tr)
  = submits 1 42 (take 11 tr ++ EvSave snap :: drop 12 tr).
Proof.
  intros tr snap.
  assert (Hsplit : trace (run_bulk_update world_update_401 nfkd_latin1 10 true
                            (initial_state NoFile)).2
                   = take 11 tr ++ EvSave snap :: drop 12 tr).
  { vm_compute. reflexivity. }
  assert (Hin : In (EvSubmit 1 42) (take 11 tr ++ EvSave snap :: drop 12 tr)).
  { rewrite <- Hsplit. vm_compute. tauto. }
  exact (proj1 (proj1 (page_advance_ordering world_update_401 nfkd_latin1 10
                         true NoFile (take 11 tr) snap (drop 12 tr) Hsplit)
                  1 42 Hin eq_refl)).
Defined.

(** ** Authentication failure *)




Lemma no_raise_set_data c : no_raise (set_data c).
Proof. by intros s e. Qed.









(** * Further properties of the script *)

(** ** [slugify] *)

Lemma slug_char_ascii c : slug_char c = true -> is_ascii c = true.
Proof. intros H. chars. Qed.

Lemma slug_char_not_upper c : slug_char c = true -> is_upper c = false.
Proof. intros H. chars. Qed.

Lemma slug_char_not_space c : slug_char c = true -> is_space c = false.
Proof. intros H. destruct (is_space c) eqn:E; [chars | done]. Qed.

Lemma lstrip_no_space t :
  Forall (fun c => is_space c = false) t -> lstrip t = t.
Proof. destruct 1 as [| c t Hc _]; [done |]. simpl. by rewrite Hc. Qed.

Lemma strip_no_space t :
  Forall (fun c => is_space c = false) t -> strip t = t.
Proof.
  intros HF. unfold strip, rstrip. rewrite (lstrip_no_space t HF).
  rewrite lstrip_no_space; [apply rev_involutive |].
  apply Forall_forall. intros c Hc. rewrite Forall_forall in HF.
  apply HF. apply list_elem_of_In. apply list_elem_of_In in Hc.
  by apply in_rev.
Qed.

Lemma sub_spaces_no_space t :
  Forall (fun c => is_space c = false) t ->
  forall b, sub_spaces_from b t = t.
Proof.
  induction 1 as [| c t Hc _ IH]; intros b; [done |].
  simpl. by rewrite Hc, IH.
Qed.

Lemma lower_no_upper t :
  Forall (fun c => is_upper c = false) t -> lower t = t.
Proof.
  induction 1 as [| c t Hc _ IH]; [done |].
  unfold lower in *. simpl. unfold lower_char at 1. by rewrite Hc, IH.
Qed.

(** X1. A slug is a fixed point of [slugify]: slugifying a slug again
    changes nothing, for any normalisation that fixes ASCII text. *)
Theorem slugify_idempotent nfkd text :
  (forall t, Forall (fun c => is_ascii c = true) t -> nfkd t = t) ->
  slugify nfkd (slugify nfkd text) = slugify nfkd text.
Proof.
  intros Hnfkd. pose proof (slugify_chars nfkd text) as HF.
  destruct (slugify nfkd text) as [| c u] eqn:E; [done |].
  rewrite slugify_nonempty by done.
  rewrite Hnfkd by (eapply Forall_impl; [exact HF | apply slug_char_ascii]).
  unfold encode_ascii_ignore.
  rewrite filter_all by (eapply Forall_impl; [exact HF | apply slug_char_ascii]).
  rewrite lower_no_upper
    by (eapply Forall_impl; [exact HF | apply slug_char_not_upper]).
  rewrite strip_no_space
    by (eapply Forall_impl; [exact HF | apply slug_char_not_space]).
  unfold sub_spaces. rewrite sub_spaces_no_space
    by (eapply Forall_impl; [exact HF | apply slug_char_not_space]).
  unfold drop_non_slug. by apply filter_all.
Qed.

Lemma slugify_idempotent_witness :
  slugify nfkd_latin1 (slugify nfkd_latin1 (py "Vitamina C - 500mg."))
  = slugify nfkd_latin1 (py "Vitamina C - 500mg.").
Proof.
  exact (slugify_idempotent nfkd_latin1 (py "Vitamina C - 500mg.")
           nfkd_latin1_ascii).
Defined.

(** ** The checkpoint store *)

Lemma is_processed_in_app sku_id l k lp :
  is_processed_in sku_id {| processed_skus := l ++ [k]; last_page := lp |}
  = is_processed_in sku_id {| processed_skus := l; last_page := lp |}
    || (sku_id =? k).
Proof.
  unfold is_processed_in. simpl. rewrite existsb_app. simpl.
  by rewrite orb_false_r.
Qed.

(** X2. [mark_processed] makes its unit processed, changes the status of
    no other unit, keeps the list free of duplicates, leaves the page
    cursor alone, and is idempotent: marking again changes nothing. *)
Theorem mark_processed_spec sku_id s :
  let s' := (mark_processed sku_id s).2 in
  is_processed_in sku_id (data s') = true /\
  (forall k, k <> sku_id ->
             is_processed_in k (data s') = is_processed_in k (data s)) /\
  (NoDup (processed_skus (data s)) -> NoDup (processed_skus (data s'))) /\
  last_page (data s') = last_page (data s) /\
  data (mark_processed sku_id s').2 = data s'.
Proof.
  unfold mark_processed, bind, emit, get_data, set_data, ret. simpl.
  destruct (is_processed_in sku_id (data s)) eqn:E; simpl.
  - repeat split; try done. by rewrite E.
  - assert (Hnew : is_processed_in sku_id
                     {| processed_skus := processed_skus (data s) ++ [sku_id];
                        last_page := last_page (data s) |} = true).
    { rewrite is_processed_in_app, Z.eqb_refl. apply orb_true_r. }
    rewrite Hnew. simpl. split; [done |]. split; [| split; [| done]].
    + intros k Hk. rewrite is_processed_in_app.
      destruct (Z.eqb_spec k sku_id); [done |].
      rewrite orb_false_r. by destruct (data s).
    + intros Hnd. apply NoDup_app. split; [done |]. split.
      * intros x Hx Hx'. apply list_elem_of_In in Hx'.
        destruct Hx' as [Heq | []]. subst x.
        assert (is_processed_in sku_id (data s) = true); [| congruence].
        apply is_processed_in_spec. by apply list_elem_of_In.
      * apply NoDup_singleton.
Qed.

(** ** The request layer, continued *)

(** X3. A call of [safe_request] sends no other request than its own:
    every request it issues is the one it was asked for, and it
    changes neither the checkpoint, nor the file, nor the counter. *)
Theorem safe_request_frame W fuel m u json s :
  let s' := (safe_request W fuel m u json s).2 in
  data s' = data s /\ file s' = file s /\
  processed_count s' = processed_count s /\
  exists evs, trace s' = trace s ++ evs /\
              Forall (only_request (Request m u json)) evs.
Proof.
  destruct (safe_request_io W fuel m u json s) as ((evs & Ht & HF) & Hd & Hf & Hc).
  simpl. split; [done |]. split; [done |]. split; [done |].
  exists evs. split; [done |]. eapply Forall_impl; [exact HF |].
  intros [r | | l msg | | | |]; simpl; try done.
Qed.

(** X4. A response returned by [safe_request] is the remote's answer
    to the last request of the call, nothing happened after that
    request, and its status is not 429. *)
Theorem safe_request_result W fuel m u json s r s' :
  safe_request W fuel m u json s = (Ok (Some r), s') ->
  status_code r <> 429 /\
  exists pre,
    trace s' = pre ++ [EvRequest (Request m u json)] /\
    respond W pre (Request m u json) = Answer r /\
    exists evs, pre = trace s ++ evs.
Proof.
  intros H. apply safe_request_some in H as (evs & Ht & Hr & Hs).
  split; [done |]. exists (trace s ++ evs). eauto.
Qed.

Lemma safe_request_result_witness :
  status_code {| status_code := 200; headers := ∅; content := BIds [42] |}
  <> 429.
Proof.
  refine (proj1 (safe_request_result world_catalog 2 GET (UrlSkuIds 1 50) None
                   (initial_state NoFile)
                   {| status_code := 200; headers := ∅; content := BIds [42] |}
                   _ _)).
  vm_compute. reflexivity.
Defined.

(** X5. A call of [safe_request] is a single call of the session. It
    returns the remote's answer when the status of that answer is not
    one on which the session's adapter gives up; otherwise, and when the
    session raises, it logs one error line and returns [None]. It never
    logs a rate-limit wait, never sleeps and never calls itself: no
    answer with status 429 reaches the branch that would handle it. *)
Theorem safe_request_single_attempt W fuel m u json s :
  safe_request W (S fuel) m u json s =
  match respond W (trace s) (Request m u json) with
  | Answer r =>
      if forced (status_code r)
      then (Ok None, push s [EvRequest (Request m u json);
                             EvLog ERROR (MsgUnexpected RetryError)])
      else (Ok (Some r), push s [EvRequest (Request m u json)])
  | Fails f =>
      (Ok None, push s [EvRequest (Request m u json);
                        EvLog ERROR (failure_line m u f)])
  end.
Proof.
  destruct (respond W (trace s) (Request m u json)) as [r | f] eqn:E.
  - destruct (forced (status_code r)) eqn:Hf.
    + exact (safe_request_forced W fuel m u json s r E Hf).
    + exact (safe_request_answer W fuel m u json s r E Hf).
  - simpl. unfold try_except, bind. rewrite session_request_eq, E.
    destruct f; simpl; unfold log_message, emit, ret, push; simpl;
      by rewrite <- app_assoc.
Qed.

(** ** The image update, continued *)

(** X6. [update_image_alt] returns [True] exactly when the response it
    gets has status 200, and [False] for every other status and for no
    response. It never writes the "[AUTH ERROR] Cookie expired" line: a
    401 response is falsy, so the branch that tests for it is never
    taken and a 401 is reported like any other failure. *)
Theorem update_image_alt_verdict W fuel sku_id img new_alt s :
  (update_image_alt W fuel sku_id img new_alt s).1 =
    update_verdict
      (safe_request W fuel PUT (UrlSkuFile sku_id (dict_get img "Id"))
         (Some (payload_of img new_alt)) s).1 /\
  exists evs,
    trace (update_image_alt W fuel sku_id img new_alt s).2 = trace s ++ evs /\
    Forall (fun e => ~ is_auth_line e) evs.
Proof.
  unfold update_image_alt. rewrite bind_unfold.
  destruct (safe_request_grows W fuel PUT (UrlSkuFile sku_id (dict_get img "Id"))
              (Some (payload_of img new_alt)) s) as (evs & Ht & HF).
  assert (HF' : Forall (fun e => ~ is_auth_line e) evs).
  { eapply Forall_impl; [exact HF |].
    intros [r | | l m | | | |]; simpl; try tauto. destruct m; simpl; tauto. }
  destruct (safe_request W fuel PUT _ _ s) as [[[resp |] | e |] s1];
    simpl in Ht; simpl.
  - unfold response_ok, status_is.
    destruct (Z.eqb_spec (status_code resp) 200) as [E200 | N200].
    + rewrite E200. simpl. split; [done |].
      exists (evs ++ [EvLog INFO (MsgImageUpdated new_alt)]).
      rewrite Ht, <- app_assoc. split; [done |].
      apply Forall_app. split; [done |]. constructor; [simpl; tauto | constructor].
    + rewrite andb_false_r. simpl.
      destruct (Z.eqb_spec (status_code resp) 401) as [E401 | N401].
      * rewrite E401. simpl. split; [done |]. eexists.
        rewrite Ht, <- app_assoc. split; [done |].
        apply Forall_app. split; [done |].
        constructor; [simpl; tauto | constructor].
      * rewrite andb_false_r. simpl. split; [done |]. eexists.
        rewrite Ht, <- app_assoc. split; [done |].
        apply Forall_app. split; [done |].
        constructor; [simpl; tauto | constructor].
  - split; [done |]. eexists. rewrite Ht, <- app_assoc. split; [done |].
    apply Forall_app. split; [done |].
    constructor; [simpl; tauto | constructor].
  - split; [done |]. by exists evs.
  - split; [done |]. by exists evs.
Qed.

(** ** The image step, continued *)

(** X7. An image-list request answered with a client or server error
    (status 400 to 599, 404 included) makes [process_sku_images] return
    [False] at once: such a response is falsy, or is not even returned
    when its status is one on which the session gives up, so that the
    branch that would treat 404 as success is never reached. The step
    itself logs nothing; the only line is the request layer's, for the
    statuses on which the session gives up. *)
Theorem process_sku_images_error_status W nfkd fuel sku_id name s r :
  respond W (trace s) (fetch_images sku_id) = Answer r ->
  400 <= status_code r < 600 ->
  process_sku_images W nfkd (S fuel) sku_id name s =
  (Ok false,
   push s (EvRequest (fetch_images sku_id) ::
           if forced (status_code r)
           then [EvLog ERROR (MsgUnexpected RetryError)] else [])).
Proof.
  intros Hr Hrange. unfold process_sku_images. rewrite bind_unfold.
  unfold fetch_images in *.
  destruct (forced (status_code r)) eqn:Hf.
  { by rewrite (safe_request_forced W fuel _ _ _ _ _ Hr Hf). }
  rewrite (safe_request_answer W fuel _ _ _ _ _ Hr Hf).
  unfold response_ok.
  destruct (Z.leb_spec 400 (status_code r)); [| lia].
  destruct (Z.ltb_spec (status_code r) 600); [| lia]. reflexivity.
Qed.

Lemma process_sku_images_error_status_witness :
  process_sku_images world_404 nfkd_latin1 1 42 (PStr (py "Dipirona"))
    (initial_state NoFile)
  = (Ok false, push (initial_state NoFile) [EvRequest (fetch_images 42)]).
Proof.
  refine (process_sku_images_error_status world_404 nfkd_latin1 0 42
            (PStr (py "Dipirona")) (initial_state NoFile)
            {| status_code := 404; headers := ∅;
               content := BText (py "Not Found") |} _ _).
  - reflexivity.
  - simpl. lia.
Defined.

(** X8. When every image of the fetched list has a non-blank label the
    unit is skipped whatever those labels are: one log line, no update,
    success. *)
Theorem process_sku_images_all_labelled W nfkd fuel sku_id name s r images :
  respond W (trace s) (fetch_images sku_id) = Answer r ->
  status_code r = 200 ->
  json_images r = Ok images ->
  images <> [] ->
  all_have_alt images = Ok true ->
  process_sku_images W nfkd (S fuel) sku_id name s =
  (Ok true, push s [EvRequest (fetch_images sku_id);
                    EvLog INFO (MsgSkipSku sku_id)]).
Proof.
  intros Hr Hs Hj Hne Hall. unfold process_sku_images. rewrite bind_unfold.
  unfold fetch_images in *.
  rewrite (safe_request_answer W fuel _ _ _ _ _ Hr) by (by rewrite Hs).
  unfold response_ok. rewrite Hs. simpl.
  rewrite bind_unfold. unfold lift at 1. rewrite Hj.
  destruct images as [| img rest]; [done |].
  rewrite bind_unfold. unfold lift at 1. rewrite Hall.
  unfold bind, log_message, emit, ret, push. simpl. by rewrite <- app_assoc.
Qed.

Lemma process_sku_images_all_labelled_witness :
  process_sku_images world_labelled nfkd_latin1 1 42 (PStr (py "Dipirona"))
    (initial_state NoFile)
  = (Ok true, push (initial_state NoFile)
                [EvRequest (fetch_images 42); EvLog INFO (MsgSkipSku 42)]).
Proof.
  refine (process_sku_images_all_labelled world_labelled nfkd_latin1 0 42
            (PStr (py "Dipirona")) (initial_state NoFile)
            {| status_code := 200; headers := ∅;
               content := BImages [labelled_image] |}
            [labelled_image] _ _ _ _ _).
  - reflexivity.
  - reflexivity.
  - reflexivity.
  - discriminate.
  - reflexivity.
Defined.

(** The value of the loop, read off its log: it ends with [True] if and
    only if it started with [True] and logged no failed update. *)
Lemma update_loop_verdict W fuel sku_id base_name images :
  forall index success s b s',
    update_loop W fuel sku_id base_name index images success s = (Ok b, s') ->
    exists evs,
      trace s' = trace s ++ evs /\
      (b = true <-> success = true /\ Forall (fun e => ~ is_update_failure e) evs).
Proof.
  induction images as [| img rest IH]; intros index success s b s' H.
  - simpl in H. injection H as <- <-. exists []. rewrite app_nil_r.
    split; [done |]. split; [intros ->; split; [done | constructor] | tauto].
  - simpl in H. destruct (decide _) as [Heq | Hne].
    + rewrite bind_unfold in H. simpl in H.
      apply IH in H as (evs & Ht & Hiff). simpl in Ht.
      exists (EvLog INFO (MsgSkipImage (target_label base_name index)) :: evs).
      rewrite Ht, <- app_assoc. split; [done |]. rewrite Hiff.
      split; intros [Hs HF]; (split; [done |]).
      * constructor; [simpl; tauto | done].
      * by inversion HF.
    + rewrite bind_unfold in H.
      destruct (update_image_alt W fuel sku_id img _ s)
        as [[updated | e |] s1] eqn:E; [| done | done].
      apply update_image_alt_result in E as (e1 & l & m & Ht1 & HF1 & Hm).
      apply IH in H as (evs & Ht & Hiff).
      exists (e1 ++ [EvLog l m] ++ evs).
      rewrite Ht, Ht1, <- !app_assoc. split; [done |]. rewrite Hiff.
      assert (Hq : Forall (fun e => ~ is_update_failure e) e1).
      { eapply Forall_impl; [exact HF1 |].
        intros [r | | l' m' | | | |]; simpl; try tauto. destruct m'; simpl; tauto. }
      destruct updated.
      * subst m. split; intros [Hs HF]; (split; [done |]).
        -- apply Forall_app. split; [done |]. constructor; [simpl; tauto | done].
        -- apply Forall_app in HF as [_ HF]. by inversion HF.
      * split; [by intros [? _] |]. intros [_ HF].
        apply Forall_app in HF as [_ HF]. inversion HF as [| ? ? Hx _]; subst.
        simpl in Hx. tauto.
Qed.

(** X9. When the image list is fetched and some image lacks a label,
    the step returns; every image whose label differs from its target
    has been submitted; and the value returned is [True] if and only if
    no update failure was logged. *)
Theorem process_sku_images_updates W nfkd fuel sku_id text s r images :
  respond W (trace s) (fetch_images sku_id) = Answer r ->
  status_code r = 200 ->
  json_images r = Ok images ->
  all_have_alt images = Ok false ->
  exists b s' evs,
    process_sku_images W nfkd (S fuel) sku_id (PStr text) s = (Ok b, s') /\
    trace s' = trace s ++ EvRequest (fetch_images sku_id) :: evs /\
    (b = true <-> Forall (fun e => ~ is_update_failure e) evs) /\
    forall i img,
      images !! i = Some img ->
      current_label img <> PStr (target_label (slugify nfkd text) (S i)) ->
      In (EvRequest (put_request sku_id img
                       (target_label (slugify nfkd text) (S i)))) evs.
Proof.
  intros Hr Hs Hj Hall.
  destruct (process_sku_images_due W nfkd fuel sku_id text s r images
              Hr Hs Hj Hall) as (b & s' & Hrun & _).
  exists b, s'. pose proof Hrun as Hrun0.
  unfold process_sku_images in Hrun.
  rewrite bind_unfold in Hrun. unfold fetch_images in *.
  rewrite (safe_request_answer W fuel _ _ _ _ _ Hr) in Hrun by (by rewrite Hs).
  unfold response_ok in Hrun. rewrite Hs in Hrun.
  change (negb (negb ((400 <=? 200) && (200 <? 600)))) with false in Hrun.
  change (200 =? 200) with true in Hrun. cbv beta iota in Hrun.
  rewrite bind_unfold in Hrun. unfold lift at 1 in Hrun. rewrite Hj in Hrun.
  destruct images as [| img rest]; [done |].
  rewrite bind_unfold in Hrun. unfold lift at 1 in Hrun. rewrite Hall in Hrun.
  rewrite bind_unfold in Hrun. unfold lift at 1, slugify_name in Hrun.
  destruct (update_loop_verdict W (S fuel) sku_id (slugify nfkd text)
              (img :: rest) 1 true _ b s' Hrun) as (evs & Ht & Hiff).
  exists evs. split; [exact Hrun0 |].
  simpl in Ht. rewrite <- app_assoc in Ht. split; [exact Ht |].
  split; [rewrite Hiff; tauto |].
  intros i im Hi Hne.
  destruct (update_loop_complete W fuel sku_id (slugify nfkd text)
              (img :: rest) 1 true _ b s' Hrun i im Hi Hne) as (evs' & Ht' & Hin).
  rewrite Ht in Ht'. simpl in Ht'. rewrite <- app_assoc in Ht'.
  apply app_inv_head in Ht'. injection Ht' as ->. exact Hin.
Qed.

Lemma process_sku_images_updates_witness :
  exists b s' evs,
    process_sku_images world_catalog nfkd_latin1 1 42
      (PStr (py "Dipirona 500mg")) (initial_state NoFile) = (Ok b, s') /\
    trace s' = trace (initial_state NoFile)
               ++ EvRequest (fetch_images 42) :: evs /\
    (b = true <-> Forall (fun e => ~ is_update_failure e) evs).
Proof.
  destruct (process_sku_images_updates world_catalog nfkd_latin1 0 42
              (py "Dipirona 500mg") (initial_state NoFile)
              {| status_code := 200; headers := ∅;
                 content := BImages [sample_image] |}
              [sample_image] eq_refl eq_refl eq_refl eq_refl)
    as (b & s' & evs & Hrun & Ht & Hiff & _).
  exists b, s', evs. split; [exact Hrun |]. split; [exact Ht | exact Hiff].
Defined.

(** X10. On a 200 answer with a detail record, [get_sku_details] returns
    the first truthy of [ProductName], [NameComplete], [Name] together
    with [RefId]; on any answer that is not 200 it returns the pair of
    [None]s. One request either way, and nothing else but the request
    layer's error line for a status on which the session gives up. *)
Theorem get_sku_details_spec W fuel sku_id s r :
  respond W (trace s) (fetch_details sku_id) = Answer r ->
  (forall d, status_code r = 200 -> json_details r = Ok d ->
     get_sku_details W (S fuel) sku_id s =
     (Ok (chosen_name d, dict_get d "RefId"),
      push s [EvRequest (fetch_details sku_id)])) /\
  (status_code r <> 200 ->
     get_sku_details W (S fuel) sku_id s =
     (Ok (PNone, PNone),
      push s (EvRequest (fetch_details sku_id) ::
              if forced (status_code r)
              then [EvLog ERROR (MsgUnexpected RetryError)] else []))).
Proof.
  intros Hr. unfold fetch_details in *. split.
  - intros d Hs Hd. unfold get_sku_details. rewrite bind_unfold.
    rewrite (safe_request_answer W fuel _ _ _ _ _ Hr) by (by rewrite Hs).
    unfold response_ok. rewrite Hs. simpl.
    rewrite bind_unfold. unfold lift at 1. rewrite Hd. unfold ret.
    unfold chosen_name, py_or.
    destruct (truthy (dict_get d "ProductName")) eqn:E1; [by rewrite E1 |].
    by destruct (truthy (dict_get d "NameComplete")) eqn:E2; rewrite ?E2.
  - intros Hs. unfold get_sku_details. rewrite bind_unfold.
    destruct (forced (status_code r)) eqn:Hf.
    { by rewrite (safe_request_forced W fuel _ _ _ _ _ Hr Hf). }
    rewrite (safe_request_answer W fuel _ _ _ _ _ Hr Hf).
    apply Z.eqb_neq in Hs. rewrite Hs, andb_false_r. reflexivity.
Qed.

Lemma get_sku_details_spec_witness :
  get_sku_details world_nameless 1 42 (initial_state NoFile) =
  (Ok (chosen_name nameless_details, dict_get nameless_details "RefId"),
   push (initial_state NoFile) [EvRequest (fetch_details 42)]).
Proof.
  refine (proj1 (get_sku_details_spec world_nameless 0 42 (initial_state NoFile)
                   {| status_code := 200; headers := ∅;
                      content := BDetails nameless_details |} _)
            nameless_details _ _).
  - reflexivity.
  - reflexivity.
  - reflexivity.
Defined.

(** ** One unit, continued *)

(** X11. A unit for which no usable name comes back (no truthy name
    field, or a detail fetch that failed) is reported as success but is
    not marked: the checkpoint is unchanged, no image is fetched, and the
    only trace of it is the warning line. *)
Theorem unit_without_name_is_ignored W nfkd fuel sku_id s name ref_id s1 :
  is_processed_in sku_id (data s) = false ->
  get_sku_details W fuel sku_id s = (Ok (name, ref_id), s1) ->
  truthy name = false ->
  process_single_sku W nfkd fuel sku_id s =
    (Ok true, push s1 [EvLog WARNING (MsgIgnored sku_id)]) /\
  data s1 = data s /\
  is_processed_in sku_id (data s1) = false.
Proof.
  intros Hseen Hd Hname.
  destruct (get_sku_details_io W fuel sku_id s) as (_ & Hdata & _).
  rewrite Hd in Hdata. simpl in Hdata.
  split; [| split; [done | by rewrite Hdata]].
  unfold process_single_sku. rewrite bind_unfold.
  unfold is_processed, bind, get_data, ret. simpl. rewrite Hseen.
  rewrite Hd, Hname. reflexivity.
Qed.

Lemma unit_without_name_is_ignored_witness :
  process_single_sku world_nameless nfkd_latin1 1 42 (initial_state NoFile) =
  (Ok true,
   push (push (initial_state NoFile) [EvRequest (fetch_details 42)])
     [EvLog WARNING (MsgIgnored 42)]).
Proof.
  refine (proj1 (unit_without_name_is_ignored world_nameless nfkd_latin1 1 42
                   (initial_state NoFile) (PStr []) (PStr (py "R-1"))
                   (push (initial_state NoFile) [EvRequest (fetch_details 42)])
                   _ _ _)).
  - reflexivity.
  - vm_compute. reflexivity.
  - reflexivity.
Defined.

(** What [mark_processed] does to the checkpoint. *)
Lemma mark_processed_grows sku_id s0 :
  let s1 := (mark_processed sku_id s0).2 in
  (mark_processed sku_id s0).1 = Ok tt /\
  (forall k, In k (processed_skus (data s0)) -> In k (processed_skus (data s1))) /\
  (forall k, In k (processed_skus (data s1)) ->
             In k (processed_skus (data s0)) \/ k = sku_id) /\
  (NoDup (processed_skus (data s0)) -> NoDup (processed_skus (data s1))) /\
  last_page (data s1) = last_page (data s0) /\
  file s1 = file s0 /\ processed_count s1 = processed_count s0.
Proof.
  unfold mark_processed, bind, emit, get_data, set_data, ret. simpl.
  destruct (is_processed_in sku_id (data s0)) eqn:E; simpl.
  { repeat split; try done. by left. }
  split; [done |].
  split; [intros k Hk; apply in_or_app; by left |].
  split; [intros k Hk; apply in_app_or in Hk as [? | [<- | []]]; eauto |].
  split; [| done]. intros Hnd. apply NoDup_app. split; [done |].
  split; [| apply NoDup_singleton].
  intros x Hx Hx'. apply list_elem_of_In in Hx'. destruct Hx' as [Heq | []].
  subst x. assert (is_processed_in sku_id (data s0) = true); [| congruence].
  apply is_processed_in_spec. by apply list_elem_of_In.
Qed.

Lemma process_single_sku_grows W nfkd fuel sku_id s r s' :
  process_single_sku W nfkd fuel sku_id s = (r, s') ->
  (forall k, In k (processed_skus (data s)) -> In k (processed_skus (data s'))) /\
  (forall k, In k (processed_skus (data s')) ->
             In k (processed_skus (data s)) \/ k = sku_id) /\
  (NoDup (processed_skus (data s)) -> NoDup (processed_skus (data s'))) /\
  last_page (data s') = last_page (data s) /\
  file s' = file s /\
  processed_count s' = processed_count s.
Proof.
  assert (Hsame : forall s0 : state,
             data s0 = data s -> file s0 = file s ->
             processed_count s0 = processed_count s ->
             (forall k, In k (processed_skus (data s)) ->
                        In k (processed_skus (data s0))) /\
             (forall k, In k (processed_skus (data s0)) ->
                        In k (processed_skus (data s)) \/ k = sku_id) /\
             (NoDup (processed_skus (data s)) -> NoDup (processed_skus (data s0))) /\
             last_page (data s0) = last_page (data s) /\
             file s0 = file s /\ processed_count s0 = processed_count s).
  { intros s0 -> -> ->. repeat split; try done. by left. }
  intros Hrun. unfold process_single_sku in Hrun. rewrite bind_unfold in Hrun.
  unfold is_processed, bind at 1, get_data, ret in Hrun.
  cbv beta iota in Hrun.
  destruct (is_processed_in sku_id (data s)).
  { injection Hrun as _ <-. by apply Hsame. }
  rewrite bind_unfold in Hrun.
  destruct (get_sku_details_io W fuel sku_id s) as (_ & Hd1 & Hf1 & Hc1).
  destruct (get_sku_details W fuel sku_id s) as [[[name ref_id] | e |] s1];
    simpl in Hd1, Hf1, Hc1.
  2,3: injection Hrun as _ <-; by apply Hsame.
  destruct (truthy name).
  2: { injection Hrun as _ <-. by apply Hsame. }
  rewrite bind_unfold in Hrun. unfold log_message at 1, emit at 1 in Hrun.
  set (s1' := {| trace := trace s1 ++ [EvLog INFO (MsgSku sku_id ref_id name)];
                 data := data s1; file := file s1;
                 processed_count := processed_count s1 |}) in Hrun.
  rewrite bind_unfold in Hrun.
  destruct (process_sku_images_io W nfkd fuel sku_id name s1')
    as (_ & Hd2 & Hf2 & Hc2).
  destruct (process_sku_images W nfkd fuel sku_id name s1')
    as [[[|] | e |] s2]; simpl in Hd2, Hf2, Hc2.
  2: { injection Hrun as _ <-. apply Hsame; congruence. }
  2,3: injection Hrun as _ <-; apply Hsame; congruence.
  rewrite bind_unfold in Hrun.
  destruct (mark_processed_grows sku_id s2) as (Hok & H1 & H2 & H3 & H4 & H5 & H6).
  destruct (mark_processed sku_id s2) as [r3 s3]. simpl in Hok, H1, H2, H3, H4, H5, H6.
  subst r3. injection Hrun as _ <-.
  rewrite Hd2, Hd1 in H1, H2, H3, H4.
  split; [exact H1 |]. split; [exact H2 |]. split; [exact H3 |].
  split; [exact H4 |]. split; congruence.
Qed.

(** X12. Whatever happens in it, a unit's transaction only adds to the
    set of processed units: every unit processed before stays processed,
    the only unit that can be added is its own, the list stays free of
    duplicates, and the page cursor, the file and the counter are left
    alone. *)
Theorem process_single_sku_checkpoint W nfkd fuel sku_id s :
  let s' := (process_single_sku W nfkd fuel sku_id s).2 in
  (forall k, In k (processed_skus (data s)) -> In k (processed_skus (data s'))) /\
  (forall k, In k (processed_skus (data s')) ->
             In k (processed_skus (data s)) \/ k = sku_id) /\
  (NoDup (processed_skus (data s)) -> NoDup (processed_skus (data s'))) /\
  last_page (data s') = last_page (data s) /\
  file s' = file s /\
  processed_count s' = processed_count s.
Proof.
  destruct (process_single_sku W nfkd fuel sku_id s) as [r s'] eqn:E.
  exact (process_single_sku_grows W nfkd fuel sku_id s r s' E).
Qed.

(** ** The runner, continued *)

(** A run is its prologue, the page loop, and the epilogue. *)
(** What a future leaves: the unit's transaction, then its completion
    unless the model ran out of fuel. *)
Lemma unit_txn_step s s' : unit_txn s s' -> unit_step s s'.
Proof. intros (Hg & Hl & Hc & _). by split. Qed.

Lemma io_unit_txn s s' : io io_event s s' -> unit_txn s s'.
Proof.
  intros Hio. destruct (io_unit_step s s' Hio) as (Hg & Hl & Hc).
  destruct Hio as (_ & Hd & Hf & _).
  split; [exact Hg |]. split; [exact Hl |]. split; [exact Hc |].
  split; [exact Hf |]. rewrite Hd. by split.
Qed.

Lemma process_single_sku_unit_txn W nfkd fuel k s :
  unit_txn s (process_single_sku W nfkd fuel k s).2.
Proof.
  destruct (process_single_sku_unit_step W nfkd fuel k s) as (Hg & Hl & Hc).
  destruct (process_single_sku W nfkd fuel k s) as [r s1] eqn:E.
  destruct (process_single_sku_grows W nfkd fuel k s r s1 E)
    as (Hin & _ & Hnd & _ & Hf & _).
  split; [exact Hg |]. split; [exact Hl |]. split; [exact Hc |].
  split; [exact Hf |]. by split.
Qed.

Lemma worker_anatomy W nfkd fuel page k s r s2 :
  worker W nfkd fuel page k s = (r, s2) ->
  exists s1,
    unit_txn s s1 /\
    (r = OutOfFuel /\ s2 = s1 \/
     r = Ok tt /\ s2 = (emit (EvDone page k) s1).2).
Proof.
  unfold worker. intros H.
  pose proof (process_single_sku_unit_txn W nfkd fuel k s) as Hu.
  destruct (process_single_sku W nfkd fuel k s) as [[b | e |] s1];
    simpl in Hu; injection H as <- <-; exists s1; (split; [done |]); auto.
Qed.

(** *** An induction principle for the runner

    A preorder on states that contains every step the runner makes
    contains the page loop. The steps are: a unit's transaction, a
    request or a log line; a dispatch; a completion together with its consumption; a
    completion left unconsumed (only if an interrupt can arrive); a save;
    the advance of the cursor by one page. *)
Section RunnerPrinciple.

Variable W : world.
Variable nfkd : pystr -> pystr.
Variable R : relation state.
Context `{!PreOrder R}.

Hypothesis R_unit : forall s s', unit_txn s s' -> R s s'.
Hypothesis R_submit : forall s p k, R s (emit (EvSubmit p k) s).2.
Hypothesis R_consume : forall s p k, R s (consumed p k s).
Hypothesis R_done :
  (exists tr, sigint W tr = true) ->
  forall s p k, R s (emit (EvDone p k) s).2.
Hypothesis R_save : forall s, R s (save s).2.
Hypothesis R_advance :
  forall s, R s (update_page (last_page (data s) + 1) s).2.

Lemma R_log m l s : R s (log_message m l s).2.
Proof.
  apply R_unit. split; [| done]. exists [EvLog l m]. split; [done |].
  by repeat constructor.
Qed.

Lemma submit_all_R page sku_ids : forall s,
  (submit_all page sku_ids s).1 = Ok tt /\
  R s (submit_all page sku_ids s).2 /\
  data (submit_all page sku_ids s).2 = data s.
Proof.
  induction sku_ids as [| k rest IH]; intros s.
  - simpl. split; [done |]. split; [reflexivity | done].
  - change (submit_all page (k :: rest) s)
      with (submit_all page rest (emit (EvSubmit page k) s).2).
    destruct (IH (emit (EvSubmit page k) s).2) as (Hr & HR & Hd).
    split; [exact Hr |]. split; [| exact Hd].
    etrans; [apply R_submit | exact HR].
Qed.

Lemma shutdown_R fuel page n : forall pending s r s',
  (exists tr, sigint W tr = true) ->
  shutdown W nfkd fuel page n pending s = (r, s') ->
  R s s' /\ last_page (data s') = last_page (data s).
Proof.
  induction n as [| n IH]; intros pending s r s' Hsig Hrun.
  { injection Hrun as _ <-. split; [reflexivity | done]. }
  cbn [shutdown] in Hrun. rewrite bind_unfold in Hrun.
  unfold get_trace at 1 in Hrun. cbv beta iota in Hrun.
  destruct (extract _ pending) as [[k rest] |].
  2: { injection Hrun as _ <-. split; [reflexivity | done]. }
  rewrite bind_unfold in Hrun.
  destruct (worker W nfkd fuel page k s) as [r1 s2] eqn:E1.
  apply worker_anatomy in E1 as (s1 & Hu & [[-> ->] | [-> ->]]).
  - injection Hrun as _ <-. split; [by apply R_unit | apply Hu].
  - apply IH in Hrun as [HR Hlp]; [| done]. split.
    + etrans; [by apply R_unit |]. etrans; [by apply R_done | exact HR].
    + rewrite Hlp. simpl. apply Hu.
Qed.

Lemma as_completed_loop_R fuel page n : forall pending s r s',
  as_completed_loop W nfkd fuel page n pending s = (r, s') ->
  R s s' /\ last_page (data s') = last_page (data s).
Proof.
  induction n as [| n IH]; intros pending s r s' Hrun.
  { injection Hrun as _ <-. split; [reflexivity | done]. }
  cbn [as_completed_loop] in Hrun. rewrite bind_unfold in Hrun.
  unfold get_trace at 1 in Hrun. cbv beta iota in Hrun.
  destruct (extract _ pending) as [[k rest] |].
  2: { injection Hrun as _ <-. split; [reflexivity | done]. }
  rewrite bind_unfold in Hrun.
  destruct (worker W nfkd fuel page k s) as [r1 s2] eqn:E1.
  apply worker_anatomy in E1 as (s1 & Hu & [[-> ->] | [-> ->]]).
  { injection Hrun as _ <-. split; [by apply R_unit | apply Hu]. }
  rewrite bind_unfold in Hrun. unfold get_trace at 1 in Hrun.
  cbv beta iota in Hrun.
  destruct (sigint W (trace (emit (EvDone page k) s1).2)) eqn:Hsig.
  { rewrite bind_unfold in Hrun.
    destruct (shutdown W nfkd fuel page n rest (emit (EvDone page k) s1).2)
      as [r2 s3] eqn:E2.
    apply shutdown_R in E2 as [HR Hlp]; [| eauto].
    assert (s' = s3) as ->.
    { destruct r2 as [[] | e |]; by injection Hrun as _ <-. }
    split.
    - etrans; [by apply R_unit |]. etrans; [apply R_done; eauto | exact HR].
    - rewrite Hlp. simpl. apply Hu. }
  rewrite bind_unfold in Hrun. unfold get_count at 1 in Hrun.
  cbv beta iota in Hrun.
  rewrite bind_unfold in Hrun.
  change (set_count (S (processed_count (emit (EvDone page k) s1).2))
            (emit (EvDone page k) s1).2)
    with (Ok tt, consumed page k s1) in Hrun.
  cbv beta iota in Hrun. rewrite bind_unfold in Hrun.
  assert (Hc : R s (consumed page k s1)).
  { etrans; [by apply R_unit | apply R_consume]. }
  assert (Hlc : last_page (data (consumed page k s1)) = last_page (data s))
    by apply Hu.
  destruct (_ =? 0)%nat.
  - rewrite bind_unfold in Hrun.
    assert (Hs : save (consumed page k s1) = (Ok tt, (save (consumed page k s1)).2))
      by reflexivity.
    rewrite Hs in Hrun. cbv beta iota in Hrun. rewrite log_run in Hrun.
    cbv beta iota in Hrun.
    apply IH in Hrun as [HR Hlp]. split.
    + etrans; [exact Hc |]. etrans; [apply R_save |].
      etrans; [apply R_log | exact HR].
    + rewrite Hlp. exact Hlc.
  - cbv beta iota delta [ret] in Hrun.
    apply IH in Hrun as [HR Hlp]. split; [by etrans | by rewrite Hlp].
Qed.

Lemma page_loop_R fuel : forall page s r s',
  last_page (data s) = page ->
  page_loop W nfkd fuel page s = (r, s') ->
  R s s'.
Proof.
  induction fuel as [| fuel IH]; intros page s r s' Hlp Hrun.
  { injection Hrun as _ <-. reflexivity. }
  cbn [page_loop] in Hrun. rewrite bind_unfold in Hrun.
  unfold get_trace at 1 in Hrun. cbv beta iota in Hrun.
  destruct (sigint W (trace s)); [injection Hrun as _ <-; reflexivity |].
  rewrite bind_unfold in Hrun.
  assert (Hu : unit_txn s (safe_request W fuel GET
                             (UrlSkuIds page page_size) None s).2).
  { apply io_unit_txn. eapply io_weaken; [| apply safe_request_io].
    apply request_layer_io_event. }
  destruct (safe_request W fuel GET _ None s) as [[[resp |] | e |] s1];
    simpl in Hu.
  2: { rewrite log_run in Hrun. injection Hrun as _ <-.
       etrans; [by apply R_unit | apply R_log]. }
  2,3: injection Hrun as _ <-; by apply R_unit.
  assert (Hstop : forall m l, R s (log_message m l s1).2).
  { intros m l. etrans; [by apply R_unit | apply R_log]. }
  destruct (negb (response_ok resp)).
  { rewrite log_run in Hrun. injection Hrun as _ <-. apply Hstop. }
  destruct (status_code resp =? 200).
  2: { destruct (status_code resp =? 401);
         rewrite log_run in Hrun; injection Hrun as _ <-; apply Hstop. }
  rewrite bind_unfold in Hrun. unfold lift at 1 in Hrun.
  destruct (json_ids resp) as [[| k ids] | e |].
  { rewrite log_run in Hrun. injection Hrun as _ <-. apply Hstop. }
  2,3: injection Hrun as _ <-; by apply R_unit.
  rewrite bind_unfold, log_run in Hrun.
  set (s2 := (log_message (MsgProcessingPage page (length (k :: ids))) INFO s1).2)
    in *.
  assert (H2 : R s s2) by apply Hstop.
  assert (Hlp2 : last_page (data s2) = page).
  { unfold s2. simpl. destruct Hu as (_ & -> & _). exact Hlp. }
  clearbody s2.
  rewrite bind_unfold in Hrun.
  destruct (submit_all_R page (k :: ids) s2) as (Hr3 & HR3 & Hd3).
  destruct (submit_all page (k :: ids) s2) as [r3 s3].
  simpl in Hr3, HR3, Hd3. subst r3.
  rewrite bind_unfold in Hrun.
  destruct (as_completed_loop W nfkd fuel page (length (k :: ids)) (k :: ids) s3)
    as [r4 s4] eqn:E4.
  apply as_completed_loop_R in E4 as [HR4 Hlp4].
  assert (H4 : R s s4).
  { etrans; [exact H2 |]. etrans; [exact HR3 | exact HR4]. }
  destruct r4 as [[] | e |]; [| by injection Hrun as _ <- ..].
  rewrite bind_unfold in Hrun.
  assert (Hup : update_page (page + 1) s4
                = (Ok tt, (update_page (last_page (data s4) + 1) s4).2)).
  { rewrite Hlp4, Hd3, Hlp2. reflexivity. }
  rewrite Hup in Hrun. cbv beta iota in Hrun.
  set (s5 := (update_page (last_page (data s4) + 1) s4).2) in *.
  assert (H5 : R s s5) by (etrans; [exact H4 | apply R_advance]).
  assert (Hlp5 : last_page (data s5) = page + 1).
  { unfold s5. simpl. by rewrite Hlp4, Hd3, Hlp2. }
  clearbody s5.
  rewrite bind_unfold in Hrun.
  assert (Hs : save s5 = (Ok tt, (save s5).2)) by reflexivity.
  rewrite Hs in Hrun. cbv beta iota in Hrun.
  apply IH in Hrun; [| exact Hlp5].
  etrans; [exact H5 |]. etrans; [apply R_save | exact Hrun].
Qed.

End RunnerPrinciple.

(** *** The completion counter *)

Lemma completions_app a b :
  completions (a ++ b) = (completions a + completions b)%nat.
Proof. unfold completions. by rewrite List.filter_app, length_app. Qed.

Lemma completions_neutral evs : Forall neutral evs -> completions evs = 0%nat.
Proof.
  induction 1 as [| e evs He _ IH]; [done |]. unfold completions in *.
  by destruct e.
Qed.

Global Instance counted_le_preorder : PreOrder counted_le.
Proof. split; unfold counted_le; [intros s | intros s1 s2 s3 ? ?]; lia. Qed.

Global Instance counted_preorder : PreOrder counted.
Proof. split; unfold counted; [intros s | intros s1 s2 s3 ? ?]; lia. Qed.

Lemma unit_step_counted s s' : unit_step s s' -> counted s s'.
Proof.
  intros ((evs & Ht & HF) & _ & Hc). unfold counted.
  rewrite Ht, completions_app, (completions_neutral _ HF), Hc. lia.
Qed.

Lemma counted_counted_le s s' : counted s s' -> counted_le s s'.
Proof. unfold counted, counted_le. lia. Qed.

Lemma counted_emit e s :
  is_completion e = false -> counted s (emit e s).2.
Proof.
  intros He. unfold counted. simpl. rewrite completions_app.
  unfold completions at 3. simpl. rewrite He. simpl. lia.
Qed.

Lemma counted_consumed s p k : counted s (consumed p k s).
Proof.
  unfold counted, consumed. simpl. rewrite completions_app.
  unfold completions at 3. simpl. lia.
Qed.

Lemma counted_le_done s p k : counted_le s (emit (EvDone p k) s).2.
Proof.
  unfold counted_le. simpl. rewrite completions_app.
  unfold completions at 3. simpl. lia.
Qed.

Lemma counted_save s : counted s (save s).2.
Proof.
  unfold counted. simpl. rewrite completions_app.
  unfold completions at 3. simpl. lia.
Qed.

Lemma counted_advance s page : counted s (update_page page s).2.
Proof. unfold counted. simpl. lia. Qed.

(** X13. The runner's counter never runs ahead of the work: at the end
    of a run it is at most the number of units that completed, and it is
    exactly that number when no interrupt arrives. *)
Theorem counter_counts_completions W nfkd fuel resume f :
  let s' := (run_bulk_update W nfkd fuel resume (initial_state f)).2 in
  (processed_count s' <= completions (trace s'))%nat /\
  ((forall tr, sigint W tr = false) ->
   processed_count s' = completions (trace s')).
Proof.
  assert (Hstart : completions (trace (start_state resume f)) = 0%nat
                   /\ processed_count (start_state resume f) = 0%nat).
  { by destruct resume. }
  destruct Hstart as [Hc0 Hp0].
  assert (Hend : forall r s6,
             processed_count (end_state r s6).2 = processed_count s6 /\
             completions (trace (end_state r s6).2) = completions (trace s6)).
  { intros [[] | e |] s6; simpl; [| | done].
    - by rewrite completions_app, Nat.add_0_r.
    - rewrite !completions_app. simpl. split; [done |].
      destruct e; unfold completions; simpl; lia. }
  cbv zeta. destruct (cursor_error resume f) as [e0 |] eqn:Hcur.
  { rewrite (run_bulk_update_cursorless W nfkd fuel resume f e0 Hcur).
    simpl. split; [lia | done]. }
  rewrite (run_bulk_update_anatomy W nfkd fuel resume f Hcur).
  destruct (page_loop W nfkd fuel _ (start_state resume f)) as [r6 s6] eqn:E.
  simpl fst. simpl snd.
  destruct (Hend r6 s6) as [-> ->]. split.
  - assert (H : counted_le (start_state resume f) s6).
    { refine (page_loop_R W nfkd counted_le _ _ _ _ _ _ fuel _ _ r6 s6 eq_refl E).
      - intros s s' Hu. by apply counted_counted_le, unit_step_counted, unit_txn_step.
      - intros s p k. by apply counted_counted_le, counted_emit.
      - intros s p k. apply counted_counted_le, counted_consumed.
      - intros _ s p k. apply counted_le_done.
      - intros s. apply counted_counted_le, counted_save.
      - intros s. apply counted_counted_le, counted_advance. }
    unfold counted_le in H. rewrite Hc0, Hp0 in H. lia.
  - intros Hsig.
    assert (H : counted (start_state resume f) s6).
    { refine (page_loop_R W nfkd counted _ _ _ _ _ _ fuel _ _ r6 s6 eq_refl E).
      - intros s s' Hu. by apply unit_step_counted, unit_txn_step.
      - intros s p k. by apply counted_emit.
      - intros s p k. apply counted_consumed.
      - intros [tr Htr]. rewrite Hsig in Htr. done.
      - intros s. apply counted_save.
      - intros s. apply counted_advance. }
    unfold counted in H. rewrite Hc0, Hp0 in H. lia.
Qed.

Lemma counter_counts_completions_witness :
  processed_count (run_bulk_update world_catalog nfkd_latin1 5 true
                     (initial_state NoFile)).2
  = completions (trace (run_bulk_update world_catalog nfkd_latin1 5 true
                          (initial_state NoFile)).2).
Proof.
  exact (proj2 (counter_counts_completions world_catalog nfkd_latin1 5 true
                  NoFile) (fun _ => eq_refl)).
Defined.

(** *** The saved cursors *)

Lemma sorted_between l1 l2 (m : Z) :
  StronglySorted Z.le l1 -> StronglySorted Z.le l2 ->
  Forall (fun v => v <= m) l1 -> Forall (fun v => m <= v) l2 ->
  StronglySorted Z.le (l1 ++ l2).
Proof.
  intros H1 H2 F1 F2. induction H1 as [| x l1 H1 IH Hx]; [done |].
  inversion F1 as [| ? ? Hxm F1']; subst. simpl. constructor; [by apply IH |].
  apply Forall_app. split; [done |].
  eapply Forall_impl; [exact F2 |]. cbv beta. intros v Hv. lia.
Qed.

Global Instance cursor_ascends_preorder : PreOrder cursor_ascends.
Proof.
  split.
  - intros s. split; [lia |]. exists []. rewrite app_nil_r.
    split; [done |]. split; constructor.
  - intros s1 s2 s3 (L1 & e1 & T1 & S1 & F1) (L2 & e2 & T2 & S2 & F2).
    split; [lia |]. exists (e1 ++ e2).
    split; [by rewrite T2, T1, app_assoc |].
    rewrite saved_pages_app. split.
    + apply (sorted_between _ _ (last_page (data s2))); try done.
      * eapply Forall_impl; [exact F1 |]. cbv beta. intros v Hv. lia.
      * eapply Forall_impl; [exact F2 |]. cbv beta. intros v Hv. lia.
    + apply Forall_app. split.
      * eapply Forall_impl; [exact F1 |]. cbv beta. intros v Hv. lia.
      * eapply Forall_impl; [exact F2 |]. cbv beta. intros v Hv. lia.
Qed.

Lemma cursor_ascends_quiet s s' evs :
  trace s' = trace s ++ evs -> saved_pages evs = [] ->
  last_page (data s) <= last_page (data s') ->
  cursor_ascends s s'.
Proof.
  intros Ht Hs Hl. split; [done |]. exists evs. rewrite Hs.
  split; [done |]. split; constructor.
Qed.

Lemma cursor_ascends_save s : cursor_ascends s (save s).2.
Proof.
  split; [simpl; lia |]. exists [EvSave (data s)]. simpl.
  split; [done |]. split; [repeat constructor |].
  constructor; [lia | constructor].
Qed.

(** X14. The page cursors persisted in the course of one run never
    decrease: the list of saved cursors is sorted. *)
Theorem saved_cursors_ascend W nfkd fuel resume f :
  StronglySorted Z.le
    (saved_pages (trace (run_bulk_update W nfkd fuel resume (initial_state f)).2)).
Proof.
  destruct (cursor_error resume f) as [e0 |] eqn:Hcur.
  { rewrite (run_bulk_update_cursorless W nfkd fuel resume f e0 Hcur).
    constructor. }
  rewrite (run_bulk_update_anatomy W nfkd fuel resume f Hcur).
  destruct (page_loop W nfkd fuel _ (start_state resume f)) as [r6 s6] eqn:E.
  simpl fst. simpl snd.
  assert (H : cursor_ascends (start_state resume f) s6).
  { refine (page_loop_R W nfkd cursor_ascends _ _ _ _ _ _ fuel _ _ r6 s6
              eq_refl E).
    - intros s s' ((evs & Ht & HF) & Hl & _).
      apply (cursor_ascends_quiet s s' evs Ht); [| lia].
      by apply saved_pages_neutral.
    - intros s p k.
      by apply (cursor_ascends_quiet _ _ [EvSubmit p k]); [| | simpl; lia].
    - intros s p k.
      by apply (cursor_ascends_quiet _ _ [EvDone p k]); [| | simpl; lia].
    - intros _ s p k.
      by apply (cursor_ascends_quiet _ _ [EvDone p k]); [| | simpl; lia].
    - apply cursor_ascends_save.
    - intros s. apply (cursor_ascends_quiet _ _ []);
        [by rewrite app_nil_r | done | simpl; lia]. }
  destruct H as (Hl & evs & Ht & Hs & HF).
  assert (Hstart : exists l0,
             saved_pages (trace (start_state resume f)) = l0 /\
             StronglySorted Z.le l0 /\
             Forall (fun v => v <= last_page (data (start_state resume f))) l0).
  { destruct resume; simpl; eexists; (split; [reflexivity |]);
      split; repeat constructor. done. }
  destruct Hstart as (l0 & Hl0 & Hs0 & HF0).
  assert (Hs6 : StronglySorted Z.le (saved_pages (trace s6)) /\
                Forall (fun v => v <= last_page (data s6)) (saved_pages (trace s6))).
  { rewrite Ht, saved_pages_app, Hl0. split.
    - apply (sorted_between _ _ (last_page (data (start_state resume f))));
        try done.
      eapply Forall_impl; [exact HF |]. cbv beta. intros v Hv. lia.
    - apply Forall_app. split.
      + eapply Forall_impl; [exact HF0 |]. cbv beta. intros v Hv. lia.
      + eapply Forall_impl; [exact HF |]. cbv beta. intros v Hv. lia. }
  destruct Hs6 as [Hsorted Hbound].
  destruct r6 as [[] | e |]; simpl.
  - rewrite saved_pages_app. simpl. by rewrite app_nil_r.
  - assert (He : saved_pages [handler_line e] = []) by (by destruct e).
    unfold push, save_state. cbn [trace data].
    rewrite !saved_pages_app, He. cbn [saved_pages]. rewrite !app_nil_r.
    apply (sorted_between _ _ (last_page (data s6))); try done.
    + repeat constructor.
    + constructor; [lia | constructor].
  - exact Hsorted.
Qed.

(** *** The file at the end of a run *)

Lemma synced_io (P : event -> Prop) s s' : io P s s' -> synced s -> synced s'.
Proof. intros (_ & Hd & Hf & _). unfold synced. by rewrite Hd, Hf. Qed.

Lemma page_loop_synced W nfkd fuel : forall page s s',
  page_loop W nfkd fuel page s = (Ok tt, s') -> synced s -> synced s'.
Proof.
  induction fuel as [| fuel IH]; intros page s s' Hrun Hsync; [done |].
  cbn [page_loop] in Hrun. rewrite bind_unfold in Hrun.
  unfold get_trace at 1 in Hrun. cbv beta iota in Hrun.
  destruct (sigint W (trace s)); [done |].
  rewrite bind_unfold in Hrun.
  pose proof (synced_io _ _ _ (safe_request_io W fuel GET
                (UrlSkuIds page page_size) None s) Hsync) as Hsync1.
  destruct (safe_request W fuel GET _ None s) as [[[resp |] | e |] s1];
    simpl in Hsync1; [| | done | done].
  2: { rewrite log_run in Hrun. by injection Hrun as <-. }
  destruct (negb (response_ok resp)).
  { rewrite log_run in Hrun. by injection Hrun as <-. }
  destruct (status_code resp =? 200).
  2: { destruct (status_code resp =? 401);
         rewrite log_run in Hrun; by injection Hrun as <-. }
  rewrite bind_unfold in Hrun. unfold lift at 1 in Hrun.
  destruct (json_ids resp) as [[| k ids] | e |]; [| | done | done].
  { rewrite log_run in Hrun. by injection Hrun as <-. }
  rewrite bind_unfold, log_run in Hrun. rewrite bind_unfold in Hrun.
  destruct (submit_all page (k :: ids) _) as [[[] | e |] s3]; [| done | done].
  rewrite bind_unfold in Hrun.
  destruct (as_completed_loop W nfkd fuel page _ (k :: ids) s3)
    as [[[] | e |] s4]; [| done | done].
  rewrite bind_unfold in Hrun.
  assert (Hup : update_page (page + 1) s4 = (Ok tt, (update_page (page + 1) s4).2))
    by reflexivity.
  rewrite Hup in Hrun. cbv beta iota in Hrun. rewrite bind_unfold in Hrun.
  assert (Hs : save (update_page (page + 1) s4).2
               = (Ok tt, (save (update_page (page + 1) s4).2).2))
    by reflexivity.
  rewrite Hs in Hrun. cbv beta iota in Hrun.
  apply IH in Hrun; [exact Hrun |]. by split.
Qed.

Lemma run_synced W nfkd fuel resume f s' :
  run_bulk_update W nfkd fuel resume (initial_state f) = (Ok tt, s') ->
  synced s'.
Proof.
  intros Hrun. destruct (cursor_error resume f) as [e0 |] eqn:Hcur.
  { by rewrite (run_bulk_update_cursorless W nfkd fuel resume f e0 Hcur)
      in Hrun. }
  rewrite (run_bulk_update_anatomy W nfkd fuel resume f Hcur) in Hrun.
  destruct (page_loop W nfkd fuel _ (start_state resume f)) as [r6 s6] eqn:E.
  simpl fst in Hrun. simpl snd in Hrun.
  destruct r6 as [[] | e |]; simpl in Hrun; [| | done].
  - injection Hrun as <-. unfold synced. simpl.
    apply (page_loop_synced W nfkd fuel _ _ _ E).
    destruct resume; [split; [done | exact Hcur] | by split].
  - injection Hrun as <-. by split.
Qed.

(** X15. Nothing is lost at exit. When a run ends (normally, or through
    one of its two handlers) the checkpoint file holds exactly the
    in-memory checkpoint, and loading it returns that checkpoint: the
    next run resumes from it. Writes to the file are taken to succeed. *)
Theorem run_ends_synced W nfkd fuel resume f s' :
  run_bulk_update W nfkd fuel resume (initial_state f) = (Ok tt, s') ->
  synced s' /\ (load s').1 = Ok (Shaped (data s')).
Proof.
  intros Hrun. pose proof (run_synced W nfkd fuel resume f s' Hrun) as Hsync.
  split; [exact Hsync |]. destruct Hsync as [Hsync Hcur].
  unfold loaded in Hsync. unfold load, try_except, lift.
  destruct (file s'); simpl; try (by rewrite Hsync). done.
Qed.

Lemma run_ends_synced_witness :
  synced (run_bulk_update world_catalog nfkd_latin1 5 true
            (initial_state NoFile)).2.
Proof.
  refine (proj1 (run_ends_synced world_catalog nfkd_latin1 5 true NoFile _ _)).
  vm_compute. reflexivity.
Defined.

(** *** Progress across a run *)

Global Instance keeps_progress_preorder : PreOrder keeps_progress.
Proof.
  split.
  - intros c. split; [lia |]. by split.
  - intros c1 c2 c3 (L1 & I1 & N1) (L2 & I2 & N2).
    split; [lia |]. split; [intros k Hk; by apply I2, I1 |].
    intros H. by apply N2, N1.
Qed.

Global Instance progresses_preorder : PreOrder progresses.
Proof.
  split.
  - intros s. unfold progresses. reflexivity.
  - intros s1 s2 s3 H1 H2. unfold progresses in *. by etrans.
Qed.

Lemma progresses_same_data s s' : data s' = data s -> progresses s s'.
Proof. intros H. unfold progresses. rewrite H. reflexivity. Qed.

Lemma page_loop_progresses W nfkd fuel page s r s' :
  last_page (data s) = page ->
  page_loop W nfkd fuel page s = (r, s') ->
  progresses s s'.
Proof.
  intros Hlp Hrun.
  refine (page_loop_R W nfkd progresses _ _ _ _ _ _ fuel page s r s' Hlp Hrun).
  - intros s0 s1 (_ & Hl & _ & _ & Hin & Hnd).
    split; [lia |]. by split.
  - intros s0 p k. by apply progresses_same_data.
  - intros s0 p k. by apply progresses_same_data.
  - intros _ s0 p k. by apply progresses_same_data.
  - intros s0. by apply progresses_same_data.
  - intros s0. split; [simpl; lia |]. by split.
Qed.

(** X16. A resumed run never loses progress. When it ends, the
    checkpoint that the file yields has a page cursor at least as large
    as the one the file yielded at the start, lists every unit that was
    listed as processed at the start, and is free of duplicates if the
    list was at the start. Writes to the file are taken to succeed. *)
Theorem resumed_run_keeps_progress W nfkd fuel f s' :
  run_bulk_update W nfkd fuel true (initial_state f) = (Ok tt, s') ->
  keeps_progress (loaded f) (loaded (file s')).
Proof.
  intros Hrun. rewrite (proj1 (run_synced W nfkd fuel true f s' Hrun)).
  destruct (cursor_error true f) as [e0 |] eqn:Hcur.
  { by rewrite (run_bulk_update_cursorless W nfkd fuel true f e0 Hcur)
      in Hrun. }
  rewrite (run_bulk_update_anatomy W nfkd fuel true f Hcur) in Hrun.
  destruct (page_loop W nfkd fuel _ (start_state true f)) as [r6 s6] eqn:E.
  simpl fst in Hrun. simpl snd in Hrun.
  pose proof (page_loop_progresses W nfkd fuel _ _ r6 s6 eq_refl E) as H.
  unfold progresses in H. change (data (start_state true f)) with (loaded f) in H.
  destruct r6 as [[] | e |]; simpl in Hrun; [| | done];
    by injection Hrun as <-.
Qed.

Lemma resumed_run_keeps_progress_witness :
  keeps_progress (loaded (Stored {| processed_skus := [11]; last_page := 1 |}))
    (loaded (file (run_bulk_update world_catalog nfkd_latin1 5 true
                     (initial_state
                        (Stored {| processed_skus := [11]; last_page := 1 |}))).2)).
Proof.
  refine (resumed_run_keeps_progress world_catalog nfkd_latin1 5
            (Stored {| processed_skus := [11]; last_page := 1 |}) _ _).
  vm_compute. reflexivity.
Defined.

(** *** No unit is left behind *)

Lemma accounts_nil page s : accounts page (count_occ Z.eq_dec []) s -> settled s.
Proof.
  intros Hacc p k. rewrite (Hacc p k). simpl. destruct (decide _); lia.
Qed.

(** Leaving the pool waits for every pending unit. *)
Lemma shutdown_settles W nfkd fuel page n : forall pending s s',
  run_inv s -> last_page (data s) = page ->
  accounts page (count_occ Z.eq_dec pending) s ->
  n = length pending ->
  shutdown W nfkd fuel page n pending s = (Ok tt, s') ->
  settled s'.
Proof.
  induction n as [| n IH]; intros pending s s' Hinv Hlp Hacc Hn Hrun.
  { injection Hrun as <-. destruct pending; [| done].
    by apply (accounts_nil page). }
  cbn [shutdown] in Hrun. rewrite bind_unfold in Hrun.
  unfold get_trace at 1 in Hrun. cbv beta iota in Hrun.
  destruct (extract _ pending) as [[k rest] |] eqn:E.
  2: { apply extract_none in E. by subst. }
  apply extract_some in E as [Hlen Hcount].
  assert (Hacc' : accounts page
            (fun k' => count_occ Z.eq_dec rest k' + if decide (k' = k) then 1 else 0)%nat s).
  { intros p k'. rewrite (Hacc p k'). destruct (decide _); [| done].
    by rewrite Hcount. }
  rewrite bind_unfold in Hrun.
  destruct (worker_spec W nfkd fuel page k s _ Hinv Hlp Hacc')
    as (Hinv1 & Hlp1 & Hc1 & Hres).
  destruct (worker W nfkd fuel page k s) as [r1 s1].
  simpl in Hinv1, Hlp1, Hc1, Hres.
  destruct Hres as [[-> Hacc1] | ->]; [| done].
  apply (IH rest s1 s' Hinv1 Hlp1 Hacc1); [lia | exact Hrun].
Qed.

(** The completion loop, however it ends: nothing is pending. *)
Lemma as_completed_loop_settles W nfkd fuel page n : forall pending s r s',
  run_inv s -> last_page (data s) = page ->
  accounts page (count_occ Z.eq_dec pending) s ->
  n = length pending ->
  as_completed_loop W nfkd fuel page n pending s = (r, s') ->
  r <> OutOfFuel -> settled s'.
Proof.
  induction n as [| n IH]; intros pending s r s' Hinv Hlp Hacc Hn Hrun Hr.
  { injection Hrun as <- <-. destruct pending; [| done].
    by apply (accounts_nil page). }
  cbn [as_completed_loop] in Hrun. rewrite bind_unfold in Hrun.
  unfold get_trace at 1 in Hrun. cbv beta iota in Hrun.
  destruct (extract _ pending) as [[k rest] |] eqn:E.
  2: { apply extract_none in E. by subst. }
  apply extract_some in E as [Hlen Hcount].
  assert (Hacc' : accounts page
            (fun k' => count_occ Z.eq_dec rest k' + if decide (k' = k) then 1 else 0)%nat s).
  { intros p k'. rewrite (Hacc p k'). destruct (decide _); [| done].
    by rewrite Hcount. }
  rewrite bind_unfold in Hrun.
  destruct (worker_spec W nfkd fuel page k s _ Hinv Hlp Hacc')
    as (Hinv1 & Hlp1 & Hc1 & Hres).
  destruct (worker W nfkd fuel page k s) as [r1 s1].
  simpl in Hinv1, Hlp1, Hc1, Hres.
  destruct Hres as [[-> Hacc1] | ->].
  2: { by injection Hrun as <- <-. }
  rewrite bind_unfold in Hrun.
  unfold get_trace at 1 in Hrun. cbv beta iota in Hrun.
  destruct (sigint W (trace s1)).
  { rewrite bind_unfold in Hrun.
    destruct (shutdown W nfkd fuel page n rest s1) as [r2 s2] eqn:E2.
    destruct (shutdown_spec W nfkd fuel page n rest s1 r2 s2 Hinv1 Hlp1 Hacc1 E2)
      as (_ & _ & [-> | ->]).
    - injection Hrun as <- <-.
      apply (shutdown_settles W nfkd fuel page n rest s1 s2 Hinv1 Hlp1 Hacc1);
        [lia | exact E2].
    - by injection Hrun as <- <-. }
  rewrite bind_unfold in Hrun. unfold get_count at 1 in Hrun.
  cbv beta iota in Hrun.
  rewrite bind_unfold in Hrun. unfold set_count at 1 in Hrun.
  cbv beta iota in Hrun.
  set (s2 := {| trace := trace s1; data := data s1; file := file s1;
                processed_count := S (processed_count s1) |}) in Hrun.
  assert (Hinv2 : run_inv s2) by exact Hinv1.
  assert (Hacc2 : accounts page (count_occ Z.eq_dec rest) s2) by exact Hacc1.
  rewrite bind_unfold in Hrun.
  destruct (_ =? 0)%nat.
  - rewrite bind_unfold in Hrun.
    destruct (save_inv s2 Hinv2) as (Hinv3 & Hr3 & Hd3 & Hc3 & Hs3 & Hdn3).
    destruct (save s2) as [r3 s3]. simpl in Hinv3, Hr3, Hd3, Hs3, Hdn3.
    subst r3.
    destruct (log_inv (MsgCheckpointSaved (S (processed_count s1))) INFO s3 Hinv3)
      as (Hinv4 & Hd4 & Hc4 & Hs4 & Hdn4).
    destruct (log_message _ INFO s3) as [r4 s4] eqn:E4.
    assert (r4 = Ok tt) as -> by (by injection E4 as <- _).
    simpl in Hinv4, Hd4, Hs4, Hdn4. cbv beta iota in Hrun.
    apply (IH rest s4 r s'); [exact Hinv4 | by rewrite Hd4, Hd3 | | lia | exact Hrun | exact Hr].
    intros p k'. rewrite Hs4, Hdn4, Hs3, Hdn3. apply Hacc2.
  - cbv beta iota delta [ret] in Hrun.
    apply (IH rest s2 r s'); [exact Hinv2 | exact Hlp1 | exact Hacc2 | lia | exact Hrun | exact Hr].
Qed.

Lemma page_loop_settles W nfkd fuel : forall page s r s',
  run_inv s -> settled s -> last_page (data s) = page ->
  page_loop W nfkd fuel page s = (r, s') ->
  r <> OutOfFuel -> run_inv s' /\ settled s'.
Proof.
  induction fuel as [| fuel IH]; intros page s r s' Hinv Hset Hlp Hrun Hr.
  { by injection Hrun as <- _. }
  pose proof (page_loop_inv W nfkd (S fuel) page s r s' Hinv Hset Hlp Hrun)
    as Hinv'.
  split; [exact Hinv' |]. clear Hinv'.
  cbn [page_loop] in Hrun. rewrite bind_unfold in Hrun.
  unfold get_trace at 1 in Hrun. cbv beta iota in Hrun.
  destruct (sigint W (trace s)); [by injection Hrun as _ <- |].
  rewrite bind_unfold in Hrun.
  pose proof (safe_request_io W fuel GET (UrlSkuIds page page_size) None s)
    as Hio.
  assert (Hu : unit_step s (safe_request W fuel GET
                              (UrlSkuIds page page_size) None s).2).
  { apply io_unit_step. eapply io_weaken; [| exact Hio].
    apply request_layer_io_event. }
  destruct (unit_step_inv _ _ Hu Hinv) as (Hinv1 & Hsub1 & Hdon1).
  destruct Hu as (_ & Hlp1 & _). clear Hio.
  destruct (safe_request W fuel GET _ None s) as [[[resp |] | e |] s1];
    simpl in Hinv1, Hsub1, Hdon1, Hlp1.
  4: by injection Hrun as <- _.
  all: assert (Hset1 : settled s1) by (by apply (settled_quiet s)).
  2: { rewrite log_run in Hrun. injection Hrun as _ <-. by apply settled_log. }
  2: by injection Hrun as _ <-.
  destruct (negb (response_ok resp)).
  { rewrite log_run in Hrun. injection Hrun as _ <-. by apply settled_log. }
  destruct (status_code resp =? 200).
  2: { destruct (status_code resp =? 401);
         rewrite log_run in Hrun; injection Hrun as _ <-; by apply settled_log. }
  rewrite bind_unfold in Hrun. unfold lift at 1 in Hrun.
  destruct (json_ids resp) as [[| k ids] | e |].
  { rewrite log_run in Hrun. injection Hrun as _ <-. by apply settled_log. }
  2: by injection Hrun as _ <-.
  2: by injection Hrun as <- _.
  rewrite bind_unfold, log_run in Hrun.
  destruct (log_inv (MsgProcessingPage page (length (k :: ids))) INFO s1 Hinv1)
    as (Hinv2 & Hd2 & _ & Hs2 & Hdn2).
  set (s2 := (log_message (MsgProcessingPage page (length (k :: ids))) INFO s1).2)
    in *.
  clearbody s2.
  assert (Hacc2 : accounts page (fun _ => 0%nat) s2).
  { intros p k'. rewrite Hs2, Hdn2, <- (Hset1 p k'). destruct (decide _); lia. }
  assert (Hlp2 : last_page (data s2) = page) by (by rewrite Hd2, Hlp1).
  rewrite bind_unfold in Hrun.
  destruct (submit_all_spec page (k :: ids) s2 _ Hinv2 Hlp2 Hacc2)
    as (Hr3 & Hinv3 & Hd3 & _ & Hacc3).
  destruct (submit_all page (k :: ids) s2) as [r3 s3].
  simpl in Hr3, Hinv3, Hd3, Hacc3. subst r3.
  assert (Hlp3 : last_page (data s3) = page) by (by rewrite Hd3).
  rewrite bind_unfold in Hrun.
  destruct (as_completed_loop W nfkd fuel page (length (k :: ids)) (k :: ids) s3)
    as [r4 s4] eqn:E4.
  destruct (as_completed_loop_spec W nfkd fuel page (length (k :: ids))
              (k :: ids) s3 r4 s4 Hinv3 Hlp3 Hacc3 eq_refl E4)
    as (Hinv4 & Hlp4 & _).
  pose proof (as_completed_loop_settles W nfkd fuel page (length (k :: ids))
                (k :: ids) s3 r4 s4 Hinv3 Hlp3 Hacc3 eq_refl E4) as Hset4.
  destruct r4 as [[] | e |].
  2: { injection Hrun as _ <-. by apply Hset4. }
  2: by injection Hrun as <- _.
  specialize (Hset4 ltac:(done)).
  rewrite bind_unfold in Hrun.
  destruct (update_page_inv (page + 1) s4 Hinv4 Hset4 ltac:(lia))
    as (Hinv5 & Hset5 & Hlp5 & Hr5).
  destruct (update_page (page + 1) s4) as [r5 s5].
  simpl in Hinv5, Hset5, Hlp5, Hr5. subst r5.
  rewrite bind_unfold in Hrun.
  destruct (save_inv s5 Hinv5) as (Hinv6 & Hr6 & Hd6 & _ & Hs6 & Hdn6).
  destruct (save s5) as [r6 s6]. simpl in Hinv6, Hr6, Hd6, Hs6, Hdn6.
  subst r6.
  apply (IH (page + 1) s6 r s'); [done | | by rewrite Hd6 | exact Hrun | exact Hr].
  intros p k'. by rewrite Hs6, Hdn6.
Qed.

(** X17. No unit is left behind. When a run ends, however it ends
    (normally, interrupted from the keyboard, or on a fatal error),
    every unit that was handed to the worker pool has completed: each
    dispatch is matched by a completion. *)
Theorem run_leaves_no_unit_pending W nfkd fuel resume f s' :
  run_bulk_update W nfkd fuel resume (initial_state f) = (Ok tt, s') ->
  forall p k, dones p k (trace s') = submits p k (trace s').
Proof.
  intros Hrun. destruct (cursor_error resume f) as [e0 |] eqn:Hcur.
  { by rewrite (run_bulk_update_cursorless W nfkd fuel resume f e0 Hcur)
      in Hrun. }
  rewrite (run_bulk_update_anatomy W nfkd fuel resume f Hcur) in Hrun.
  destruct (page_loop W nfkd fuel _ (start_state resume f)) as [r6 s6] eqn:E.
  simpl fst in Hrun. simpl snd in Hrun.
  destruct (start_state_inv resume f) as [Hinv0 Hset0].
  assert (Hr : r6 <> OutOfFuel).
  { intros ->. done. }
  destruct (page_loop_settles W nfkd fuel _ _ r6 s6 Hinv0 Hset0 eq_refl E Hr)
    as [Hinv6 Hset6].
  change (settled s').
  destruct r6 as [[] | e |]; simpl in Hrun; [| | done]; injection Hrun as <-.
  - by apply (settled_log (MsgCompleted (processed_count s6)) INFO s6).
  - intros p k. unfold push, save_state. cbn [trace].
    rewrite !submits_app, !dones_app.
    assert (Hn : Forall neutral [handler_line e]) by (destruct e; by repeat constructor).
    rewrite (submits_neutral _ _ _ Hn), (dones_neutral _ _ _ Hn).
    rewrite (Hset6 p k). unfold submits, dones. simpl. lia.
Qed.

Lemma run_leaves_no_unit_pending_witness :
  dones 1 42 (trace (run_bulk_update world_catalog nfkd_latin1 5 true
                       (initial_state NoFile)).2)
  = submits 1 42 (trace (run_bulk_update world_catalog nfkd_latin1 5 true
                           (initial_state NoFile)).2).
Proof.
  refine (run_leaves_no_unit_pending world_catalog nfkd_latin1 5 true NoFile _ _
            1 42).
  vm_compute. reflexivity.
Defined.
